(** * Load generation and degradation analysis: a shallow embedding

    The benchmark scripts under [products/reframe/benchmark] and
    [scripts/run-benchmark.py] are embedded as Rocq functions, with the
    loop of [infrastructure/scripts/generate_report.py] that compares the
    VM sizes of their reports.

    Conventions of the embedding:
    - Python [int] is [Z]; a Python [float] is the rational [Q] it
      denotes.  Where a float decides which element is picked, which
      finding is listed or whether an exception is raised (the index of
      [get_percentile], the index [int(len * 0.99)] of the other 99th
      percentiles, the thresholds of [analyze_degradation]), the
      arithmetic is that of binary64, module [Double]: each operation
      rounds to the nearest float.  Elsewhere (sums, averages, rates) the
      exact result stands for the float nearest to it;
    - an operation that can raise returns a value of [res], with the
      exception it raises;
    - clock readings, transport outcomes and resource samples are inputs
      of the functions that consume them. *)

From Stdlib Require Import String.
From Stdlib Require Import ZArith QArith Qround Qminmax Qpower Qabs.
From Stdlib Require Import List Lia Lqa Bool.
From Stdlib Require Import Sorting.Sorted Sorting.Permutation.
From Stdlib Require Import SpecFloat.
Import ListNotations.

Local Open Scope Z_scope.
Local Open Scope Q_scope.

(** ** Python values and primitives *)

Module Py.

(** The built-in exceptions the modelled code can raise. *)
Inductive exn : Set :=
  | ZeroDivisionError
  | IndexError
  | ValueError
  | TypeError
  | OverflowError
  | TimeoutError                    (* asyncio.TimeoutError *)
  | OtherException (msg : string)   (* any other subclass of Exception *)
  | CancelledError                  (* derives from BaseException only *)
  | Blocked.                        (* not an exception: the awaited call
                                       never resumes; no handler sees it *)

(** [isinstance(e, Exception)] *)
Definition is_Exception (e : exn) : bool :=
  match e with
  | CancelledError | Blocked => false
  | _ => true
  end.

(** [isinstance(e, asyncio.TimeoutError)] *)
Definition is_TimeoutError (e : exn) : bool :=
  match e with
  | TimeoutError => true
  | _ => false
  end.

(** Outcome of evaluating an expression: a value, or a raised exception. *)
Inductive res (A : Type) : Type :=
  | Ret (a : A)
  | Raise (e : exn).

Arguments Ret {A} a.
Arguments Raise {A} e.

Definition bind {A B : Type} (m : res A) (k : A -> res B) : res B :=
  match m with
  | Ret a => k a
  | Raise e => Raise e
  end.

(** [len(l)] *)
Definition len {A : Type} (l : list A) : Z := Z.of_nat (List.length l).

(** [a / b]: true division, raising on a zero divisor. *)
Definition truediv (a b : Q) : res Q :=
  if Qeq_bool b 0 then Raise ZeroDivisionError else Ret (a / b).

(** [a // b] on integers: floor division, raising on a zero divisor. *)
Definition floordiv (a b : Z) : res Z :=
  if (b =? 0)%Z then Raise ZeroDivisionError else Ret (a / b)%Z.

(** [int(x)] on a float: truncation towards zero. *)
Definition int (x : Q) : Z := Z.quot (Qnum x) (Zpos (Qden x)).

(** [l[i]]: a negative index counts from the end; out of range raises. *)
Definition getitem {A : Type} (l : list A) (i : Z) : res A :=
  let j := if (i <? 0)%Z then (i + len l)%Z else i in
  if ((0 <=? j) && (j <? len l))%Z
  then match nth_error l (Z.to_nat j) with
       | Some x => Ret x
       | None => Raise IndexError
       end
  else Raise IndexError.

(** [range(start, stop, step)] as the list of its elements. *)
Definition range_len (start stop step : Z) : Z :=
  if (0 <? step)%Z then
    if (start <? stop)%Z then ((stop - start - 1) / step + 1)%Z else 0%Z
  else
    if (stop <? start)%Z then ((start - stop - 1) / (- step) + 1)%Z else 0%Z.

Definition range3 (start stop step : Z) : res (list Z) :=
  if (step =? 0)%Z then Raise ValueError
  else Ret (map (fun k => (start + Z.of_nat k * step)%Z)
                (seq 0 (Z.to_nat (range_len start stop step)))).

(** [range(start, stop)] *)
Definition range2 (start stop : Z) : list Z :=
  map (fun k => (start + Z.of_nat k)%Z) (seq 0 (Z.to_nat (stop - start))).

(** [sum(l)] over floats. *)
Definition sum (l : list Q) : Q := fold_left Qplus l 0.

(** [max(l)] and [min(l)]: raise [ValueError] on an empty sequence. *)
Definition max (l : list Q) : res Q :=
  match l with
  | [] => Raise ValueError
  | x :: r => Ret (fold_left (fun m y => if Qlt_le_dec m y then y else m) r x)
  end.

Definition min (l : list Q) : res Q :=
  match l with
  | [] => Raise ValueError
  | x :: r => Ret (fold_left (fun m y => if Qlt_le_dec y m then y else m) r x)
  end.

(** [sorted(l)] / [l.sort()] on floats: a stable sort, here by insertion
    of each element after the elements that are not greater. *)
Fixpoint insert (x : Q) (l : list Q) : list Q :=
  match l with
  | [] => [x]
  | y :: l' => if Qlt_le_dec x y then x :: y :: l' else y :: insert x l'
  end.

Definition sorted (l : list Q) : list Q :=
  fold_left (fun acc x => insert x acc) l [].

(** [a % b] on integers: the result takes the sign of [b]. *)
Definition mod_ (a b : Z) : res Z :=
  if (b =? 0)%Z then Raise ZeroDivisionError else Ret (a mod b)%Z.

(** A [for] loop whose body may raise, threading the loop state. *)
Fixpoint for_ {A S : Type} (l : list A) (body : S -> A -> res S) (s : S)
  : res S :=
  match l with
  | [] => Ret s
  | x :: l' => bind (body s x) (for_ l' body)
  end.

(** [[x] * n] *)
Definition replicate {A : Type} (x : A) (n : Z) : list A :=
  repeat x (Z.to_nat n).

(** [str(e)] of an exception raised by the transport. *)
Definition str (e : exn) : string :=
  match e with
  | OtherException msg => msg
  | _ => EmptyString
  end.

(** [sys.maxsize]: no sequence holds more elements. *)
Definition maxsize : Z := 2 ^ 63 - 1.

(** [asyncio.Semaphore(value)]: a negative initial value is refused. *)
Definition Semaphore (value : Z) : res Z :=
  if (value <? 0)%Z then Raise ValueError else Ret value.

End Py.

Notation "x <- m ;; k" := (Py.bind m (fun x => k))
  (at level 61, m at next level, right associativity).

(** ** Binary64 arithmetic

    A Python [float] is an IEEE 754 binary64 number.  A finite one is
    zero or [m * 2^e] for integers [|m| < 2^53] and [-1074 <= e <= 971];
    it is modelled by the rational it denotes.  An operation on floats
    gives the float nearest to the exact result, the one with the even
    significand when two are equally near, and an infinity when that
    float would be [2^1024] or more in magnitude. *)

Module Double.

(** The integer nearest to [y], the even one of two equally near. *)
Definition rne (y : Q) : Z :=
  let f := Qfloor y in
  match Qcompare (y - inject_Z f) (1 # 2) with
  | Lt => f
  | Eq => if Z.even f then f else (f + 1)%Z
  | Gt => (f + 1)%Z
  end.

(** [floor(log2(x))] for [x > 0]. *)
Definition ilog2 (x : Q) : Z :=
  let k := (Z.log2 (Qnum x) - Z.log2 (Z.pos (Qden x)))%Z in
  if Qle_bool (2 ^ k) x then k else (k - 1)%Z.

(** The exponent of the last bit kept of [x > 0]: 53 bits are kept, fewer
    below [2^-1022], where the last bit is that of [2^-1074]. *)
Definition ulp_exp (x : Q) : Z := Z.max (ilog2 x - 52) (-1074).

Definition round_pos (x : Q) : Q :=
  let e := ulp_exp x in inject_Z (rne (x / 2 ^ e)) * 2 ^ e.

(** The float nearest to [x], were the exponent not bounded above. *)
Definition round (x : Q) : Q :=
  match Qcompare x 0 with
  | Eq => 0
  | Gt => round_pos x
  | Lt => - round_pos (- x)
  end.

Inductive t : Type :=
  | Finite (x : Q)
  | Inf (negative : bool)
  | NaN.

Definition is_negative (x : Q) : bool := negb (Qle_bool 0 x).

(** The float an exact result [x] is rounded to; also the float a decimal
    literal denotes. *)
Definition of_Q (x : Q) : t :=
  let r := round x in
  if Qle_bool (2 ^ 1024) (Qabs r) then Inf (is_negative x) else Finite r.

(** The conversion of an [int] operand: [OverflowError] when the integer
    is too large for a float. *)
Definition of_int (n : Z) : Py.res t :=
  match of_Q (inject_Z n) with
  | Finite x => Py.Ret (Finite x)
  | _ => Py.Raise Py.OverflowError
  end.

(** [a - b] *)
Definition sub (a b : t) : t :=
  match a, b with
  | Finite x, Finite y => of_Q (x - y)
  | Finite _, Inf s => Inf (negb s)
  | Inf s, Finite _ => Inf s
  | Inf s, Inf s' => if Bool.eqb s s' then NaN else Inf s
  | _, _ => NaN
  end.

(** [a * b] *)
Definition mul (a b : t) : t :=
  match a, b with
  | Finite x, Finite y => of_Q (x * y)
  | Finite x, Inf s | Inf s, Finite x =>
      if Qeq_bool x 0 then NaN else Inf (xorb s (is_negative x))
  | Inf s, Inf s' => Inf (xorb s s')
  | _, _ => NaN
  end.

(** [a / b]: a zero divisor raises. *)
Definition div (a b : t) : Py.res t :=
  match b with
  | Finite y =>
      if Qeq_bool y 0 then Py.Raise Py.ZeroDivisionError
      else match a with
           | Finite x => Py.Ret (of_Q (x / y))
           | Inf s => Py.Ret (Inf (xorb s (is_negative y)))
           | NaN => Py.Ret NaN
           end
  | Inf _ =>
      match a with
      | Finite _ => Py.Ret (Finite 0)
      | _ => Py.Ret NaN
      end
  | NaN => Py.Ret NaN
  end.

(** [a < b]; no order holds of NaN. *)
Definition lt (a b : t) : bool :=
  match a, b with
  | Finite x, Finite y => if Qlt_le_dec x y then true else false
  | Finite _, Inf s => negb s
  | Inf s, Finite _ => s
  | Inf s, Inf s' => s && negb s'
  | _, _ => false
  end.

(** [int(a)]: truncation; an infinity raises [OverflowError], NaN
    [ValueError]. *)
Definition int (a : t) : Py.res Z :=
  match a with
  | Finite x => Py.Ret (Py.int x)
  | Inf _ => Py.Raise Py.OverflowError
  | NaN => Py.Raise Py.ValueError
  end.

End Double.

(** ** Statistics aggregator *)

(** [get_percentile(data, percentile)], the nested helper of
    [run_benchmark_test] (optimized and enhanced variants) and of [run_test]
    (scripts/run-benchmark.py); the three copies are the same text.

<<
    if not data: return 0
    index = int(len(data) * percentile / 100)
    if index >= len(data): index = len(data) - 1
    return data[index]
>>

    The index is computed on floats: [percentile] stands for the float
    nearest to it, so for the float that is passed, or that the literal
    [99.9] denotes.  The callers also pass the ints 50, 95 and 99, for
    which Python multiplies integers and rounds the quotient only; as long
    as [len(data) * percentile < 2^53] the product is the same float, and
    so is the index (lemma [int_rank_is_rank] below).  A list holds at
    most [sys.maxsize] elements, so [len(data)] is taken up to that
    bound. *)
Definition get_percentile (data : list Q) (percentile : Q) : Py.res Q :=
  match data with
  | [] => Py.Ret 0
  | _ :: _ =>
      n <- Double.of_int (Z.min (Py.len data) Py.maxsize) ;;
      q <- Double.div (Double.mul n (Double.of_Q percentile))
                      (Double.of_Q 100) ;;
      index <- Double.int q ;;
      let index :=
        if (Py.len data <=? index)%Z then (Py.len data - 1)%Z else index in
      Py.getitem data index
  end.

(** [int(n * 0.99)] for the length [n] of a list, the index at which
    [run_batch], [run_benchmark] (fixed variant) and [run_wave] take the
    99th percentile: the length becomes a float, and the product with the
    float nearest to 0.99 is rounded. *)
Definition p99_index (n : Z) : Py.res Z :=
  a <- Double.of_int (Z.min n Py.maxsize) ;;
  Double.int (Double.mul a (Double.of_Q (99 # 100))).


(** ** Resource monitor *)

Module CPUMonitor.

(** The two copies of the class (optimized and enhanced variants) differ in
    the sampling loop only. *)
Inductive variant : Set := Optimized | Enhanced.

Record t : Type := {
  cpu_samples : list Q;
  memory_samples : list Q;
  monitoring : bool
}.

(** [__init__] *)
Definition init : t :=
  {| cpu_samples := []; memory_samples := []; monitoring := false |}.

(** [start]; the thread it spawns is [_monitor_loop] below. *)
Definition start (m : t) : t :=
  {| cpu_samples := cpu_samples m;
     memory_samples := memory_samples m;
     monitoring := true |}.

(** One turn of the sampling loop reads psutil, which may raise. *)
Inductive reading : Type :=
  | Sample (cpu_percent memory_percent : Q)
  | Fault.

(** Body of the [while self.monitoring] loop: [None] is [break]. *)
Definition monitor_iter (v : variant) (m : t) (r : reading) : option t :=
  match r with
  | Fault => None
  | Sample cpu_percent memory_percent =>
      match v with
      | Optimized =>
          if Qlt_le_dec 0 cpu_percent
          then Some {| cpu_samples := cpu_samples m ++ [cpu_percent];
                       memory_samples := memory_samples m ++ [memory_percent];
                       monitoring := monitoring m |}
          else Some m
      | Enhanced =>
          Some {| cpu_samples := cpu_samples m ++ [cpu_percent];
                  memory_samples := memory_samples m ++ [memory_percent];
                  monitoring := monitoring m |}
      end
  end.

(** [_monitor_loop] over the readings taken before [stop] clears the flag. *)
Fixpoint monitor_loop (v : variant) (m : t) (rs : list reading) : t :=
  match rs with
  | [] => m
  | r :: rs' =>
      match monitor_iter v m r with
      | Some m' => monitor_loop v m' rs'
      | None => m
      end
  end.

Record summary : Type := {
  avg_cpu : Q;
  peak_cpu : Q;
  avg_memory : Q;
  peak_memory : Q
}.

(** [stop], once the sampling thread has been joined. *)
Definition stop (m : t) : Py.res summary :=
  match cpu_samples m with
  | [] =>
      Py.Ret {| avg_cpu := 0; peak_cpu := 0; avg_memory := 0; peak_memory := 0 |}
  | _ :: _ =>
      a_cpu <- Py.truediv (Py.sum (cpu_samples m))
                          (inject_Z (Py.len (cpu_samples m))) ;;
      p_cpu <- Py.max (cpu_samples m) ;;
      a_mem <- Py.truediv (Py.sum (memory_samples m))
                          (inject_Z (Py.len (memory_samples m))) ;;
      p_mem <- Py.max (memory_samples m) ;;
      Py.Ret {| avg_cpu := a_cpu; peak_cpu := p_cpu;
                avg_memory := a_mem; peak_memory := p_mem |}
  end.

(** A monitor's whole life: created, started, sampled, stopped. *)
Definition run (v : variant) (rs : list reading) : Py.res summary :=
  stop (monitor_loop v (start init) rs).

End CPUMonitor.

(** ** Request executor *)

Module Net.

(** What the awaited [session.post(...)] / [resp.read()] does. *)
Inductive outcome : Type :=
  | Responds (status : Z)
  | Fails (e : Py.exn).

(** One exchange with the clock readings taken around it:
    [started] is [time.perf_counter()] before the call, [ended] the reading
    taken after the body was read, or on entry to the handler. *)
Record attempt : Type := {
  started : Q;
  ended : Q;
  result : outcome
}.

Definition elapsed_ms (a : attempt) : Q := (ended a - started a) * 1000.

(** The exchange is answered, or fails with an [Exception] (it is not
    cancelled and does not hang). *)
Definition ordinary (a : attempt) : bool :=
  match result a with
  | Responds _ => true
  | Fails e => Py.is_Exception e
  end.

End Net.


(** ** Concurrency controller *)

(** The pattern shared by [process_with_stats] (optimized variant) and by
    the [make_request] closures of [run_batch] and [run_wave]:

<<
    async with semaphore:
        r = <one request>
        <record r>            # optimized variant only
>>

    run by [asyncio.gather] over as many coroutines as there are requests.
    A coroutine is suspended before the semaphore block, or inside it
    (its request is in flight for part of that time), or it is finished.
    The event loop interleaves the coroutines: a step admits one coroutine
    into the block, which takes a free slot, or takes one out of it, which
    frees its slot, also when the request raised. *)
Module Controller.

Section Gather.

Context {R S : Type}.

(** [R] is what the target delivers for one request; [record] is what the
    coroutine does with it before it leaves the semaphore block. *)
Variable record : R -> S -> S.

Inductive task : Type :=
  | Pending
  | InFlight
  | Finished (r : R).

Record state : Type := {
  sem_value : Z;          (* free slots of the semaphore *)
  tasks : list task;
  acc : S                 (* state shared by the coroutines *)
}.

Definition init (concurrent : Z) (n : nat) (s0 : S) : state :=
  {| sem_value := concurrent; tasks := repeat Pending n; acc := s0 |}.

Fixpoint set_nth (i : nat) (x : task) (l : list task) : list task :=
  match l, i with
  | [], _ => []
  | _ :: l', O => x :: l'
  | y :: l', Datatypes.S i' => y :: set_nth i' x l'
  end.

Inductive step : state -> state -> Prop :=
  | step_acquire (st : state) (i : nat) :
      nth_error (tasks st) i = Some Pending ->
      (0 < sem_value st)%Z ->
      step st {| sem_value := sem_value st - 1;
                 tasks := set_nth i InFlight (tasks st);
                 acc := acc st |}
  | step_release (st : state) (i : nat) (r : R) :
      nth_error (tasks st) i = Some InFlight ->
      step st {| sem_value := sem_value st + 1;
                 tasks := set_nth i (Finished r) (tasks st);
                 acc := record r (acc st) |}.

Inductive reachable (s0 : state) : state -> Prop :=
  | reach_init : reachable s0 s0
  | reach_step (st st' : state) :
      reachable s0 st -> step st st' -> reachable s0 st'.

Definition is_in_flight (t : task) : bool :=
  match t with InFlight => true | _ => false end.


(** Number of coroutines inside the block, an upper bound of the number
    of requests the target is serving. *)
Definition in_flight (st : state) : Z :=
  Py.len (filter is_in_flight (tasks st)).


(** The schedule that serves the coroutines one after the other. *)
Definition run_in_order (rs : list R) (s0 : S) : S :=
  fold_left (fun s r => record r s) rs s0.

End Gather.

Arguments task R : clear implicits.
Arguments state R S : clear implicits.

(** What awaiting [asyncio.gather] over the coroutines yields when
    every coroutine is guarded by a semaphore of [concurrent] slots: with
    no slot and some coroutine, none is ever admitted. *)
Definition gather {R : Type} (concurrent : Z) (rs : list R) : Py.res (list R) :=
  match rs with
  | [] => Py.Ret []
  | _ :: _ => if (concurrent =? 0)%Z then Py.Raise Py.Blocked else Py.Ret rs
  end.

End Controller.

(** ** The summary of a run, [run_benchmark_test] (optimized and enhanced
    variants share its text) *)

Module Report.

Record performance : Type := {
  total_time : Q;
  throughput : Q;
  success_rate : Q;
  total_requests : Z;
  successful : Z;
  failed : Z
}.

Record latency : Type := {
  min : Q;
  avg : Q;
  p50 : Q;
  p95 : Q;
  p99 : Q;
  max : Q
}.

Record t : Type := {
  perf : performance;
  lat : latency;
  resources : CPUMonitor.summary
}.

(** From [throughput = ...] to the [return] of [run_benchmark_test];
    [latencies] is already sorted by the caller. *)
Definition build (num_requests : Z) (total_time_ : Q) (latencies : list Q)
    (successes failures : Z) (cpu_stats : CPUMonitor.summary) : Py.res t :=
  throughput_ <-
    (if Qlt_le_dec 0 total_time_
     then Py.truediv (inject_Z num_requests) total_time_
     else Py.Ret 0) ;;
  success_rate_ <-
    (if (0 <? num_requests)%Z
     then r <- Py.truediv (inject_Z successes) (inject_Z num_requests) ;;
          Py.Ret (r * 100)
     else Py.Ret 0) ;;
  min_ <- (match latencies with [] => Py.Ret 0 | _ => Py.min latencies end) ;;
  avg_ <-
    (match latencies with
     | [] => Py.Ret 0
     | _ => Py.truediv (Py.sum latencies) (inject_Z (Py.len latencies))
     end) ;;
  p50_ <- get_percentile latencies 50 ;;
  p95_ <- get_percentile latencies 95 ;;
  p99_ <- get_percentile latencies 99 ;;
  max_ <- (match latencies with [] => Py.Ret 0 | _ => Py.max latencies end) ;;
  Py.Ret {| perf := {| total_time := total_time_;
                       throughput := throughput_;
                       success_rate := success_rate_;
                       total_requests := num_requests;
                       successful := successes;
                       failed := failures |};
            lat := {| min := min_; avg := avg_; p50 := p50_;
                      p95 := p95_; p99 := p99_; max := max_ |};
            resources := cpu_stats |}.

End Report.

(** ** optimized_benchmark.py *)

Module Optimized.

(** [RequestWorker.process_request] *)
Definition process_request (a : Net.attempt) : Py.res (Q * bool) :=
  match Net.result a with
  | Net.Responds status => Py.Ret (Net.elapsed_ms a, (status =? 200)%Z)
  | Net.Fails e =>
      if Py.is_TimeoutError e then Py.Ret (Net.elapsed_ms a, false)
      else if Py.is_Exception e then Py.Ret (Net.elapsed_ms a, false)
      else Py.Raise e
  end.

(** The [stats] dictionary of [run_benchmark_test]. *)
Record stats : Type := {
  latencies : list Q;
  successes : Z;
  failures : Z
}.

Definition stats0 : stats :=
  {| latencies := []; successes := 0; failures := 0 |}.

(** [process_with_stats] once its request is answered: the call of
    [process_request] and the update of [stats] under the lock; an
    exception leaves the block without touching [stats]. *)
Definition process_with_stats (a : Net.attempt) (st : stats) : stats :=
  match process_request a with
  | Py.Ret (latency, success) =>
      {| latencies := latencies st ++ [latency];
         successes := if success then (successes st + 1)%Z else successes st;
         failures := if success then failures st else (failures st + 1)%Z |}
  | Py.Raise _ => st
  end.

(** [run_benchmark_test].  [net i] is the exchange of request [i];
    [readings] are the monitor's samples; [total_time] is the difference of
    the two clock readings around the run.  The warm-up requests, which go
    to [process_request] directly and leave [stats] alone, and the progress
    lines are left out.  Coroutines are served in task order (the
    statistics do not depend on the order but for the order of
    [latencies], which is sorted). *)
Definition run_benchmark_test (net : Z -> Net.attempt)
    (readings : list CPUMonitor.reading) (total_time : Q)
    (num_requests concurrent : Z) : Py.res Report.t :=
  let num_workers := Z.min concurrent 100 in
  let workers := Py.range2 0 num_workers in
  _ <- Py.Semaphore concurrent ;;
  tasks <- Py.for_ (Py.range2 0 num_requests)
             (fun tasks i =>
                k <- Py.mod_ i num_workers ;;
                _ <- Py.getitem workers k ;;
                Py.Ret (tasks ++ [net i]))
             [] ;;
  served <- Controller.gather concurrent tasks ;;
  let st := Controller.run_in_order process_with_stats served stats0 in
  cpu_stats <- CPUMonitor.run CPUMonitor.Optimized readings ;;
  Report.build num_requests total_time (Py.sorted (latencies st))
               (successes st) (failures st) cpu_stats.

End Optimized.


(** ** enhanced_benchmark.py *)

Module Enhanced.

(** [make_request] *)
Definition make_request (a : Net.attempt) : Py.res (Q * bool) :=
  match Net.result a with
  | Net.Responds status => Py.Ret (Net.elapsed_ms a, (status =? 200)%Z)
  | Net.Fails e =>
      if Py.is_Exception e then Py.Ret (Net.elapsed_ms a, false)
      else Py.Raise e
  end.

Record tally : Type := {
  latencies : list Q;
  successes : Z;
  failures : Z
}.

Definition tally0 : tally :=
  {| latencies := []; successes := 0; failures := 0 |}.

(** Body of [for result in results]: an element of the gathered list is a
    pair or an exception object; unpacking an exception object that is not
    an [Exception] raises [TypeError]. *)
Definition count_result (t : tally) (result : Py.res (Q * bool))
  : Py.res tally :=
  match result with
  | Py.Raise e =>
      if Py.is_Exception e
      then Py.Ret {| latencies := latencies t ++ [0];
                     successes := successes t;
                     failures := (failures t + 1)%Z |}
      else Py.Raise Py.TypeError
  | Py.Ret (latency, success) =>
      Py.Ret {| latencies := latencies t ++ [latency];
                successes := if success then (successes t + 1)%Z
                             else successes t;
                failures := if success then failures t
                            else (failures t + 1)%Z |}
  end.

(** The slice starting at request [i]: [batch_timeout i] tells whether
    [asyncio.wait_for] gave up on it. *)
Definition run_slice (net : Z -> Net.attempt) (batch_timeout : Z -> bool)
    (num_requests concurrent : Z) (t : tally) (i : Z) : Py.res tally :=
  let batch_size := Z.min concurrent (num_requests - i) in
  let batch :=
    map (fun j => make_request (net (i + j)%Z)) (Py.range2 0 batch_size) in
  let results :=
    if batch_timeout i
    then Py.replicate (Py.Ret (0, false)) batch_size
    else batch in
  Py.for_ results count_result t.

(** The request loop of [run_benchmark_test]. *)
Definition run_requests (net : Z -> Net.attempt) (batch_timeout : Z -> bool)
    (num_requests concurrent : Z) : Py.res tally :=
  starts <- Py.range3 0 num_requests concurrent ;;
  Py.for_ starts (run_slice net batch_timeout num_requests concurrent) tally0.

(** [run_benchmark_test] *)
Definition run_benchmark_test (net : Z -> Net.attempt)
    (batch_timeout : Z -> bool) (readings : list CPUMonitor.reading)
    (total_time : Q) (num_requests concurrent : Z) : Py.res Report.t :=
  t <- run_requests net batch_timeout num_requests concurrent ;;
  cpu_stats <- CPUMonitor.run CPUMonitor.Enhanced readings ;;
  Report.build num_requests total_time (Py.sorted (latencies t))
               (successes t) (failures t) cpu_stats.

End Enhanced.

(** ** fixed_benchmark.py *)

Module Fixed.

(** The closure [make_request] of [run_batch], inside its semaphore block. *)
Definition make_request (a : Net.attempt) : Py.res (Q * bool) :=
  match Net.result a with
  | Net.Responds status => Py.Ret (Net.elapsed_ms a, (status =? 200)%Z)
  | Net.Fails e =>
      if Py.is_TimeoutError e then Py.Ret (0, false)
      else if Py.is_Exception e then Py.Ret (0, false)
      else Py.Raise e
  end.

Record tally : Type := {
  latencies : list Q;
  successes : Z;
  failures : Z
}.

Definition tally0 : tally :=
  {| latencies := []; successes := 0; failures := 0 |}.

(** Body of [for result in results]. *)
Definition count_result (t : tally) (result : Py.res (Q * bool)) : tally :=
  match result with
  | Py.Ret (latency, success) =>
      if success
      then {| latencies := if Qlt_le_dec 0 latency
                           then latencies t ++ [latency] else latencies t;
              successes := (successes t + 1)%Z;
              failures := failures t |}
      else {| latencies := latencies t;
              successes := successes t;
              failures := (failures t + 1)%Z |}
  | Py.Raise _ =>
      {| latencies := latencies t;
         successes := successes t;
         failures := (failures t + 1)%Z |}
  end.

(** The chunk starting at request [i]. *)
Definition run_chunk (net : Z -> Net.attempt)
    (num_requests concurrent chunk_size : Z) (t : tally) (i : Z)
  : Py.res tally :=
  let chunk_requests := Z.min chunk_size (num_requests - i) in
  let tasks :=
    map (fun j => make_request (net (i + j)%Z)) (Py.range2 0 chunk_requests) in
  results <- Controller.gather concurrent tasks ;;
  Py.Ret (fold_left count_result results t).

(** The request loop of [run_batch]. *)
Definition run_requests (net : Z -> Net.attempt) (num_requests concurrent : Z)
  : Py.res tally :=
  _ <- Py.Semaphore concurrent ;;
  let chunk_size := Z.min 500 num_requests in
  starts <- Py.range3 0 num_requests chunk_size ;;
  Py.for_ starts (run_chunk net num_requests concurrent chunk_size) tally0.

Record batch_result : Type := {
  batch : Z;
  throughput : Q;
  success_rate : Q;
  total_requests : Z;
  successful : Z;
  failed : Z;
  avg_latency : Q;
  p99_latency : Q;
  duration : Q
}.

(** [latencies[int(len(latencies) * 0.99)] if latencies else 0] *)
Definition p99_of (latencies : list Q) : Py.res Q :=
  match latencies with
  | [] => Py.Ret 0
  | _ :: _ =>
      index <- p99_index (Py.len latencies) ;;
      Py.getitem latencies index
  end.

(** [run_batch] *)
Definition run_batch (net : Z -> Net.attempt) (total_time : Q)
    (batch_num num_requests concurrent : Z) : Py.res batch_result :=
  t <- run_requests net num_requests concurrent ;;
  throughput_ <-
    (if Qlt_le_dec 0 total_time
     then Py.truediv (inject_Z (successes t)) total_time
     else Py.Ret 0) ;;
  let latencies_ := Py.sorted (latencies t) in
  avg_latency_ <-
    (match latencies_ with
     | [] => Py.Ret 0
     | _ => Py.truediv (Py.sum latencies_) (inject_Z (Py.len latencies_))
     end) ;;
  p99_latency_ <- p99_of latencies_ ;;
  success_rate_ <-
    (if (0 <? num_requests)%Z
     then r <- Py.truediv (inject_Z (successes t)) (inject_Z num_requests) ;;
          Py.Ret (r * 100)
     else Py.Ret 0) ;;
  Py.Ret {| batch := batch_num;
            throughput := throughput_;
            success_rate := success_rate_;
            total_requests := num_requests;
            successful := successes t;
            failed := failures t;
            avg_latency := avg_latency_;
            p99_latency := p99_latency_;
            duration := total_time |}.

(** [batch_size] of [run_benchmark]. *)
Definition batch_size : Z := 5000.

(** The batch driver of [run_benchmark], for a batch size [batch_size_]
    (the source fixes it to [batch_size]). *)
Definition num_batches (batch_size_ total_requests_ : Z) : Py.res Z :=
  Py.floordiv (total_requests_ + batch_size_ - 1) batch_size_.

Definition requests_in_batch (batch_size_ total_requests_ batch_num : Z) : Z :=
  Z.min batch_size_ (total_requests_ - (batch_num - 1) * batch_size_).

Record accum : Type := {
  all_results : list batch_result;
  cumulative_time : Q;
  cumulative_requests : Z;
  cumulative_successes : Z
}.

Definition accum0 : accum :=
  {| all_results := []; cumulative_time := 0;
     cumulative_requests := 0; cumulative_successes := 0 |}.

Record run_result : Type := {
  perf : Report.performance;
  p99 : Q;
  batches : list batch_result
}.

(** The batch loop of [run_benchmark], for a batch size [batch_size_]:
    the batches it runs, and the totals it keeps of them.  [net b] serves
    the requests of batch [b] and [durations b] is the time that batch
    took.

<<
    num_batches = (total_requests + batch_size - 1) // batch_size
    for batch_num in range(1, num_batches + 1):
        requests_in_batch = min(batch_size,
                                total_requests - (batch_num - 1) * batch_size)
        result = await self.run_batch(batch_num, requests_in_batch,
                                      concurrent, data)
        all_results.append(result)
        cumulative_time += result['duration']
        cumulative_requests += result['total_requests']
        cumulative_successes += result['successful']
>> *)
Definition run_batches (batch_size_ : Z) (net : Z -> Z -> Net.attempt)
    (durations : Z -> Q) (total_requests_ concurrent : Z) : Py.res accum :=
  n <- num_batches batch_size_ total_requests_ ;;
  Py.for_ (Py.range2 1 (n + 1))
    (fun acc batch_num =>
       result <- run_batch (net batch_num) (durations batch_num)
                   batch_num
                   (requests_in_batch batch_size_ total_requests_ batch_num)
                   concurrent ;;
       Py.Ret {| all_results := all_results acc ++ [result];
                 cumulative_time := cumulative_time acc + duration result;
                 cumulative_requests :=
                   (cumulative_requests acc + total_requests result)%Z;
                 cumulative_successes :=
                   (cumulative_successes acc + successful result)%Z |})
    accum0.

(** [run_benchmark]: the batches, with [batch_size = 5000], and then the
    summary. *)
Definition run_benchmark (net : Z -> Z -> Net.attempt) (durations : Z -> Q)
    (total_requests_ concurrent : Z) : Py.res run_result :=
  acc <- run_batches batch_size net durations total_requests_ concurrent ;;
  overall_throughput <-
    (if Qlt_le_dec 0 (cumulative_time acc)
     then Py.truediv (inject_Z (cumulative_successes acc)) (cumulative_time acc)
     else Py.Ret 0) ;;
  let all_latencies :=
    Py.sorted
      (flat_map (fun r => Py.replicate (avg_latency r) (successful r))
                (all_results acc)) in
  overall_p99 <- p99_of all_latencies ;;
  _ <- (if (1 <? Py.len (all_results acc))%Z
        then first_ <- Py.getitem (all_results acc) 0 ;;
             last_ <- Py.getitem (all_results acc) (-1) ;;
             d <- Py.truediv (throughput first_ - throughput last_)
                             (throughput first_) ;;
             Py.Ret (d * 100)
        else Py.Ret 0) ;;
  success_rate_ <-
    (r <- Py.truediv (inject_Z (cumulative_successes acc))
                     (inject_Z (cumulative_requests acc)) ;;
     Py.Ret (r * 100)) ;;
  Py.Ret {| perf := {| Report.total_time := cumulative_time acc;
                       Report.throughput := overall_throughput;
                       Report.success_rate := success_rate_;
                       Report.total_requests := cumulative_requests acc;
                       Report.successful := cumulative_successes acc;
                       Report.failed :=
                         (cumulative_requests acc
                          - cumulative_successes acc)%Z |};
            p99 := overall_p99;
            batches := all_results acc |}.

End Fixed.


(** ** investigate_degradation.py *)

Module Investigate.

(** The closure [make_request] of [run_wave], inside its semaphore block. *)
Definition make_request (a : Net.attempt)
  : Py.res (Q * bool * option string) :=
  match Net.result a with
  | Net.Responds status => Py.Ret (Net.elapsed_ms a, (status =? 200)%Z, None)
  | Net.Fails e =>
      if Py.is_TimeoutError e then Py.Ret (0, false, Some "timeout"%string)
      else if Py.is_Exception e
           then Py.Ret (0, false, Some (substring 0 50 (Py.str e)))
           else Py.Raise e
  end.

(** The dictionary [monitor_connections] returns. *)
Record snapshot : Type := {
  total : Z;
  time_wait : Z;
  established : Z;
  close_wait : Z;
  fin_wait : Z
}.

Inductive connections : Type :=
  | Snapshot (s : snapshot)
  | ConnError (msg : string).      (* [{'error': str(e)}] *)

(** [conn.get('total', 0)] *)
Definition get_total (c : connections) : Z :=
  match c with
  | Snapshot s => total s
  | ConnError _ => 0%Z
  end.

(** The dictionary [run_wave] returns. *)
Record wave_metrics : Type := {
  wave : Z;
  time_since_start : Q;
  throughput : Q;
  successful : Z;
  failed : Z;
  avg_latency : Q;
  p99_latency : Q;
  memory_mb : Q;
  connections_before : connections;
  connections_after : connections;
  connection_growth : Z;
  errors : list string
}.

(** What [run_wave] reads from its environment. *)
Record wave_env : Type := {
  env_net : Z -> Net.attempt;
  env_duration : Q;
  env_conn_before : connections;
  env_conn_after : connections;
  env_memory_mb : Q;
  env_time_since_start : Q
}.

(** [asyncio.gather] called without [return_exceptions]: a coroutine that
    raises makes the call raise. *)
Fixpoint all_results {A : Type} (l : list (Py.res A)) : Py.res (list A) :=
  match l with
  | [] => Py.Ret []
  | Py.Raise e :: _ => Py.Raise e
  | Py.Ret a :: l' => r <- all_results l' ;; Py.Ret (a :: r)
  end.

Record tally : Type := {
  latencies : list Q;
  successful_ : Z;
  errors_ : list string
}.

(** Body of [for latency, success, error in results]. *)
Definition count_result (t : tally) (r : Q * bool * option string) : tally :=
  match r with
  | (latency, success, error) =>
      if success
      then {| latencies := latencies t ++ [latency];
              successful_ := (successful_ t + 1)%Z;
              errors_ := errors_ t |}
      else match error with
           | Some (String c m) =>
               {| latencies := latencies t;
                  successful_ := successful_ t;
                  errors_ := errors_ t ++ [String c m] |}
           | _ => t
           end
  end.

(** [sorted(latencies)[int(len(latencies) * 0.99)] if latencies else 0] *)
Definition p99_of (latencies_ : list Q) : Py.res Q :=
  match latencies_ with
  | [] => Py.Ret 0
  | _ :: _ =>
      index <- p99_index (Py.len latencies_) ;;
      Py.getitem (Py.sorted latencies_) index
  end.

(** [run_wave] *)
Definition run_wave (env : wave_env)
    (wave_num requests_per_wave concurrency : Z) : Py.res wave_metrics :=
  _ <- Py.Semaphore concurrency ;;
  let tasks :=
    map (fun j => make_request (env_net env j))
        (Py.range2 0 requests_per_wave) in
  gathered <- Controller.gather concurrency tasks ;;
  results <- all_results gathered ;;
  let t := fold_left count_result results
             {| latencies := []; successful_ := 0; errors_ := [] |} in
  throughput_ <-
    (if Qlt_le_dec 0 (env_duration env)
     then Py.truediv (inject_Z (successful_ t)) (env_duration env)
     else Py.Ret 0) ;;
  avg_latency_ <-
    (match latencies t with
     | [] => Py.Ret 0
     | _ => Py.truediv (Py.sum (latencies t))
                       (inject_Z (Py.len (latencies t)))
     end) ;;
  p99_latency_ <- p99_of (latencies t) ;;
  (* the progress line prints [successful/requests_per_wave*100] *)
  _ <- Py.truediv (inject_Z (successful_ t)) (inject_Z requests_per_wave) ;;
  Py.Ret {| wave := wave_num;
            time_since_start := env_time_since_start env;
            throughput := throughput_;
            successful := successful_ t;
            failed := (requests_per_wave - successful_ t)%Z;
            avg_latency := avg_latency_;
            p99_latency := p99_latency_;
            memory_mb := env_memory_mb env;
            connections_before := env_conn_before env;
            connections_after := env_conn_after env;
            connection_growth :=
              (get_total (env_conn_after env)
               - get_total (env_conn_before env))%Z;
            errors := firstn 10 (errors_ t) |}.

(** The entries [analyze_degradation] appends to [issues]. *)
Inductive issue : Set :=
  | SignificantDegradation   (* "Significant throughput degradation detected" *)
  | MemoryLeak               (* "Memory leak suspected (growing memory usage)" *)
  | ConnectionLeak           (* "Connection leak (connections not being closed)" *)
  | TimeWaitAccumulation     (* "TIME_WAIT accumulation (port exhaustion risk)" *)
  | GradualDegradation       (* "Gradual degradation (accumulating resource issue)" *)
  | SuddenDegradation.       (* "Sudden degradation (hitting a limit)" *)

(** The ['summary'] entry of the analysis that is saved. *)
Record summary : Type := {
  degradation_pct : Double.t;
  first_throughput : Q;
  last_throughput : Q;
  issues : list issue
}.

(** The loop that fills [total_connections] and [time_wait_connections]:
    waves whose snapshot failed are skipped. *)
Fixpoint connection_series (metrics : list wave_metrics) : list (Z * Z) :=
  match metrics with
  | [] => []
  | m :: metrics' =>
      match connections_after m with
      | Snapshot s => (total s, time_wait s) :: connection_series metrics'
      | ConnError _ => connection_series metrics'
      end
  end.

(** [analyze_degradation].  The function prints its findings and saves
    them; its value here is the ['summary'] entry it saves, and [None] is
    the early return on fewer than two waves.  The throughputs and the
    memory figures are floats: each stands for the float nearest to it,
    and the differences, quotients and comparisons are those of floats. *)
Definition analyze_degradation (metrics : list wave_metrics)
  : Py.res (option summary) :=
  if (Py.len metrics <? 2)%Z then Py.Ret None
  else
    let throughputs := map throughput metrics in
    let memories := map memory_mb metrics in
    first_throughput_ <- Py.getitem throughputs 0 ;;
    last_throughput_ <- Py.getitem throughputs (-1) ;;
    d <- Double.div (Double.sub (Double.of_Q first_throughput_)
                                (Double.of_Q last_throughput_))
                    (Double.of_Q first_throughput_) ;;
    let degradation_pct_ := Double.mul d (Double.of_Q 100) in
    memories_first <- Py.getitem memories 0 ;;
    memories_last <- Py.getitem memories (-1) ;;
    let total_connections := map fst (connection_series metrics) in
    let time_wait_connections := map snd (connection_series metrics) in
    issues_ <-
      (if Double.lt (Double.of_Q 20) degradation_pct_
       then
         let issues1 := [SignificantDegradation] in
         let issues2 :=
           if Double.lt (Double.of_Q 100)
                        (Double.sub (Double.of_Q memories_last)
                                    (Double.of_Q memories_first))
           then issues1 ++ [MemoryLeak] else issues1 in
         issues3 <-
           (match total_connections with
            | [] => Py.Ret issues2
            | _ :: _ =>
                c_last <- Py.getitem total_connections (-1) ;;
                c_first <- Py.getitem total_connections 0 ;;
                Py.Ret (if (100 <? c_last - c_first)%Z
                        then issues2 ++ [ConnectionLeak] else issues2)
            end) ;;
         issues4 <-
           (match time_wait_connections with
            | [] => Py.Ret issues3
            | _ :: _ =>
                w_last <- Py.getitem time_wait_connections (-1) ;;
                Py.Ret (if (1000 <? w_last)%Z
                        then issues3 ++ [TimeWaitAccumulation] else issues3)
            end) ;;
         mid_point <- Py.floordiv (Py.len throughputs) 2 ;;
         mid_throughput <- Py.getitem throughputs mid_point ;;
         drop <- Double.div (Double.sub (Double.of_Q first_throughput_)
                                        (Double.of_Q mid_throughput))
                            (Double.of_Q first_throughput_) ;;
         Py.Ret (if Double.lt (Double.of_Q (1 # 10)) drop
                 then issues4 ++ [GradualDegradation]
                 else issues4 ++ [SuddenDegradation])
       else Py.Ret []) ;;
    Py.Ret (Some {| degradation_pct := degradation_pct_;
                    first_throughput := first_throughput_;
                    last_throughput := last_throughput_;
                    issues := issues_ |}).

(** [investigate_degradation]: the waves, then the analysis. *)
Definition investigate_degradation (envs : Z -> wave_env) (num_waves : Z)
  : Py.res (option summary) :=
  metrics <- Py.for_ (Py.range2 1 (num_waves + 1))
               (fun metrics i =>
                  result <- run_wave (envs i) i 1000 64 ;;
                  Py.Ret (metrics ++ [result]))
               [] ;;
  analyze_degradation metrics.

End Investigate.

(** ** scripts/run-benchmark.py *)

Module Script.

(** [make_request]: the latency is in seconds, and the bare [except]
    clause also catches a cancellation. *)
Definition make_request (a : Net.attempt) : Py.res (Q * bool) :=
  match Net.result a with
  | Net.Responds status =>
      Py.Ret (Net.ended a - Net.started a, (status =? 200)%Z)
  | Net.Fails Py.Blocked => Py.Raise Py.Blocked
  | Net.Fails _ => Py.Ret (Net.ended a - Net.started a, false)
  end.

Record tally : Type := {
  latencies : list Q;
  successes : Z
}.

Definition tally0 : tally := {| latencies := []; successes := 0 |}.

(** Body of [for latency, success in results]. *)
Definition count_result (t : tally) (r : Q * bool) : tally :=
  match r with
  | (latency, success) =>
      {| latencies := latencies t ++ [latency];
         successes := if success then (successes t + 1)%Z else successes t |}
  end.

(** The slice starting at request [i]; [asyncio.gather] is called without
    [return_exceptions]. *)
Definition run_slice (net : Z -> Net.attempt) (num_requests concurrent : Z)
    (t : tally) (i : Z) : Py.res tally :=
  let batch_size := Z.min concurrent (num_requests - i) in
  let batch :=
    map (fun j => make_request (net (i + j)%Z)) (Py.range2 0 batch_size) in
  results <- Investigate.all_results batch ;;
  Py.Ret (fold_left count_result results t).

(** The ['latency'] entry of the dictionary [run_test] returns, in
    milliseconds. *)
Record latency : Type := {
  min : Q;
  avg : Q;
  p50 : Q;
  p95 : Q;
  p99 : Q;
  p999 : Q;      (* ['p99.9'] *)
  max : Q
}.

(** The dictionary [run_test] returns; [configuration] holds the number
    the source formats into its text. *)
Record report : Type := {
  configuration : Z;
  total_requests : Z;
  successful_requests : Z;
  success_rate : Q;
  total_time : Q;
  throughput : Q;
  lat : latency
}.


End Script.

(** ** The [main] functions of the optimized and enhanced variants

    From the test loop on: what comes before (the arguments, the
    configuration file, the health check) decides whether the loop is
    entered at all. *)

Module Main.

(** [max(l, key=key)] and [min(l, key=key)]: the first element whose key
    is the greatest (the least); [ValueError] on an empty sequence. *)
Definition max_by {A : Type} (key : A -> Q) (l : list A) : Py.res A :=
  match l with
  | [] => Py.Raise Py.ValueError
  | x :: r =>
      Py.Ret (fold_left (fun m y => if Qlt_le_dec (key m) (key y) then y else m)
                        r x)
  end.

Definition min_by {A : Type} (key : A -> Q) (l : list A) : Py.res A :=
  match l with
  | [] => Py.Raise Py.ValueError
  | x :: r =>
      Py.Ret (fold_left (fun m y => if Qlt_le_dec (key y) (key m) then y else m)
                        r x)
  end.

(** What the test with a given [test_number] reads from its
    environment. *)
Record test_env : Type := {
  net : Z -> Net.attempt;
  batch_timeout : Z -> bool;          (* enhanced variant only *)
  readings : list CPUMonitor.reading;
  total_time : Q
}.

(** What [main] leaves: the results it saves, and the two
    configurations it prints as the best ones, if it prints them. *)
Record outcome : Type := {
  all_results : list Report.t;
  best : option (Report.t * Report.t)
}.

(** The loop state: [test_number] and [all_results]. *)
Definition loop_state : Type := (Z * list Report.t)%type.

(** [main] of optimized_benchmark.py: a test that fails with an
    [Exception] is reported and skipped. *)
Definition optimized (envs : Z -> test_env) (num_requests : Z)
    (thread_counts max_concurrent_tasks_list concurrent_levels : list Z)
  : Py.res outcome :=
  st <- Py.for_ thread_counts
          (fun st thread_count =>
             Py.for_ max_concurrent_tasks_list
               (fun st max_concurrent_tasks =>
                  Py.for_ concurrent_levels
                    (fun (st : loop_state) concurrent =>
                       let test_number := (fst st + 1)%Z in
                       match Optimized.run_benchmark_test
                               (net (envs test_number))
                               (readings (envs test_number))
                               (total_time (envs test_number))
                               num_requests concurrent with
                       | Py.Ret result =>
                           Py.Ret (test_number, snd st ++ [result])
                       | Py.Raise e =>
                           if Py.is_Exception e
                           then Py.Ret (test_number, snd st)
                           else Py.Raise e
                       end)
                    st)
               st)
          (0%Z, []) ;;
  match snd st with
  | [] => Py.Ret {| all_results := []; best := None |}
  | _ :: _ =>
      best_throughput <-
        max_by (fun x => Report.throughput (Report.perf x)) (snd st) ;;
      best_latency <- min_by (fun x => Report.p99 (Report.lat x)) (snd st) ;;
      Py.Ret {| all_results := snd st;
                best := Some (best_throughput, best_latency) |}
  end.

(** [main] of enhanced_benchmark.py: no test is guarded, and neither is
    the choice of the best configurations. *)
Definition enhanced (envs : Z -> test_env) (num_requests : Z)
    (thread_counts max_concurrent_tasks_list concurrent_levels : list Z)
  : Py.res outcome :=
  st <- Py.for_ thread_counts
          (fun st thread_count =>
             Py.for_ max_concurrent_tasks_list
               (fun st max_concurrent_tasks =>
                  Py.for_ concurrent_levels
                    (fun (st : loop_state) concurrent =>
                       let test_number := (fst st + 1)%Z in
                       result <- Enhanced.run_benchmark_test
                                   (net (envs test_number))
                                   (batch_timeout (envs test_number))
                                   (readings (envs test_number))
                                   (total_time (envs test_number))
                                   num_requests concurrent ;;
                       Py.Ret (test_number, snd st ++ [result]))
                    st)
               st)
          (0%Z, []) ;;
  best_throughput <-
    max_by (fun x => Report.throughput (Report.perf x)) (snd st) ;;
  best_latency <- min_by (fun x => Report.p99 (Report.lat x)) (snd st) ;;
  Py.Ret {| all_results := snd st;
            best := Some (best_throughput, best_latency) |}.

End Main.

(** ** infrastructure/scripts/generate_report.py *)

Module GenerateReport.

(** A result as [load_results] hands it to [analyze_results]: the report
    of a run, with the VM size of the directory it was found in. *)
Record result : Type := {
  vm_size : string;
  report : Report.t
}.

(** The entries of a VM configuration that [analyze_results] reads. *)
Record vm_config : Type := {
  vcpus : Z;
  memory_gb : Z
}.

(** An element of [vm_comparisons]. *)
Record vm_comparison : Type := {
  name : string;
  vm_vcpus : Z;
  vm_memory_gb : Z;
  avg_throughput : Q;
  avg_p99 : Q;
  avg_cpu : Q;
  efficiency : Q;
  score : Q
}.

(** Body of [for vm_size, config in vm_configs.items()], the loop of
    [analyze_results] that fills [vm_comparisons]. *)
Definition compare_vm (results : list result)
    (vm_comparisons_ : list vm_comparison) (item : string * vm_config)
  : Py.res (list vm_comparison) :=
  let vm_size_ := fst item in
  let config := snd item in
  let vm_results :=
    filter (fun r => String.eqb (vm_size r) vm_size_) results in
  match vm_results with
  | [] => Py.Ret vm_comparisons_
  | _ :: _ =>
      avg_throughput_ <-
        Py.truediv
          (Py.sum (map (fun r => Report.throughput (Report.perf (report r)))
                       vm_results))
          (inject_Z (Py.len vm_results)) ;;
      avg_p99_ <-
        Py.truediv
          (Py.sum (map (fun r => Report.p99 (Report.lat (report r)))
                       vm_results))
          (inject_Z (Py.len vm_results)) ;;
      avg_cpu_ <-
        Py.truediv
          (Py.sum (map (fun r => CPUMonitor.avg_cpu
                                   (Report.resources (report r)))
                       vm_results))
          (inject_Z (Py.len vm_results)) ;;
      efficiency_ <-
        (if Qlt_le_dec 0 avg_cpu_
         then Py.truediv avg_throughput_ avg_cpu_
         else Py.Ret 0) ;;
      score1 <- Py.truediv avg_throughput_ 1000 ;;
      score2 <- Py.truediv 100 avg_p99_ ;;
      score3 <- Py.truediv 100 avg_cpu_ ;;
      Py.Ret (vm_comparisons_
              ++ [{| name := vm_size_;
                     vm_vcpus := vcpus config;
                     vm_memory_gb := memory_gb config;
                     avg_throughput := avg_throughput_;
                     avg_p99 := avg_p99_;
                     avg_cpu := avg_cpu_;
                     efficiency := efficiency_;
                     score := score1 * score2 * score3 |}])
  end.

(** The list [vm_comparisons] of [analyze_results], which is computed
    when there is a result; [vm_configs] lists the items of the
    dictionary in its order.  An exception raised here leaves
    [analyze_results]. *)
Definition vm_comparisons (results : list result)
    (vm_configs : list (string * vm_config)) : Py.res (list vm_comparison) :=
  Py.for_ vm_configs (compare_vm results) [].

End GenerateReport.

(** * Specification vocabulary

    The notions the properties below are stated with, and the sample
    inputs on which they are exercised. *)

(** The operations of IEEE 754 in binary64 as the standard library
    specifies them, [SpecFloat], on operands [m1 * 2^e1] and [m2 * 2^e2],
    and their agreement with the rounding of module [Double]. *)
Definition spec_value (f : spec_float) : Q :=
  match f with
  | S754_finite s m e => (if s then -1 else 1) * inject_Z (Z.pos m) * 2 ^ e
  | _ => 0
  end.

Definition spec_float_of (m e : Z) : spec_float :=
  binary_normalize 53 1024 m e false.

Definition dyadic (m e : Z) : Q := inject_Z m * 2 ^ e.

Definition agrees
    (spec_op : spec_float -> spec_float -> spec_float) (op : Q -> Q -> Q)
    (operands : Z * Z * Z * Z) : bool :=
  let '(m1, e1, m2, e2) := operands in
  Qeq_bool (spec_value (spec_op (spec_float_of m1 e1) (spec_float_of m2 e2)))
           (Double.round (op (Double.round (dyadic m1 e1))
                             (Double.round (dyadic m2 e2)))).

(** Operands that go through ties, subnormal results, negative numbers
    and the numbers of the examples below. *)
Definition rounding_samples : list (Z * Z * Z * Z) :=
  [(184, 0, 10, 0); (24, 0, 10, 0); (999, 0, 10, 0); (1, 0, 10, 0);
   (1, 0, 3, 0); (80, 0, 6, 0); (308000, 0, 28875, 0);
   (2 ^ 53 + 1, 0, 1, 0); (2 ^ 53 + 3, 0, 7, 0);
   (1, -1070, 3, 0); (5, -1074, 3, 0); (1, -1074, 2, 0); (3, -1074, 2, 0);
   (2 ^ 53 - 1, 970, 3, -1);
   (6585228075508428, 0, 100000000000000, 0);
   (5268182460406742, 0, 100000000000000, 0);
   (-7, 0, 3, 0); (7, 0, -3, 5);
   (12345678901234567890, 3, 987654321, -20)]%Z.

(** The index [get_percentile] computes, before clamping, when the
    quotient is finite. *)
Definition rank (count : Z) (p : Q) : Z :=
  Py.int (Double.round
            (Double.round (Double.round (inject_Z (Z.min count Py.maxsize))
                           * Double.round p)
             / Double.round 100)).

(** The index when the percentile is an int [k]: Python multiplies the
    integers, and the quotient by 100 is rounded to the nearest float. *)
Definition int_rank (count k : Z) : Z :=
  Py.int (Double.round (inject_Z (count * k) / 100)).

(** The 375 samples 0, 1, ..., 374. *)
Definition samples_375 : list Q := map inject_Z (Py.range2 0 375).

(** The clamped index. *)
Definition nearest_rank (count : Z) (p : Q) : nat :=
  Z.to_nat (Z.min (rank count p) (count - 1)).

(** Sum and mean of a sequence of samples, and what it is to be its
    maximum. *)
Definition total_of (l : list Q) : Q := fold_right Qplus 0 l.

Definition mean_of (l : list Q) : Q :=
  total_of l / inject_Z (Z.of_nat (List.length l)).

Definition maximum_of (l : list Q) (x : Q) : Prop :=
  In x l /\ Forall (fun y => y <= x) l.

(** What a summary must be for given sample sequences. *)
Definition summarises (cpu mem : list Q) (s : CPUMonitor.summary) : Prop :=
  match cpu with
  | [] =>
      s = {| CPUMonitor.avg_cpu := 0; CPUMonitor.peak_cpu := 0;
             CPUMonitor.avg_memory := 0; CPUMonitor.peak_memory := 0 |}
  | _ :: _ =>
      CPUMonitor.avg_cpu s == mean_of cpu /\
      maximum_of cpu (CPUMonitor.peak_cpu s) /\
      CPUMonitor.avg_memory s == mean_of mem /\
      maximum_of mem (CPUMonitor.peak_memory s)
  end.

Definition zsum (l : list Z) : Z := fold_right Z.add 0%Z l.

(** The plan as a function of the batch's position (from 0). *)
Definition plan_of (B V : Z) (n : nat) : list Z :=
  map (fun k => Z.min B (V - Z.of_nat k * B)) (seq 0 n).

(** A request executor records the elapsed time on failure: whenever the
    transport raises an [Exception] and the clock has advanced since
    dispatch, it returns a failure whose latency is that elapsed time, and
    so is not 0. *)
Definition records_elapsed_on_failure
    (executor : Net.attempt -> Py.res (Q * bool)) : Prop :=
  forall (a : Net.attempt) (e : Py.exn),
    Net.result a = Net.Fails e ->
    Py.is_Exception e = true ->
    Net.started a < Net.ended a ->
    exists latency : Q,
      executor a = Py.Ret (latency, false) /\
      latency == Net.elapsed_ms a /\
      ~ latency == 0.

(** A request that times out two seconds after dispatch. *)
Definition timed_out_attempt : Net.attempt :=
  {| Net.started := 0; Net.ended := 2; Net.result := Net.Fails Py.TimeoutError |}.

(** Number of tasks that satisfy [p]. *)
Definition count_tasks {R : Type} (p : Controller.task R -> bool)
    (l : list (Controller.task R)) : Z :=
  Py.len (filter p l).

(** One more request is accounted for, as a success or as a failure and
    not as both. *)
Definition counted_once (successes failures successes' failures' : Z) : Prop :=
  (successes' = successes + 1 /\ failures' = failures)%Z \/
  (successes' = successes /\ failures' = failures + 1)%Z.


Definition enhanced_counted (t : Enhanced.tally) : Z :=
  (Enhanced.successes t + Enhanced.failures t)%Z.

Definition fixed_counted (t : Fixed.tally) : Z :=
  (Fixed.successes t + Fixed.failures t)%Z.

(** An exchange answered with status 200 after ten milliseconds, and a
    target that answers every request so. *)
Definition answered : Net.attempt :=
  {| Net.started := 0; Net.ended := 1 # 100; Net.result := Net.Responds 200 |}.

Definition always_answered (i : Z) : Net.attempt := answered.

Definition never_times_out (i : Z) : bool := false.

(** A state with one request admitted out of three, under a bound of two. *)
Definition one_admitted : Controller.state Net.attempt Optimized.stats :=
  {| Controller.sem_value := 2 - 1;
     Controller.tasks :=
       Controller.set_nth 0 Controller.InFlight
                          (repeat Controller.Pending 3);
     Controller.acc := Optimized.stats0 |}.

(** The guarded rate [num / den if den > 0 else 0]. *)
Definition guarded_rate (num den : Q) : Py.res Q :=
  if Qlt_le_dec 0 den then Py.truediv num den else Py.Ret 0.

(** The guarded success rate [s / n * 100 if n > 0 else 0]. *)
Definition guarded_success_rate (s n : Z) : Py.res Q :=
  if (0 <? n)%Z
  then r <- Py.truediv (inject_Z s) (inject_Z n) ;; Py.Ret (r * 100)
  else Py.Ret 0.

(** [rate] is [count] per unit of [duration], and 0 when no time passed. *)
Definition rate_per_second (rate : Q) (count : Z) (duration : Q) : Prop :=
  (0 < duration -> rate == inject_Z count / duration) /\
  (duration <= 0 -> rate == 0).

(** Two requests, the second answered with status 500. *)
Definition second_fails (i : Z) : Net.attempt :=
  if (i =? 0)%Z then answered
  else {| Net.started := 0; Net.ended := 1 # 100;
          Net.result := Net.Responds 500 |}.

(** A wave of answered requests that took two seconds. *)
Definition quiet_wave : Investigate.wave_env :=
  {| Investigate.env_net := always_answered;
     Investigate.env_duration := 2;
     Investigate.env_conn_before := Investigate.ConnError EmptyString;
     Investigate.env_conn_after := Investigate.ConnError EmptyString;
     Investigate.env_memory_mb := 100;
     Investigate.env_time_since_start := 5 |}.

(** The difference between the connection totals of the last and the
    first wave that carry a snapshot, and the TIME_WAIT count of the last
    such wave. *)
Definition connection_delta (metrics : list Investigate.wave_metrics)
  : option Z :=
  match map fst (Investigate.connection_series metrics) with
  | [] => None
  | c :: cs => Some (last (c :: cs) c - c)%Z
  end.

Definition last_time_wait (metrics : list Investigate.wave_metrics)
  : option Z :=
  match map snd (Investigate.connection_series metrics) with
  | [] => None
  | w :: ws => Some (last (w :: ws) w)
  end.

(** [a / b] on floats, for a divisor other than zero. *)
Definition quotient (a b : Double.t) : Double.t :=
  match Double.div a b with
  | Py.Ret q => q
  | Py.Raise _ => Double.NaN
  end.

(** The degradation in percent between two throughputs, the drop of a
    throughput relative to the first, and the growth of the memory, each
    as the float that float arithmetic gives. *)
Definition degradation_between (first_ last_ : Q) : Double.t :=
  Double.mul (quotient (Double.sub (Double.of_Q first_) (Double.of_Q last_))
                       (Double.of_Q first_))
             (Double.of_Q 100).

Definition relative_drop (first_ mid : Q) : Double.t :=
  quotient (Double.sub (Double.of_Q first_) (Double.of_Q mid))
           (Double.of_Q first_).

Definition memory_growth (first_ last_ : Q) : Double.t :=
  Double.sub (Double.of_Q last_) (Double.of_Q first_).

(** The float [x] is above the bound, itself taken as a float. *)
Definition exceeds (x : Double.t) (bound : Q) : Prop :=
  Double.lt (Double.of_Q bound) x = true.

(** The wave at the midpoint, [len // 2]. *)
Definition midpoint_wave (metrics : list Investigate.wave_metrics)
    (d : Investigate.wave_metrics) : Investigate.wave_metrics :=
  nth (Z.to_nat (Py.len metrics / 2)) metrics d.

(** What [analyze_degradation] is expected to list for the waves
    [first_ :: middle ++ [last_]]. *)
Definition expected_issues (first_ last_ : Investigate.wave_metrics)
    (middle : list Investigate.wave_metrics) : list Investigate.issue :=
  let metrics := first_ :: middle ++ [last_] in
  if Double.lt (Double.of_Q 20)
               (degradation_between (Investigate.throughput first_)
                                    (Investigate.throughput last_))
  then
    [Investigate.SignificantDegradation]
    ++ (if Double.lt (Double.of_Q 100)
                     (memory_growth (Investigate.memory_mb first_)
                                    (Investigate.memory_mb last_))
        then [Investigate.MemoryLeak] else [])
    ++ (match connection_delta metrics with
        | Some d => if (100 <? d)%Z then [Investigate.ConnectionLeak] else []
        | None => []
        end)
    ++ (match last_time_wait metrics with
        | Some w =>
            if (1000 <? w)%Z then [Investigate.TimeWaitAccumulation] else []
        | None => []
        end)
    ++ (if Double.lt (Double.of_Q (1 # 10))
             (relative_drop
                (Investigate.throughput first_)
                (Investigate.throughput (midpoint_wave metrics first_)))
        then [Investigate.GradualDegradation]
        else [Investigate.SuddenDegradation])
  else [].

(** Three waves: throughput falls from 1000 to 700 while memory grows by
    150 MB and the connection total by 50. *)
Definition wave_of (n : Z) (throughput_ memory : Q) (total_ time_wait_ : Z)
  : Investigate.wave_metrics :=
  {| Investigate.wave := n;
     Investigate.time_since_start := inject_Z n * 8;
     Investigate.throughput := throughput_;
     Investigate.successful := 1000;
     Investigate.failed := 0;
     Investigate.avg_latency := 50;
     Investigate.p99_latency := 90;
     Investigate.memory_mb := memory;
     Investigate.connections_before :=
       Investigate.ConnError EmptyString;
     Investigate.connections_after :=
       Investigate.Snapshot
         {| Investigate.total := total_;
            Investigate.time_wait := time_wait_;
            Investigate.established := 0;
            Investigate.close_wait := 0;
            Investigate.fin_wait := 0 |};
     Investigate.connection_growth := total_;
     Investigate.errors := [] |}.

Definition wave_1 : Investigate.wave_metrics := wave_of 1 1000 200 100 10.
Definition wave_2 : Investigate.wave_metrics := wave_of 2 950 250 120 15.
Definition wave_3 : Investigate.wave_metrics := wave_of 3 700 350 150 20.

(** The latency figures of a report are in ascending order. *)
Definition latency_ordered (l : Report.latency) : Prop :=
  Report.min l <= Report.p50 l /\
  Report.p50 l <= Report.p95 l /\
  Report.p95 l <= Report.p99 l /\
  Report.p99 l <= Report.max l.

(** A reading the optimized sampling loop acts on: a failure, or a sample
    whose CPU figure is positive. *)
Definition acted_on (r : CPUMonitor.reading) : bool :=
  match r with
  | CPUMonitor.Sample cpu_percent _ =>
      if Qlt_le_dec 0 cpu_percent then true else false
  | CPUMonitor.Fault => true
  end.

(** The exchange is answered with status 200. *)
Definition answered_ok (a : Net.attempt) : bool :=
  match Net.result a with
  | Net.Responds status => (status =? 200)%Z
  | Net.Fails _ => false
  end.

(** A target that is down: every request times out after two seconds. *)
Definition always_times_out (i : Z) : Net.attempt := timed_out_attempt.

(** How [run_benchmark] takes one batch result into its running totals. *)
Definition accumulate (acc : Fixed.accum) (result : Fixed.batch_result)
  : Fixed.accum :=
  {| Fixed.all_results := Fixed.all_results acc ++ [result];
     Fixed.cumulative_time := Fixed.cumulative_time acc + Fixed.duration result;
     Fixed.cumulative_requests :=
       (Fixed.cumulative_requests acc + Fixed.total_requests result)%Z;
     Fixed.cumulative_successes :=
       (Fixed.cumulative_successes acc + Fixed.successful result)%Z |}.

(** The batch loop of [run_benchmark] over the batch numbers [l], from
    the totals [acc]. *)
Definition batch_loop (B : Z) (net : Z -> Z -> Net.attempt)
    (durations : Z -> Q) (V C : Z) (l : list Z) (acc : Fixed.accum)
  : Py.res Fixed.accum :=
  Py.for_ l
    (fun acc batch_num =>
       result <- Fixed.run_batch (net batch_num) (durations batch_num)
                   batch_num (Fixed.requests_in_batch B V batch_num) C ;;
       Py.Ret (accumulate acc result))
    acc.

(** The number of the requests [0 .. N-1] of a transport that are answered
    with status 200. *)
Definition successes_of (net : Z -> Net.attempt) (N : Z) : Z :=
  Py.len (filter (fun j => answered_ok (net j)) (Py.range2 0 N)).

(** The loop of [investigate_degradation] over the wave numbers [l]. *)
Definition wave_loop (envs : Z -> Investigate.wave_env) (l : list Z)
    (metrics : list Investigate.wave_metrics)
  : Py.res (list Investigate.wave_metrics) :=
  Py.for_ l (fun metrics i =>
               result <- Investigate.run_wave (envs i) i 1000 64 ;;
               Py.Ret (metrics ++ [result]))
          metrics.

(** A wave against a target that is down. *)
Definition down_wave : Investigate.wave_env :=
  {| Investigate.env_net := always_times_out;
     Investigate.env_duration := 30;
     Investigate.env_conn_before := Investigate.ConnError EmptyString;
     Investigate.env_conn_after := Investigate.ConnError EmptyString;
     Investigate.env_memory_mb := 100;
     Investigate.env_time_since_start := 5 |}.

(** Waves in which the first [k] of the requests are answered with
    status 200 and the others with status 500. *)
Definition first_answered (k i : Z) : Net.attempt :=
  {| Net.started := 0; Net.ended := 1 # 100;
     Net.result := Net.Responds (if (i <? k)%Z then 200 else 500) |}.

Definition wave_80_in_6 : Investigate.wave_env :=
  {| Investigate.env_net := first_answered 80;
     Investigate.env_duration := 6;
     Investigate.env_conn_before := Investigate.ConnError EmptyString;
     Investigate.env_conn_after := Investigate.ConnError EmptyString;
     Investigate.env_memory_mb := 100;
     Investigate.env_time_since_start := 5 |}.

Definition wave_308_in_28875 : Investigate.wave_env :=
  {| Investigate.env_net := first_answered 308;
     Investigate.env_duration := 28875 # 1000;
     Investigate.env_conn_before := Investigate.ConnError EmptyString;
     Investigate.env_conn_after := Investigate.ConnError EmptyString;
     Investigate.env_memory_mb := 100;
     Investigate.env_time_since_start := 40 |}.

(** What the waves of [investigate_degradation] are run with: 1000
    requests under a concurrency of 64. *)
Definition wave_result (envs : Z -> Investigate.wave_env) (i : Z)
    (r : Investigate.wave_metrics) : Prop :=
  Investigate.run_wave (envs i) i 1000 64 = Py.Ret r /\
  Investigate.successful r = successes_of (Investigate.env_net (envs i)) 1000 /\
  guarded_rate (inject_Z (Investigate.successful r))
               (Investigate.env_duration (envs i))
    = Py.Ret (Investigate.throughput r).

(** The awaited exchange never resumes. *)
Definition hangs (a : Net.attempt) : bool :=
  match Net.result a with
  | Net.Fails Py.Blocked => true
  | _ => false
  end.


(** A request that is cancelled while it waits for its answer. *)
Definition cancelled_attempt : Net.attempt :=
  {| Net.started := 0; Net.ended := 1; Net.result := Net.Fails Py.CancelledError |}.

(** Of two requests, the first is answered and the second is cancelled. *)
Definition second_cancelled (i : Z) : Net.attempt :=
  if (i =? 0)%Z then answered else cancelled_attempt.

(** The best configurations [main] prints for the results it saved: none
    when there is no result; otherwise a result of the greatest
    throughput and a result of the least p99 latency. *)
Definition best_of (results : list Report.t)
    (best : option (Report.t * Report.t)) : Prop :=
  match best with
  | None => results = []
  | Some (best_throughput, best_latency) =>
      In best_throughput results /\
      In best_latency results /\
      Forall (fun r => Report.throughput (Report.perf r)
                       <= Report.throughput (Report.perf best_throughput))
             results /\
      Forall (fun r => Report.p99 (Report.lat best_latency)
                       <= Report.p99 (Report.lat r))
             results
  end.

(** A test environment in which every request is answered at once. *)
Definition quiet_test : Main.test_env :=
  {| Main.net := always_answered;
     Main.batch_timeout := never_times_out;
     Main.readings := [];
     Main.total_time := 1 |}.

(** The three nested loops of [main] around one test. *)
Definition test_loop (test : Main.loop_state -> Z -> Py.res Main.loop_state)
    (thread_counts max_concurrent_tasks_list concurrent_levels : list Z)
    (st : Main.loop_state) : Py.res Main.loop_state :=
  Py.for_ thread_counts
    (fun st _ =>
       Py.for_ max_concurrent_tasks_list
         (fun st _ => Py.for_ concurrent_levels test st) st)
    st.

(** One test of the optimized [main], with its [try] block. *)
Definition optimized_test (envs : Z -> Main.test_env) (num_requests : Z)
    (st : Main.loop_state) (concurrent : Z) : Py.res Main.loop_state :=
  let test_number := (fst st + 1)%Z in
  match Optimized.run_benchmark_test
          (Main.net (envs test_number)) (Main.readings (envs test_number))
          (Main.total_time (envs test_number)) num_requests concurrent with
  | Py.Ret result => Py.Ret (test_number, snd st ++ [result])
  | Py.Raise e =>
      if Py.is_Exception e then Py.Ret (test_number, snd st) else Py.Raise e
  end.

(** One test of the enhanced [main]. *)
Definition enhanced_test (envs : Z -> Main.test_env) (num_requests : Z)
    (st : Main.loop_state) (concurrent : Z) : Py.res Main.loop_state :=
  let test_number := (fst st + 1)%Z in
  result <- Enhanced.run_benchmark_test
              (Main.net (envs test_number))
              (Main.batch_timeout (envs test_number))
              (Main.readings (envs test_number))
              (Main.total_time (envs test_number))
              num_requests concurrent ;;
  Py.Ret (test_number, snd st ++ [result]).

(** The reports of a VM size all carry an average CPU of 0 (what a run
    reports whose monitor kept no sample), or all carry a p99 latency
    of 0. *)
Definition without_cpu_or_latency (results : list GenerateReport.result)
    (vm : string) : Prop :=
  (forall r, In r results -> GenerateReport.vm_size r = vm ->
     CPUMonitor.avg_cpu (Report.resources (GenerateReport.report r)) == 0) \/
  (forall r, In r results -> GenerateReport.vm_size r = vm ->
     Report.p99 (Report.lat (GenerateReport.report r)) == 0).

(** A report with a throughput of 1000 requests per second whose monitor
    kept no sample. *)
Definition unsampled_report : Report.t :=
  {| Report.perf := {| Report.total_time := 1;
                       Report.throughput := 1000;
                       Report.success_rate := 100;
                       Report.total_requests := 1000;
                       Report.successful := 1000;
                       Report.failed := 0 |};
     Report.lat := {| Report.min := 1; Report.avg := 2; Report.p50 := 2;
                      Report.p95 := 3; Report.p99 := 4; Report.max := 5 |};
     Report.resources := {| CPUMonitor.avg_cpu := 0;
                            CPUMonitor.peak_cpu := 0;
                            CPUMonitor.avg_memory := 0;
                            CPUMonitor.peak_memory := 0 |} |}.

(** * Properties *)

(** ** Python primitives *)

Lemma int_is_floor (x : Q) : 0 <= x -> Py.int x = Qfloor x.
Proof.
  destruct x as [n d]; unfold Qle, Py.int, Qfloor; simpl; intros H.
  apply Z.quot_div_nonneg; lia.
Qed.

Lemma len_nonneg {A : Type} (l : list A) : (0 <= Py.len l)%Z.
Proof. unfold Py.len; lia. Qed.

Lemma getitem_in_range {A : Type} (l : list A) (i : Z) (d : A) :
  (0 <= i < Py.len l)%Z ->
  Py.getitem l i = Py.Ret (nth (Z.to_nat i) l d).
Proof.
  intros [H0 H1]; unfold Py.getitem.
  replace (i <? 0)%Z with false by (symmetry; apply Z.ltb_ge; exact H0).
  replace (0 <=? i)%Z with true by (symmetry; apply Z.leb_le; exact H0).
  replace (i <? Py.len l)%Z with true by (symmetry; apply Z.ltb_lt; exact H1).
  simpl.
  assert (Hn : (Z.to_nat i < List.length l)%nat) by (unfold Py.len in H1; lia).
  destruct (nth_error l (Z.to_nat i)) as [x |] eqn:E.
  - f_equal. symmetry. apply nth_error_nth with (d := d) in E. exact E.
  - apply nth_error_None in E. lia.
Qed.

Lemma inject_Z_nonneg (z : Z) : (0 <= z)%Z -> 0 <= inject_Z z.
Proof. intros H. unfold Qle; simpl. lia. Qed.

(** ** Binary64 arithmetic *)

(** On the sample operands, quotient, product and difference are the
    floats [SpecFloat] gives. *)
Lemma round_agrees_with_SpecFloat :
  forallb (agrees (SFdiv 53 1024) Qdiv) rounding_samples = true /\
  forallb (agrees (SFmul 53 1024) Qmult) rounding_samples = true /\
  forallb (agrees (SFsub 53 1024) Qminus) rounding_samples = true.
Proof. vm_compute. repeat split. Qed.

Lemma rne_cases (y : Q) :
  (Double.rne y = Qfloor y \/ Double.rne y = Qfloor y + 1)%Z.
Proof.
  unfold Double.rne.
  destruct (Qcompare (y - inject_Z (Qfloor y)) (1 # 2));
    [destruct (Z.even _) | |]; auto.
Qed.

Lemma rne_inject (z : Z) : Double.rne (inject_Z z) = z.
Proof.
  unfold Double.rne. rewrite Qfloor_Z.
  assert (E : inject_Z z - inject_Z z == 0) by ring.
  rewrite E. reflexivity.
Qed.

Lemma rne_le (x y : Q) : x <= y -> (Double.rne x <= Double.rne y)%Z.
Proof.
  intros H.
  pose proof (Qfloor_resp_le _ _ H) as Hf.
  destruct (Z.eq_dec (Qfloor x) (Qfloor y)) as [E | NE].
  - unfold Double.rne. rewrite <- E.
    assert (Hd : x - inject_Z (Qfloor x) <= y - inject_Z (Qfloor x)) by lra.
    destruct (Qcompare_spec (x - inject_Z (Qfloor x)) (1 # 2));
      destruct (Qcompare_spec (y - inject_Z (Qfloor x)) (1 # 2));
      try destruct (Z.even (Qfloor x)); try lia; exfalso; lra.
  - destruct (rne_cases x), (rne_cases y); lia.
Qed.

Lemma rne_comp (x y : Q) : x == y -> Double.rne x = Double.rne y.
Proof.
  intros H. apply Z.le_antisymm; apply rne_le; rewrite H; apply Qle_refl.
Qed.

Lemma pow2_pos (k : Z) : 0 < 2 ^ k.
Proof. apply Qpower_0_lt. reflexivity. Qed.

Lemma pow2_add (a b : Z) : 2 ^ (a + b) == 2 ^ a * 2 ^ b.
Proof. apply Qpower_plus. discriminate. Qed.

Lemma pow2_le (a b : Z) : (a <= b)%Z -> 2 ^ a <= 2 ^ b.
Proof. intros H. apply Qpower_le_compat_l; [exact H | discriminate]. Qed.

Lemma pow2_lt_inv (a b : Z) : 2 ^ a < 2 ^ b -> (a < b)%Z.
Proof. intros H. apply (Qpower_lt_compat_l_inv 2); [exact H | reflexivity]. Qed.

Lemma pow2_Z (k : Z) : (0 <= k)%Z -> 2 ^ k == inject_Z (2 ^ k).
Proof. intros H. symmetry. apply (Zpower_Qpower 2 k H). Qed.

Lemma ilog2_spec (x : Q) :
  0 < x -> 2 ^ Double.ilog2 x <= x /\ x < 2 ^ (Double.ilog2 x + 1).
Proof.
  intros Hx. unfold Double.ilog2.
  destruct x as [a b]. cbn [Qnum Qden].
  assert (Ha : (0 < a)%Z) by (unfold Qlt in Hx; simpl in Hx; lia).
  set (la := Z.log2 a). set (lb := Z.log2 (Z.pos b)).
  assert (Hla : (2 ^ la <= a < 2 ^ (la + 1))%Z).
  { pose proof (Z.log2_spec a Ha). unfold la. rewrite <- Z.add_1_r in H. exact H. }
  assert (Hlb : (2 ^ lb <= Z.pos b < 2 ^ (lb + 1))%Z).
  { pose proof (Z.log2_spec (Z.pos b) ltac:(lia)). unfold lb.
    rewrite <- Z.add_1_r in H. exact H. }
  assert (Hla0 : (0 <= la)%Z) by apply Z.log2_nonneg.
  assert (Hlb0 : (0 <= lb)%Z) by apply Z.log2_nonneg.
  assert (Elow : 2 ^ (la - lb - 1) <= a # b).
  { replace (la - lb - 1)%Z with (la - (lb + 1))%Z by lia.
    rewrite Qpower_minus by discriminate.
    rewrite (pow2_Z la) by lia. rewrite (pow2_Z (lb + 1)) by lia.
    apply Qle_shift_div_r.
    - change 0 with (inject_Z 0). rewrite <- Zlt_Qlt. lia.
    - rewrite (Qmake_Qdiv a b). unfold Qdiv.
      setoid_replace (inject_Z a * / inject_Z (Z.pos b) * inject_Z (2 ^ (lb + 1)))
        with (inject_Z a * inject_Z (2 ^ (lb + 1)) / inject_Z (Z.pos b))
        by (unfold Qdiv; ring).
      apply Qle_shift_div_l.
      + change 0 with (inject_Z 0). rewrite <- Zlt_Qlt. lia.
      + rewrite <- !inject_Z_mult. rewrite <- Zle_Qle. nia. }
  assert (Ehigh : a # b < 2 ^ (la - lb + 1)).
  { replace (la - lb + 1)%Z with (la + 1 - lb)%Z by lia.
    rewrite Qpower_minus by discriminate.
    rewrite (pow2_Z (la + 1)) by lia. rewrite (pow2_Z lb) by lia.
    apply Qlt_shift_div_l.
    - change 0 with (inject_Z 0). rewrite <- Zlt_Qlt. lia.
    - rewrite (Qmake_Qdiv a b). unfold Qdiv.
      setoid_replace (inject_Z a * / inject_Z (Z.pos b) * inject_Z (2 ^ lb))
        with (inject_Z a * inject_Z (2 ^ lb) / inject_Z (Z.pos b))
        by (unfold Qdiv; ring).
      apply Qlt_shift_div_r.
      + change 0 with (inject_Z 0). rewrite <- Zlt_Qlt. lia.
      + rewrite <- !inject_Z_mult. rewrite <- Zlt_Qlt. nia. }
  destruct (Qle_bool (2 ^ (la - lb)) (a # b)) eqn:E.
  - apply Qle_bool_iff in E. split; assumption.
  - assert (Hn : ~ 2 ^ (la - lb) <= a # b).
    { intros H. apply Qle_bool_iff in H. congruence. }
    apply Qnot_le_lt in Hn.
    replace (la - lb - 1 + 1)%Z with (la - lb)%Z by lia.
    split; assumption.
Qed.

Lemma ilog2_le (x y : Q) :
  0 < x -> x <= y -> (Double.ilog2 x <= Double.ilog2 y)%Z.
Proof.
  intros Hx Hxy.
  destruct (ilog2_spec x Hx) as [H1 _].
  destruct (ilog2_spec y ltac:(lra)) as [_ H2].
  assert (H : 2 ^ Double.ilog2 x < 2 ^ (Double.ilog2 y + 1)) by lra.
  apply pow2_lt_inv in H. lia.
Qed.

Lemma ilog2_lt_of_bound (x : Q) (k : Z) :
  0 < x -> x < 2 ^ k -> (Double.ilog2 x < k)%Z.
Proof.
  intros Hx Hk. destruct (ilog2_spec x Hx) as [H1 _].
  apply pow2_lt_inv. lra.
Qed.

Lemma ulp_exp_le (x y : Q) :
  0 < x -> x <= y -> (Double.ulp_exp x <= Double.ulp_exp y)%Z.
Proof.
  intros Hx Hxy. unfold Double.ulp_exp.
  pose proof (ilog2_le x y Hx Hxy). lia.
Qed.

(** The scaled significand is below [2^53], and at least [2^52] outside
    the subnormal range. *)
Lemma scaled_lt (x : Q) :
  0 < x -> x / 2 ^ Double.ulp_exp x < 2 ^ 53.
Proof.
  intros Hx. apply Qlt_shift_div_r; [apply pow2_pos |].
  rewrite <- pow2_add.
  destruct (ilog2_spec x Hx) as [_ H].
  eapply Qlt_le_trans; [exact H |].
  apply pow2_le. unfold Double.ulp_exp. lia.
Qed.

Lemma scaled_ge (x : Q) :
  0 < x -> (-1074 < Double.ulp_exp x)%Z -> 2 ^ 52 <= x / 2 ^ Double.ulp_exp x.
Proof.
  intros Hx He. apply Qle_shift_div_l; [apply pow2_pos |].
  rewrite <- pow2_add.
  destruct (ilog2_spec x Hx) as [H _].
  eapply Qle_trans; [| exact H].
  apply pow2_le. unfold Double.ulp_exp in *. lia.
Qed.

Lemma scaled_nonneg (x : Q) (e : Z) : 0 < x -> 0 <= x / 2 ^ e.
Proof.
  intros Hx. apply Qle_shift_div_l; [apply pow2_pos |]. lra.
Qed.

Lemma round_pos_nonneg (x : Q) : 0 < x -> 0 <= Double.round_pos x.
Proof.
  intros Hx. unfold Double.round_pos.
  apply Qmult_le_0_compat; [| apply Qlt_le_weak, pow2_pos].
  change 0 with (inject_Z 0). rewrite <- Zle_Qle.
  rewrite <- (rne_inject 0). apply rne_le. apply scaled_nonneg. exact Hx.
Qed.

Lemma round_pos_le (x y : Q) :
  0 < x -> x <= y -> Double.round_pos x <= Double.round_pos y.
Proof.
  intros Hx Hxy. assert (Hy : 0 < y) by lra.
  pose proof (ulp_exp_le x y Hx Hxy) as He.
  unfold Double.round_pos.
  set (ex := Double.ulp_exp x) in *. set (ey := Double.ulp_exp y) in *.
  destruct (Z.eq_dec ex ey) as [E | NE].
  - rewrite <- E.
    apply Qmult_le_compat_r; [| apply Qlt_le_weak, pow2_pos].
    rewrite <- Zle_Qle. apply rne_le.
    apply Qmult_le_compat_r; [exact Hxy |].
    apply Qlt_le_weak, Qinv_lt_0_compat, pow2_pos.
  - assert (Hlt : (ex + 1 <= ey)%Z) by lia.
    assert (Hmx : (Double.rne (x / 2 ^ ex) <= 2 ^ 53)%Z).
    { rewrite <- (rne_inject (2 ^ 53)). apply rne_le.
      rewrite <- pow2_Z by lia. apply Qlt_le_weak. apply scaled_lt. exact Hx. }
    assert (Hmy : (2 ^ 52 <= Double.rne (y / 2 ^ ey))%Z).
    { rewrite <- (rne_inject (2 ^ 52)). apply rne_le.
      rewrite <- pow2_Z by lia. apply scaled_ge; [exact Hy |].
      unfold ex, ey, Double.ulp_exp in *. lia. }
    apply Qle_trans with (inject_Z (2 ^ 53) * 2 ^ ex).
    { apply Qmult_le_compat_r; [| apply Qlt_le_weak, pow2_pos].
      rewrite <- Zle_Qle. exact Hmx. }
    apply Qle_trans with (inject_Z (2 ^ 52) * 2 ^ ey).
    2:{ apply Qmult_le_compat_r; [| apply Qlt_le_weak, pow2_pos].
        rewrite <- Zle_Qle. exact Hmy. }
    rewrite <- !pow2_Z by lia. rewrite <- !pow2_add.
    apply pow2_le. lia.
Qed.

Lemma round_nonneg (x : Q) : 0 <= x -> 0 <= Double.round x.
Proof.
  intros Hx. unfold Double.round.
  destruct (Qcompare_spec x 0) as [E | L | G].
  - apply Qle_refl.
  - lra.
  - apply round_pos_nonneg. exact G.
Qed.

Lemma round_le (x y : Q) :
  0 <= x -> x <= y -> Double.round x <= Double.round y.
Proof.
  intros Hx Hxy. unfold Double.round at 1.
  destruct (Qcompare_spec x 0) as [E | L | G].
  - apply round_nonneg. lra.
  - lra.
  - unfold Double.round. destruct (Qcompare_spec y 0) as [E' | L' | G']; try lra.
    apply round_pos_le; assumption.
Qed.

Lemma round_comp (x y : Q) : 0 <= x -> x == y -> Double.round x == Double.round y.
Proof.
  intros Hx H. apply Qle_antisym; apply round_le; lra.
Qed.

Lemma ilog2_ext (x y : Q) :
  0 < x -> x == y -> Double.ilog2 x = Double.ilog2 y.
Proof.
  intros Hx E. apply Z.le_antisymm; apply ilog2_le; lra.
Qed.

(** Equal numbers round to the same fraction, written the same way. *)
Lemma round_pos_ext (x y : Q) :
  0 < x -> x == y -> Double.round_pos x = Double.round_pos y.
Proof.
  intros Hx E. unfold Double.round_pos, Double.ulp_exp.
  rewrite <- (ilog2_ext x y Hx E).
  rewrite (rne_comp (x / _) (y / 2 ^ Z.max (Double.ilog2 x - 52) (-1074))).
  - reflexivity.
  - unfold Qdiv. apply Qmult_comp; [exact E | reflexivity].
Qed.

Lemma round_ext (x y : Q) : x == y -> Double.round x = Double.round y.
Proof.
  intros E. unfold Double.round.
  rewrite <- (Qcompare_comp x y E 0 0 (Qeq_refl 0)).
  destruct (Qcompare_spec x 0) as [H | H | H].
  - reflexivity.
  - rewrite (round_pos_ext (- x) (- y));
      [reflexivity | lra | apply Qopp_comp; exact E].
  - rewrite (round_pos_ext x y H E). reflexivity.
Qed.

Lemma of_Q_ext (x y : Q) : x == y -> Double.of_Q x = Double.of_Q y.
Proof.
  intros E. unfold Double.of_Q, Double.is_negative.
  rewrite (round_ext x y E).
  replace (Qle_bool 0 y) with (Qle_bool 0 x); [reflexivity |].
  destruct (Qle_bool 0 x) eqn:Hx; symmetry.
  - apply Qle_bool_iff. apply Qle_bool_iff in Hx. lra.
  - destruct (Qle_bool 0 y) eqn:Hy; [| reflexivity].
    apply Qle_bool_iff in Hy.
    assert (H : Qle_bool 0 x = true) by (apply Qle_bool_iff; lra).
    congruence.
Qed.

(** Rounding leaves a number of at most 53 significant bits as it is. *)
Lemma round_exact (m e : Z) :
  (0 <= m < 2 ^ 53)%Z -> (-1074 <= e)%Z ->
  Double.round (inject_Z m * 2 ^ e) == inject_Z m * 2 ^ e.
Proof.
  intros Hm He. unfold Double.round.
  pose proof (pow2_pos e) as Hp.
  destruct (Qcompare_spec (inject_Z m * 2 ^ e) 0) as [E | L | G].
  - symmetry. exact E.
  - exfalso. assert (0 <= inject_Z m * 2 ^ e); [| lra].
    apply Qmult_le_0_compat; [| lra].
    change 0 with (inject_Z 0). rewrite <- Zle_Qle. lia.
  - set (x := inject_Z m * 2 ^ e) in *.
    unfold Double.round_pos. set (ex := Double.ulp_exp x).
    assert (Hex : (ex <= e)%Z).
    { unfold ex, Double.ulp_exp.
      assert (Hl : (Double.ilog2 x < 53 + e)%Z).
      { apply ilog2_lt_of_bound; [exact G |].
        rewrite pow2_add. unfold x.
        apply Qmult_lt_compat_r; [exact Hp |].
        rewrite pow2_Z by lia. rewrite <- Zlt_Qlt. lia. }
      lia. }
    assert (Es : x / 2 ^ ex == inject_Z (m * 2 ^ (e - ex))).
    { unfold x. rewrite inject_Z_mult. rewrite <- pow2_Z by lia.
      rewrite Qpower_minus by discriminate.
      field. apply Qpower_not_0. discriminate. }
    rewrite (rne_comp _ _ Es), rne_inject.
    unfold x. rewrite inject_Z_mult. rewrite <- pow2_Z by lia.
    rewrite Qpower_minus by discriminate.
    field. apply Qpower_not_0. discriminate.
Qed.

Lemma round_Z (z : Z) : (0 <= z < 2 ^ 53)%Z -> Double.round (inject_Z z) == inject_Z z.
Proof.
  intros Hz. pose proof (round_exact z 0 Hz ltac:(lia)) as H.
  assert (E : inject_Z z * 2 ^ 0 == inject_Z z) by (simpl; ring).
  rewrite <- E at 2. rewrite <- H.
  apply round_comp.
  - change 0 with (inject_Z 0). rewrite <- Zle_Qle. lia.
  - symmetry. exact E.
Qed.

Lemma round_upper (x : Q) (m e : Z) :
  0 <= x -> (0 <= m < 2 ^ 53)%Z -> (-1074 <= e)%Z ->
  x <= inject_Z m * 2 ^ e -> Double.round x <= inject_Z m * 2 ^ e.
Proof.
  intros Hx Hm He H. rewrite <- (round_exact m e Hm He).
  apply round_le; assumption.
Qed.

Lemma round_lower (x : Q) (m e : Z) :
  (0 <= m < 2 ^ 53)%Z -> (-1074 <= e)%Z ->
  inject_Z m * 2 ^ e <= x -> inject_Z m * 2 ^ e <= Double.round x.
Proof.
  intros Hm He H. rewrite <- (round_exact m e Hm He).
  apply round_le; [| exact H].
  apply Qmult_le_0_compat; [apply inject_Z_nonneg; lia |].
  apply Qlt_le_weak, pow2_pos.
Qed.


Lemma of_Q_finite (x : Q) :
  0 <= x -> Double.round x < 2 ^ 1024 ->
  Double.of_Q x = Double.Finite (Double.round x).
Proof.
  intros Hx H. unfold Double.of_Q.
  destruct (Qle_bool (2 ^ 1024) (Qabs (Double.round x))) eqn:E; [| reflexivity].
  apply Qle_bool_iff in E.
  rewrite Qabs_pos in E by (apply round_nonneg; exact Hx).
  exfalso. apply (Qlt_not_le _ _ H E).
Qed.


Lemma round_100 : Double.round 100 == 100.
Proof. vm_compute. reflexivity. Qed.

Lemma of_Q_0 : Double.of_Q 0 = Double.Finite 0.
Proof. vm_compute. reflexivity. Qed.

Lemma of_Q_100 : Double.of_Q 100 = Double.Finite (Double.round 100).
Proof. vm_compute. reflexivity. Qed.

Lemma round_100_not_0 : Qeq_bool (Double.round 100) 0 = false.
Proof. vm_compute. reflexivity. Qed.

Lemma pow2_1024_gt (m e : Z) :
  (0 <= m < 2 ^ 53)%Z -> (e <= 971)%Z -> inject_Z m * 2 ^ e < 2 ^ 1024.
Proof.
  intros Hm He.
  apply Qlt_le_trans with (2 ^ 53 * 2 ^ e).
  - apply Qmult_lt_compat_r; [apply pow2_pos |].
    rewrite pow2_Z by lia. rewrite <- Zlt_Qlt. lia.
  - rewrite <- pow2_add. apply pow2_le. lia.
Qed.

(** The length as a float. *)
Lemma round_len_bounds (count : Z) :
  (0 <= count)%Z ->
  0 <= Double.round (inject_Z (Z.min count Py.maxsize)) /\
  Double.round (inject_Z (Z.min count Py.maxsize)) <= inject_Z 1 * 2 ^ 63.
Proof.
  intros Hc.
  assert (H0 : (0 <= Z.min count Py.maxsize <= 2 ^ 63)%Z)
    by (unfold Py.maxsize; lia).
  split.
  - apply round_nonneg. apply inject_Z_nonneg. lia.
  - apply round_upper; [apply inject_Z_nonneg; lia | lia | lia |].
    rewrite pow2_Z by lia. rewrite <- inject_Z_mult. rewrite <- Zle_Qle.
    lia.
Qed.

Lemma of_int_len (count : Z) :
  (0 <= count)%Z ->
  Double.of_int (Z.min count Py.maxsize) =
  Py.Ret (Double.Finite (Double.round (inject_Z (Z.min count Py.maxsize)))).
Proof.
  intros Hc. unfold Double.of_int.
  rewrite of_Q_finite;
    [reflexivity | apply inject_Z_nonneg; unfold Py.maxsize; lia |].
  destruct (round_len_bounds count Hc) as [_ H].
  eapply Qle_lt_trans; [exact H |].
  apply pow2_1024_gt; lia.
Qed.

(** ** Percentiles *)

(** What [get_percentile] computes on a non-empty list, up to the
    conversion of the quotient to an index. *)
Lemma get_percentile_unfold (data : list Q) (p : Q) :
  data <> [] ->
  get_percentile data p =
  (q <- Double.div
          (Double.mul
             (Double.Finite (Double.round (inject_Z (Z.min (Py.len data) Py.maxsize))))
             (Double.of_Q p))
          (Double.Finite (Double.round 100)) ;;
   index <- Double.int q ;;
   Py.getitem data
     (if (Py.len data <=? index)%Z then (Py.len data - 1)%Z else index)).
Proof.
  intros Hne. destruct data as [| x data']; [congruence |].
  unfold get_percentile.
  rewrite of_int_len by (unfold Py.len; lia).
  rewrite of_Q_100. reflexivity.
Qed.

Lemma round_100_pos : 0 < Double.round 100.
Proof. vm_compute. reflexivity. Qed.

(** The product [len(data) * percentile] and the quotient by 100, for a
    percentile that is not negative. *)
Lemma product_nonneg (count : Z) (p : Q) :
  (0 <= count)%Z -> 0 <= p ->
  0 <= Double.round (inject_Z (Z.min count Py.maxsize)) * Double.round p.
Proof.
  intros Hc Hp. apply Qmult_le_0_compat.
  - apply (round_len_bounds count Hc).
  - apply round_nonneg. exact Hp.
Qed.

Lemma quotient_nonneg (x : Q) : 0 <= x -> 0 <= x / Double.round 100.
Proof.
  intros Hx. apply Qle_shift_div_l; [apply round_100_pos | lra].
Qed.

Lemma quotient_le (x y : Q) :
  x <= y -> x / Double.round 100 <= y / Double.round 100.
Proof.
  intros H. unfold Qdiv. apply Qmult_le_compat_r; [exact H |].
  apply Qlt_le_weak, Qinv_lt_0_compat, round_100_pos.
Qed.

Lemma rank_nonneg (count : Z) (p : Q) :
  (0 <= count)%Z -> 0 <= p -> (0 <= rank count p)%Z.
Proof.
  intros Hc Hp; unfold rank.
  assert (H : 0 <= Double.round
                     (Double.round
                        (Double.round (inject_Z (Z.min count Py.maxsize))
                         * Double.round p) / Double.round 100)).
  { apply round_nonneg, quotient_nonneg, round_nonneg, product_nonneg;
      assumption. }
  rewrite int_is_floor by exact H.
  rewrite <- (Qfloor_Z 0). apply Qfloor_resp_le. exact H.
Qed.

Lemma rank_mono (count : Z) (p q : Q) :
  (0 <= count)%Z -> 0 <= p -> p <= q -> (rank count p <= rank count q)%Z.
Proof.
  intros Hc Hp Hpq; unfold rank.
  assert (Hq : 0 <= q) by lra.
  rewrite !int_is_floor
    by (apply round_nonneg, quotient_nonneg, round_nonneg, product_nonneg;
        assumption).
  apply Qfloor_resp_le.
  apply round_le;
    [apply quotient_nonneg, round_nonneg, product_nonneg; assumption |].
  apply quotient_le.
  apply round_le; [apply product_nonneg; assumption |].
  rewrite !(Qmult_comm (Double.round (inject_Z _))).
  apply Qmult_le_compat_r; [| apply (round_len_bounds count Hc)].
  apply round_le; assumption.
Qed.

Lemma nearest_rank_in_range (count : Z) (p : Q) :
  (0 < count)%Z -> 0 <= p -> (nearest_rank count p < Z.to_nat count)%nat.
Proof.
  intros Hc Hp. unfold nearest_rank.
  pose proof (rank_nonneg count p ltac:(lia) Hp). lia.
Qed.

(** The element picked once the index is known. *)
Lemma getitem_clamped (data : list Q) (p : Q) :
  data <> [] -> 0 <= p ->
  Py.getitem data
    (if (Py.len data <=? rank (Py.len data) p)%Z
     then (Py.len data - 1)%Z else rank (Py.len data) p) =
  Py.Ret (nth (nearest_rank (Py.len data) p) data 0).
Proof.
  intros Hne Hp.
  assert (Hlen : (0 < Py.len data)%Z).
  { destruct data; [congruence | unfold Py.len; simpl List.length; lia]. }
  unfold nearest_rank.
  pose proof (rank_nonneg (Py.len data) p ltac:(lia) Hp) as Hr.
  destruct (Py.len data <=? rank (Py.len data) p)%Z eqn:E.
  - apply Z.leb_le in E. rewrite Z.min_r by lia.
    apply getitem_in_range. lia.
  - apply Z.leb_gt in E. rewrite Z.min_l by lia.
    apply getitem_in_range. lia.
Qed.



Lemma round_lower_pow2 (x : Q) (k : Z) :
  (-1074 <= k)%Z -> 2 ^ k <= x -> 2 ^ k <= Double.round x.
Proof.
  intros Hk H.
  assert (E : 2 ^ k == inject_Z 1 * 2 ^ k) by (simpl; ring).
  rewrite E. apply round_lower; [lia | exact Hk |].
  rewrite <- E. exact H.
Qed.


(** The percentiles the callers ask for are at most 100: no product is
    out of range. *)
Lemma get_percentile_nonempty (data : list Q) (p : Q) :
  data <> [] -> 0 <= p -> p <= 100 ->
  get_percentile data p = Py.Ret (nth (nearest_rank (Py.len data) p) data 0).
Proof.
  intros Hne Hp0 Hp1.
  assert (Hlen : (0 < Py.len data)%Z).
  { destruct data; [congruence | unfold Py.len; simpl List.length; lia]. }
  rewrite (get_percentile_unfold data p Hne).
  set (a := Double.round (inject_Z (Z.min (Py.len data) Py.maxsize))).
  destruct (round_len_bounds (Py.len data) ltac:(lia)) as [Ha0 Ha1].
  fold a in Ha0, Ha1.
  assert (Hp : Double.round p <= inject_Z 25 * 2 ^ 2).
  { apply round_upper; [exact Hp0 | lia | lia |]. exact Hp1. }
  assert (Hp' : 0 <= Double.round p) by (apply round_nonneg; exact Hp0).
  assert (Hprod : 0 <= a * Double.round p) by (apply Qmult_le_0_compat; assumption).
  assert (Hm : Double.round (a * Double.round p) <= inject_Z 25 * 2 ^ 65).
  { apply round_upper; [exact Hprod | lia | lia |].
    apply Qle_trans with (inject_Z 1 * 2 ^ 63 * (inject_Z 25 * 2 ^ 2)).
    - apply Qle_trans with (a * (inject_Z 25 * 2 ^ 2)).
      + rewrite !(Qmult_comm a). apply Qmult_le_compat_r; assumption.
      + apply Qmult_le_compat_r; [exact Ha1 | discriminate].
    - vm_compute. discriminate. }
  rewrite (of_Q_finite p Hp0).
  2:{ eapply Qle_lt_trans; [exact Hp |]. apply pow2_1024_gt; lia. }
  cbn [Double.mul].
  rewrite (of_Q_finite _ Hprod).
  2:{ eapply Qle_lt_trans; [exact Hm |]. apply pow2_1024_gt; lia. }
  unfold Double.div. rewrite round_100_not_0. cbn [Py.bind].
  assert (Hq : 0 <= Double.round (a * Double.round p) / Double.round 100)
    by (apply quotient_nonneg, round_nonneg; exact Hprod).
  rewrite (of_Q_finite _ Hq).
  - cbn [Double.int Py.bind]. fold a.
    change (Py.int _) with (rank (Py.len data) p).
    apply getitem_clamped; assumption.
  - apply Qle_lt_trans with (inject_Z 25 * 2 ^ 65);
      [| apply pow2_1024_gt; lia].
    apply round_upper; [exact Hq | lia | lia |].
    apply Qle_shift_div_r; [apply round_100_pos |].
    rewrite round_100.
    apply Qle_trans with (inject_Z 25 * 2 ^ 65); [exact Hm |].
    rewrite <- (Qmult_1_r (inject_Z 25 * 2 ^ 65)) at 1.
    rewrite !(Qmult_comm (inject_Z 25 * 2 ^ 65)).
    apply Qmult_le_compat_r; [discriminate | discriminate].
Qed.



(** The length of a list of fewer than [2^53] elements is a float. *)
Lemma round_len_exact (count : Z) :
  (0 <= count < 2 ^ 53)%Z ->
  Double.round (inject_Z (Z.min count Py.maxsize)) == inject_Z count.
Proof.
  intros Hc. rewrite Z.min_l by (unfold Py.maxsize; lia).
  apply round_Z. exact Hc.
Qed.

Lemma Qfloor_unique (x : Q) (f : Z) :
  inject_Z f <= x -> x < inject_Z (f + 1) -> Qfloor x = f.
Proof.
  intros Hlo Hhi. apply Z.le_antisymm.
  - assert (H : (Qfloor x < f + 1)%Z); [| lia].
    rewrite Zlt_Qlt. eapply Qle_lt_trans; [apply Qfloor_le | exact Hhi].
  - rewrite <- (Qfloor_Z f). apply Qfloor_resp_le. exact Hlo.
Qed.

(** Rounding does not reach the next integer from a number that is at
    least 1/128 below it. *)
Lemma round_keeps_floor (y : Q) (f : Z) :
  (0 <= f < 2 ^ 46)%Z ->
  inject_Z f <= y -> y <= inject_Z f + (127 # 128) ->
  Qfloor (Double.round y) = f.
Proof.
  intros Hf Hlo Hhi.
  assert (H0 : 0 <= y).
  { apply Qle_trans with (inject_Z f); [apply inject_Z_nonneg; lia | exact Hlo]. }
  assert (Hlow : inject_Z f <= Double.round y).
  { rewrite <- (round_Z f) by lia.
    apply round_le; [apply inject_Z_nonneg; lia | exact Hlo]. }
  assert (E : inject_Z (128 * f + 127) * 2 ^ (-7) == inject_Z f + (127 # 128)).
  { rewrite inject_Z_plus, inject_Z_mult. change (2 ^ (-7)) with (1 # 128).
    simpl. field. }
  assert (Hup : Double.round y <= inject_Z (128 * f + 127) * 2 ^ (-7)).
  { apply round_upper; [exact H0 | lia | lia |].
    rewrite E. exact Hhi. }
  rewrite E in Hup. clear E.
  apply Qfloor_unique; [exact Hlow |].
  rewrite inject_Z_plus.
  apply Qle_lt_trans with (inject_Z f + (127 # 128)); [exact Hup |].
  apply Qplus_lt_r. reflexivity.
Qed.

(** An integer percentile and fewer than [2^46] samples: the index is the
    integer quotient of [count * k] by 100. *)
Lemma rank_of_integer (count k : Z) :
  (0 <= count < 2 ^ 46)%Z -> (0 <= k <= 100)%Z ->
  rank count (inject_Z k) = (count * k / 100)%Z.
Proof.
  intros Hc Hk. unfold rank.
  assert (Ea : Double.round (inject_Z (Z.min count Py.maxsize)) == inject_Z count)
    by (apply round_len_exact; lia).
  assert (Ek : Double.round (inject_Z k) == inject_Z k)
    by (apply round_Z; lia).
  assert (Hck : (0 <= count * k < 2 ^ 53)%Z) by nia.
  assert (Ep : Double.round
                 (Double.round (inject_Z (Z.min count Py.maxsize))
                  * Double.round (inject_Z k)) == inject_Z (count * k)).
  { rewrite <- (round_Z (count * k)) by exact Hck.
    apply round_comp.
    - apply Qmult_le_0_compat; apply round_nonneg; apply inject_Z_nonneg;
        unfold Py.maxsize; lia.
    - rewrite Ea, Ek, inject_Z_mult. reflexivity. }
  set (x := Double.round (_ * _)) in *.
  assert (Hx : 0 <= x).
  { rewrite Ep. apply inject_Z_nonneg. lia. }
  assert (Eq : x / Double.round 100 == inject_Z (count * k) / inject_Z 100).
  { rewrite Ep, round_100. reflexivity. }
  set (f := (count * k / 100)%Z).
  assert (Hdiv : (count * k = 100 * f + (count * k) mod 100)%Z)
    by (unfold f; apply Z.div_mod; lia).
  assert (Hmod : (0 <= (count * k) mod 100 < 100)%Z)
    by (apply Z.mod_pos_bound; lia).
  assert (Hf : (0 <= f < 2 ^ 46)%Z).
  { unfold f. split; [apply Z.div_pos; lia |].
    apply Z.div_lt_upper_bound; nia. }
  rewrite int_is_floor by (apply round_nonneg, quotient_nonneg; exact Hx).
  apply round_keeps_floor; [exact Hf | |].
  - rewrite Eq. apply Qle_shift_div_l; [reflexivity |].
    rewrite <- inject_Z_mult. rewrite <- Zle_Qle. lia.
  - rewrite Eq. apply Qle_shift_div_r; [reflexivity |].
    apply Qle_trans with (inject_Z (100 * f + 99)).
    + rewrite <- Zle_Qle. lia.
    + rewrite inject_Z_plus, inject_Z_mult.
      change (inject_Z 99) with 99. change (inject_Z 100) with 100.
      generalize (inject_Z f). clear. intros z. lra.
Qed.

(** The same index, as the specification writes it. *)
Lemma rank_of_integer_floor (count k : Z) :
  (0 <= count < 2 ^ 46)%Z -> (0 <= k <= 100)%Z ->
  rank count (inject_Z k) = Qfloor (inject_Z count * (inject_Z k / 100)).
Proof.
  intros Hc Hk. rewrite rank_of_integer by assumption.
  rewrite Zdiv_Qdiv. apply Qfloor_comp.
  rewrite inject_Z_mult. change (inject_Z 100) with 100.
  unfold Qdiv. ring.
Qed.

(** An int percentile gives the index of the float of the same value, as
    long as the product is below [2^53]. *)
Lemma int_rank_is_rank (count k : Z) :
  (0 <= count < 2 ^ 53)%Z -> (0 <= k < 2 ^ 53)%Z -> (count * k < 2 ^ 53)%Z ->
  rank count (inject_Z k) = int_rank count k.
Proof.
  intros Hc Hk Hck. unfold rank, int_rank.
  assert (Ea : Double.round (inject_Z (Z.min count Py.maxsize)) == inject_Z count)
    by (apply round_len_exact; lia).
  assert (Ek : Double.round (inject_Z k) == inject_Z k) by (apply round_Z; lia).
  assert (Ep : Double.round
                 (Double.round (inject_Z (Z.min count Py.maxsize))
                  * Double.round (inject_Z k)) == inject_Z (count * k)).
  { rewrite <- (round_Z (count * k)) by nia.
    apply round_comp.
    - apply Qmult_le_0_compat; apply round_nonneg; apply inject_Z_nonneg;
        unfold Py.maxsize; lia.
    - rewrite Ea, Ek, inject_Z_mult. reflexivity. }
  f_equal. apply round_ext. rewrite Ep, round_100. reflexivity.
Qed.

(** The same with a slack of 1/1024, for the percentile 99.9. *)
Lemma round_keeps_floor_fine (y : Q) (f : Z) :
  (0 <= f < 2 ^ 36)%Z ->
  inject_Z f <= y -> y <= inject_Z f + (1023 # 1024) ->
  Qfloor (Double.round y) = f.
Proof.
  intros Hf Hlo Hhi.
  assert (H0 : 0 <= y).
  { apply Qle_trans with (inject_Z f); [apply inject_Z_nonneg; lia | exact Hlo]. }
  assert (Hlow : inject_Z f <= Double.round y).
  { rewrite <- (round_Z f) by lia.
    apply round_le; [apply inject_Z_nonneg; lia | exact Hlo]. }
  assert (E : inject_Z (1024 * f + 1023) * 2 ^ (-10)
              == inject_Z f + (1023 # 1024)).
  { rewrite inject_Z_plus, inject_Z_mult. change (2 ^ (-10)) with (1 # 1024).
    simpl. field. }
  assert (Hup : Double.round y <= inject_Z (1024 * f + 1023) * 2 ^ (-10)).
  { apply round_upper; [exact H0 | lia | lia |].
    rewrite E. exact Hhi. }
  rewrite E in Hup. clear E.
  apply Qfloor_unique; [exact Hlow |].
  rewrite inject_Z_plus.
  apply Qle_lt_trans with (inject_Z f + (1023 # 1024)); [exact Hup |].
  apply Qplus_lt_r. reflexivity.
Qed.

(** The float nearest to 99.9 is above it, by less than [10^-14]. *)
Lemma round_99_9 :
  999 # 10 <= Double.round (999 # 10) /\
  Double.round (999 # 10) <= (999 # 10) + (1 # 100000000000000).
Proof. split; vm_compute; discriminate. Qed.

(** The percentile 99.9 and fewer than [2^36] samples: the index is the
    integer quotient of [count * 999] by 1000. *)
Lemma rank_of_99_9 (count : Z) :
  (0 <= count < 2 ^ 36)%Z ->
  rank count (999 # 10) = (count * 999 / 1000)%Z.
Proof.
  intros Hc. unfold rank.
  assert (Ea : Double.round (inject_Z (Z.min count Py.maxsize)) == inject_Z count)
    by (apply round_len_exact; lia).
  destruct round_99_9 as [Hd0 Hd1].
  set (d := Double.round (999 # 10)) in *.
  set (a := Double.round (inject_Z (Z.min count Py.maxsize))) in *.
  set (f := (count * 999 / 1000)%Z).
  assert (Hdiv : (count * 999 = 1000 * f + (count * 999) mod 1000)%Z)
    by (unfold f; apply Z.div_mod; lia).
  assert (Hmod : (0 <= (count * 999) mod 1000 < 1000)%Z)
    by (apply Z.mod_pos_bound; lia).
  assert (Hf : (0 <= f < 2 ^ 36)%Z).
  { unfold f. split; [apply Z.div_pos; lia |].
    apply Z.div_lt_upper_bound; lia. }
  assert (Hn0 : 0 <= inject_Z count) by (apply inject_Z_nonneg; lia).
  assert (Hn1 : inject_Z count <= 68719476736).
  { change 68719476736 with (inject_Z (2 ^ 36)). rewrite <- Zle_Qle. lia. }
  assert (Hq0 : 1000 * inject_Z f <= 999 * inject_Z count).
  { change 1000 with (inject_Z 1000). change 999 with (inject_Z 999).
    rewrite <- !inject_Z_mult. rewrite <- Zle_Qle. lia. }
  assert (Hq1 : 999 * inject_Z count <= 1000 * inject_Z f + 999).
  { change 1000 with (inject_Z 1000). change 999 with (inject_Z 999).
    rewrite <- !inject_Z_mult, <- inject_Z_plus. rewrite <- Zle_Qle. lia. }
  assert (Hf0 : 0 <= inject_Z f) by (apply inject_Z_nonneg; lia).
  assert (Hprod0 : 0 <= a * d).
  { rewrite Ea. apply Qmult_le_0_compat; [exact Hn0 | lra]. }
  assert (Hlow : inject_Z (100 * f) <= Double.round (a * d)).
  { rewrite <- (round_Z (100 * f)) by lia.
    apply round_le; [apply inject_Z_nonneg; lia |].
    rewrite Ea, inject_Z_mult. change (inject_Z 100) with 100.
    apply Qle_trans with (inject_Z count * (999 # 10)).
    - lra.
    - rewrite !(Qmult_comm (inject_Z count)).
      apply Qmult_le_compat_r; assumption. }
  assert (Hup : Double.round (a * d)
                <= inject_Z (102400 * f + 102300) * 2 ^ (-10)).
  { apply round_upper; [exact Hprod0 | lia | lia |].
    rewrite Ea, inject_Z_plus, inject_Z_mult.
    change (2 ^ (-10)) with (1 # 1024).
    change (inject_Z 102400) with 102400. change (inject_Z 102300) with 102300.
    apply Qle_trans
      with (inject_Z count * ((999 # 10) + (1 # 100000000000000))).
    - rewrite !(Qmult_comm (inject_Z count)).
      apply Qmult_le_compat_r; assumption.
    - lra. }
  set (x := Double.round (a * d)) in *.
  assert (Hx : 0 <= x) by (apply round_nonneg; exact Hprod0).
  rewrite int_is_floor by (apply round_nonneg, quotient_nonneg; exact Hx).
  apply round_keeps_floor_fine; [exact Hf | |].
  - rewrite round_100. apply Qle_shift_div_l; [reflexivity |].
    rewrite inject_Z_mult in Hlow. change (inject_Z 100) with 100 in Hlow. lra.
  - rewrite round_100. apply Qle_shift_div_r; [reflexivity |].
    rewrite inject_Z_plus, inject_Z_mult in Hup.
    change (2 ^ (-10)) with (1 # 1024) in Hup.
    change (inject_Z 102400) with 102400 in Hup.
    change (inject_Z 102300) with 102300 in Hup. lra.
Qed.

Lemma rank_of_99_9_floor (count : Z) :
  (0 <= count < 2 ^ 36)%Z ->
  rank count (999 # 10) = Qfloor (inject_Z count * ((999 # 10) / 100)).
Proof.
  intros Hc. rewrite rank_of_99_9 by assumption.
  rewrite Zdiv_Qdiv. apply Qfloor_comp.
  rewrite inject_Z_mult. change (inject_Z 999) with 999.
  change (inject_Z 1000) with 1000. field.
Qed.

(** Equal percentiles are the same float. *)
Lemma get_percentile_ext (data : list Q) (p p' : Q) :
  p == p' -> get_percentile data p = get_percentile data p'.
Proof.
  intros E. unfold get_percentile. rewrite (of_Q_ext p p' E). reflexivity.
Qed.


(** C1, as stated, fails for a percentile that is not an integer: of the
    375 samples 0, 1, ..., 374 at the percentile 18.4, where
    [floor(375 * 18.4 / 100)] is 69, the code returns the sample at
    index 68.  The float nearest to 18.4 is below it, the product is
    rounded to the float below 6900, and so is the quotient to the float
    below 69. *)
Lemma get_percentile_below_the_nearest_rank :
  0 <= 184 # 10 <= 100 /\
  Py.len samples_375 = 375%Z /\
  Qfloor (inject_Z (Py.len samples_375) * ((184 # 10) / 100)) = 69%Z /\
  nth 69 samples_375 0 = 69 /\
  get_percentile samples_375 (184 # 10) = Py.Ret 68.
Proof.
  split; [split; discriminate |].
  split; [reflexivity |]. split; [reflexivity |]. split; [reflexivity |].
  vm_compute. reflexivity.
Qed.

(** C1, amended: for a percentile that is an integer between 0 and 100,
    or 99.9, and fewer than [2^36] samples, [get_percentile] returns 0 on
    the empty list and otherwise the element at index
    [floor(count * p / 100)], clamped to [count - 1]; it never raises.
    These are the percentiles the callers ask for: 50, 95, 99 and 99.9. *)
Theorem get_percentile_nearest_rank (data : list Q) (p : Q) :
  (exists k : Z, (0 <= k <= 100)%Z /\ p == inject_Z k) \/ p == 999 # 10 ->
  (Py.len data < 2 ^ 36)%Z ->
  get_percentile data p =
  match data with
  | [] => Py.Ret 0
  | _ :: _ =>
      Py.Ret (nth (Z.to_nat (Z.min (Qfloor (inject_Z (Py.len data) * (p / 100)))
                                   (Py.len data - 1)))
                  data 0)
  end.
Proof.
  intros Hp Hlen.
  destruct data as [| x data']; [reflexivity |].
  set (data := x :: data') in *.
  pose proof (len_nonneg data) as Hlen0.
  assert (Hne : data <> []) by discriminate.
  destruct Hp as [(k & Hk & E) | E].
  - rewrite (get_percentile_ext data p (inject_Z k) E).
    assert (E' : inject_Z (Py.len data) * (p / 100)
                 == inject_Z (Py.len data) * (inject_Z k / 100))
      by (rewrite E; reflexivity).
    rewrite (Qfloor_comp _ _ E').
    rewrite <- (rank_of_integer_floor (Py.len data) k) by lia.
    apply get_percentile_nonempty; [exact Hne | |].
    + apply inject_Z_nonneg. lia.
    + change 100 with (inject_Z 100). rewrite <- Zle_Qle. lia.
  - rewrite (get_percentile_ext data p (999 # 10) E).
    assert (E' : inject_Z (Py.len data) * (p / 100)
                 == inject_Z (Py.len data) * ((999 # 10) / 100))
      by (rewrite E; reflexivity).
    rewrite (Qfloor_comp _ _ E').
    rewrite <- (rank_of_99_9_floor (Py.len data)) by lia.
    apply get_percentile_nonempty; [exact Hne | discriminate | discriminate].
Qed.

Lemma get_percentile_nearest_rank_witness :
  ((exists k : Z, (0 <= k <= 100)%Z /\ 50 == inject_Z k) \/ 50 == 999 # 10) /\
  (Py.len [1; 2; 3; 4] < 2 ^ 36)%Z /\
  get_percentile [1; 2; 3; 4] 50 = Py.Ret 3.
Proof.
  assert (H : (exists k : Z, (0 <= k <= 100)%Z /\ 50 == inject_Z k)
              \/ 50 == 999 # 10).
  { left. exists 50%Z. split; [lia | reflexivity]. }
  split; [exact H |]. split; [reflexivity |].
  apply (get_percentile_nearest_rank [1; 2; 3; 4] 50 H). reflexivity.
Defined.

Lemma strongly_sorted_nth (l : list Q) :
  StronglySorted Qle l ->
  forall i j : nat, (i <= j < List.length l)%nat -> nth i l 0 <= nth j l 0.
Proof.
  induction 1 as [| x l Hs IH Hall]; intros i j Hij.
  - simpl in Hij. lia.
  - destruct i as [| i], j as [| j]; simpl in *.
    + apply Qle_refl.
    + rewrite Forall_forall in Hall. apply Hall. apply nth_In. lia.
    + lia.
    + apply IH. lia.
Qed.

Lemma sorted_strongly_sorted (l : list Q) :
  Sorted Qle l -> StronglySorted Qle l.
Proof.
  apply Sorted_StronglySorted. intros x y z. apply Qle_trans.
Qed.

(** C10: on a sorted list, [get_percentile] is monotone in the
    percentile: for [0 <= p <= q <= 100] both calls return, and the value
    for [p] is at most the value for [q]. *)
Theorem get_percentile_monotone (data : list Q) (p q : Q) :
  Sorted Qle data ->
  0 <= p -> p <= q -> q <= 100 ->
  exists a b : Q,
    get_percentile data p = Py.Ret a /\
    get_percentile data q = Py.Ret b /\
    a <= b.
Proof.
  intros Hs Hp Hpq Hq.
  assert (Hq0 : 0 <= q) by (apply Qle_trans with p; assumption).
  assert (Hp1 : p <= 100) by (apply Qle_trans with q; assumption).
  destruct data as [| x data'].
  - exists 0, 0. repeat split; apply Qle_refl.
  - set (data := x :: data') in *.
    assert (Hne : data <> []) by discriminate.
    exists (nth (nearest_rank (Py.len data) p) data 0),
           (nth (nearest_rank (Py.len data) q) data 0).
    split; [apply get_percentile_nonempty; assumption |].
    split; [apply get_percentile_nonempty; assumption |].
    assert (Hlen : (0 < Py.len data)%Z)
      by (unfold Py.len, data; simpl List.length; lia).
    pose proof (rank_nonneg (Py.len data) p ltac:(lia) Hp) as Hrp.
    pose proof (rank_mono (Py.len data) p q ltac:(lia) Hp Hpq) as Hm.
    apply strongly_sorted_nth.
    + apply sorted_strongly_sorted. exact Hs.
    + unfold nearest_rank, Py.len in *. lia.
Qed.

Lemma get_percentile_monotone_witness :
  exists a b : Q,
    get_percentile [1; 2; 3; 4] 50 = Py.Ret a /\
    get_percentile [1; 2; 3; 4] 99 = Py.Ret b /\
    a <= b.
Proof.
  apply (get_percentile_monotone [1; 2; 3; 4] 50 99).
  - repeat constructor; discriminate.
  - discriminate.
  - discriminate.
  - discriminate.
Defined.

(** ** Resource monitor *)

Lemma fold_left_Qplus (l : list Q) (a : Q) :
  fold_left Qplus l a == a + total_of l.
Proof.
  revert a; induction l as [| x l IH]; intros a; simpl.
  - ring.
  - rewrite IH. ring.
Qed.

Lemma sum_is_total (l : list Q) : Py.sum l == total_of l.
Proof. unfold Py.sum. rewrite fold_left_Qplus. ring. Qed.

Lemma fold_max_spec (l : list Q) (x : Q) :
  let m := fold_left (fun m y => if Qlt_le_dec m y then y else m) l x in
  In m (x :: l) /\ x <= m /\ Forall (fun y => y <= m) l.
Proof.
  revert x; induction l as [| y l IH]; intros x; simpl.
  - split; [left; reflexivity | split; [apply Qle_refl | constructor]].
  - destruct (Qlt_le_dec x y) as [Hlt | Hle].
    + destruct (IH y) as (Hin & Hge & Hall).
      split; [| split].
      * simpl in Hin. destruct Hin as [E | Hin]; [right; left; exact E |].
        right; right; exact Hin.
      * apply Qle_trans with y; [apply Qlt_le_weak; exact Hlt | exact Hge].
      * constructor; assumption.
    + destruct (IH x) as (Hin & Hge & Hall).
      split; [| split].
      * simpl in Hin. destruct Hin as [E | Hin]; [left; exact E |].
        right; right; exact Hin.
      * exact Hge.
      * constructor; [apply Qle_trans with x; assumption | exact Hall].
Qed.

Lemma max_nonempty (l : list Q) :
  l <> [] -> exists x, Py.max l = Py.Ret x /\ maximum_of l x.
Proof.
  destruct l as [| x l]; [congruence |]; intros _.
  eexists; split; [reflexivity |].
  destruct (fold_max_spec l x) as (Hin & Hge & Hall).
  split; [exact Hin | constructor; assumption].
Qed.

Lemma truediv_len (a : Q) {A : Type} (l : list A) :
  l <> [] ->
  Py.truediv a (inject_Z (Py.len l)) = Py.Ret (a / inject_Z (Py.len l)).
Proof.
  intros Hne. unfold Py.truediv.
  destruct (Qeq_bool (inject_Z (Py.len l)) 0) eqn:E; [| reflexivity].
  apply Qeq_bool_iff in E. unfold Qeq, Py.len in E; simpl in E.
  destruct l; [congruence | simpl in E; lia].
Qed.

(** The sampling loop appends to both sequences or to none. *)
Lemma monitor_loop_lengths (v : CPUMonitor.variant)
    (rs : list CPUMonitor.reading) (m : CPUMonitor.t) :
  List.length (CPUMonitor.memory_samples m)
    = List.length (CPUMonitor.cpu_samples m) ->
  List.length (CPUMonitor.memory_samples (CPUMonitor.monitor_loop v m rs))
    = List.length (CPUMonitor.cpu_samples (CPUMonitor.monitor_loop v m rs)).
Proof.
  revert m; induction rs as [| r rs IH]; intros m Hm; simpl; [exact Hm |].
  destruct r as [c mem |]; simpl; [| exact Hm].
  destruct v; simpl.
  - destruct (Qlt_le_dec 0 c); apply IH; simpl; [| exact Hm].
    rewrite !length_app, Hm. reflexivity.
  - apply IH; simpl. rewrite !length_app, Hm. reflexivity.
Qed.

Lemma stop_summarises (m : CPUMonitor.t) :
  List.length (CPUMonitor.memory_samples m)
    = List.length (CPUMonitor.cpu_samples m) ->
  exists s, CPUMonitor.stop m = Py.Ret s /\
            summarises (CPUMonitor.cpu_samples m) (CPUMonitor.memory_samples m) s.
Proof.
  intros Hlen. unfold CPUMonitor.stop, summarises.
  destruct (CPUMonitor.cpu_samples m) as [| c cpu] eqn:Ec.
  - eexists; split; reflexivity.
  - assert (Hc : c :: cpu <> []) by discriminate.
    assert (Hm : CPUMonitor.memory_samples m <> []).
    { intros E. rewrite E in Hlen. discriminate. }
    rewrite (truediv_len _ (c :: cpu) Hc).
    destruct (max_nonempty (c :: cpu) Hc) as (pc & Epc & Hpc).
    rewrite Epc.
    rewrite (truediv_len _ _ Hm).
    destruct (max_nonempty _ Hm) as (pm & Epm & Hpm).
    rewrite Epm. cbn [Py.bind].
    eexists; split; [reflexivity |]. cbn [CPUMonitor.avg_cpu
      CPUMonitor.peak_cpu CPUMonitor.avg_memory CPUMonitor.peak_memory].
    unfold mean_of, Py.len.
    repeat split; try apply Hpc; try apply Hpm.
    + rewrite sum_is_total. reflexivity.
    + rewrite sum_is_total. reflexivity.
Qed.

(** C8: whatever the readings the sampling loop took, [stop] returns a
    summary and does not raise; the summary is all zeros when no sample was
    collected, and otherwise holds the arithmetic mean and the maximum of
    the CPU samples and of the memory samples. *)
Theorem monitor_stop_summary (v : CPUMonitor.variant)
    (rs : list CPUMonitor.reading) :
  let m := CPUMonitor.monitor_loop v (CPUMonitor.start CPUMonitor.init) rs in
  exists s : CPUMonitor.summary,
    CPUMonitor.stop m = Py.Ret s /\
    CPUMonitor.run v rs = Py.Ret s /\
    summarises (CPUMonitor.cpu_samples m) (CPUMonitor.memory_samples m) s.
Proof.
  intros m.
  destruct (stop_summarises m) as (s & Es & Hs).
  - apply monitor_loop_lengths. reflexivity.
  - exists s. split; [exact Es | split; [exact Es | exact Hs]].
Qed.

(** ** Batch driver *)

Lemma zsum_app (l1 l2 : list Z) : zsum (l1 ++ l2) = (zsum l1 + zsum l2)%Z.
Proof. induction l1 as [| x l1 IH]; simpl; [reflexivity | rewrite IH; lia]. Qed.

Lemma range2_from_1 (n : Z) :
  Py.range2 1 (n + 1) = map (fun k => (1 + Z.of_nat k)%Z) (seq 0 (Z.to_nat n)).
Proof. unfold Py.range2. do 2 f_equal. lia. Qed.

(** The request counts of the batches [1 .. n], by position. *)
Lemma requests_plan (B V n : Z) :
  map (Fixed.requests_in_batch B V) (Py.range2 1 (n + 1))
  = plan_of B V (Z.to_nat n).
Proof.
  rewrite range2_from_1, map_map.
  unfold plan_of, Fixed.requests_in_batch.
  apply map_ext. intros k. f_equal. lia.
Qed.

Lemma ceil_bounds (B V : Z) :
  (0 < B)%Z ->
  (V <= (V + B - 1) / B * B < V + B)%Z.
Proof.
  intros HB.
  pose proof (Z.div_mod (V + B - 1) B ltac:(lia)).
  pose proof (Z.mod_pos_bound (V + B - 1) B HB). nia.
Qed.

Lemma ceil_is_Qceiling (B V : Z) :
  (0 < B)%Z ->
  ((V + B - 1) / B)%Z = Qceiling (inject_Z V / inject_Z B).
Proof.
  intros HB. unfold Qceiling.
  assert (E : - (inject_Z V / inject_Z B) == inject_Z (- V) / inject_Z B).
  { rewrite inject_Z_opp. unfold Qdiv. ring. }
  rewrite (Qfloor_comp _ _ E), <- Zdiv_Qdiv.
  pose proof (Z.div_mod (- V) B ltac:(lia)).
  pose proof (Z.mod_pos_bound (- V) B HB).
  symmetry. apply Z.div_unique with (r := (B - 1 - (- V) mod B)%Z); lia.
Qed.

Lemma plan_of_length (B V : Z) (n : nat) : List.length (plan_of B V n) = n.
Proof. unfold plan_of. rewrite length_map, length_seq. reflexivity. Qed.

Lemma plan_of_nth (B V : Z) (n k : nat) :
  (k < n)%nat -> nth k (plan_of B V n) 0%Z = Z.min B (V - Z.of_nat k * B).
Proof.
  intros Hk. unfold plan_of.
  rewrite (nth_indep _ 0%Z (Z.min B (V - Z.of_nat 0 * B)))
    by (rewrite length_map, length_seq; exact Hk).
  rewrite (map_nth (fun k => Z.min B (V - Z.of_nat k * B))).
  rewrite seq_nth by exact Hk. reflexivity.
Qed.

Lemma firstn_seq_le (k n s : nat) :
  (k <= n)%nat -> firstn k (seq s n) = seq s k.
Proof.
  revert n s; induction k as [| k IH]; intros n s Hk; [reflexivity |].
  destruct n as [| n]; [lia |]. simpl. f_equal. apply IH. lia.
Qed.

Lemma plan_of_firstn (B V : Z) (n k : nat) :
  (k <= n)%nat -> firstn k (plan_of B V n) = plan_of B V k.
Proof.
  intros Hk. unfold plan_of.
  rewrite firstn_map. f_equal.
  apply firstn_seq_le. exact Hk.
Qed.

(** While whole batches fit, the first [m] batches carry [m * B] requests;
    the batch that exhausts the volume carries the rest. *)
Lemma plan_of_sum (B V : Z) (m : nat) :
  (0 < B)%Z -> (0 <= V)%Z ->
  ((Z.of_nat m - 1) * B < V \/ m = 0%nat)%Z ->
  zsum (plan_of B V m) = Z.min V (Z.of_nat m * B).
Proof.
  intros HB HV. induction m as [| m IH]; intros Hm.
  - simpl. lia.
  - destruct Hm as [Hm | Hm]; [| lia].
    rewrite Nat2Z.inj_succ in *.
    assert (Hm' : (Z.of_nat m * B < V)%Z) by lia.
    unfold plan_of in *. rewrite seq_S, map_app, zsum_app. simpl.
    rewrite IH by lia. lia.
Qed.

(** The counts [min(B, V), min(B, V - B), ...] of [ceil(V / B)] batches:
    each is what is left of the volume, up to [B]; they are positive and
    sum to the volume. *)
Lemma plan_partitions (V B : Z) :
  (0 <= V)%Z -> (0 < B)%Z ->
  let plan := plan_of B V (Z.to_nat ((V + B - 1) / B)) in
  Py.len plan = Qceiling (inject_Z V / inject_Z B) /\
  (forall k : nat, (k < List.length plan)%nat ->
     nth k plan 0%Z = Z.min B (V - zsum (firstn k plan)) /\
     (0 < nth k plan 0 <= B)%Z) /\
  zsum plan = V.
Proof.
  intros HV HB.
  set (n := ((V + B - 1) / B)%Z).
  pose proof (ceil_bounds B V HB) as Hn. fold n in Hn.
  assert (Hn0 : (0 <= n)%Z) by nia.
  cbv zeta. split; [| split].
  - unfold Py.len. rewrite plan_of_length, <- ceil_is_Qceiling by exact HB.
    fold n. lia.
  - intros k Hk. rewrite plan_of_length in Hk.
    rewrite plan_of_nth by exact Hk.
    rewrite plan_of_firstn by lia.
    rewrite plan_of_sum by (try assumption; nia).
    assert (Hkn : (Z.of_nat k + 1 <= n)%Z) by lia.
    split; [f_equal; nia | nia].
  - rewrite plan_of_sum by (try assumption; nia).
    rewrite Z2Nat.id by exact Hn0. lia.
Qed.

(** ** Request executor *)

(** C4, as stated, fails on [run_batch]'s executor: a request that times
    out after two seconds is recorded with latency 0. *)
Lemma fixed_make_request_records_zero :
  Fixed.make_request timed_out_attempt = Py.Ret (0, false) /\
  Net.elapsed_ms timed_out_attempt == 2000 /\
  ~ records_elapsed_on_failure Fixed.make_request.
Proof.
  split; [reflexivity | split; [reflexivity |]].
  intros H.
  destruct (H timed_out_attempt Py.TimeoutError eq_refl eq_refl eq_refl)
    as (latency & E & _ & Hnz).
  apply Hnz. cbv in E. injection E as <-. reflexivity.
Qed.

(** C4, amended: when the transport raises a timeout or any other
    [Exception], no executor raises and each returns a failure;
    [RequestWorker.process_request] records the elapsed time, which is not
    0 once the clock has advanced, while the executors of [run_batch] and
    [run_wave] record latency 0. *)
Theorem executors_on_transport_failure (a : Net.attempt) (e : Py.exn) :
  Net.result a = Net.Fails e ->
  Py.is_Exception e = true ->
  Optimized.process_request a = Py.Ret (Net.elapsed_ms a, false) /\
  (Net.started a < Net.ended a -> 0 < Net.elapsed_ms a) /\
  Fixed.make_request a = Py.Ret (0, false) /\
  exists error : string,
    Investigate.make_request a = Py.Ret (0, false, Some error).
Proof.
  intros Hr He.
  unfold Optimized.process_request, Fixed.make_request,
    Investigate.make_request.
  rewrite Hr, He.
  split; [destruct (Py.is_TimeoutError e); reflexivity |].
  split.
  - intros Hlt. unfold Net.elapsed_ms. lra.
  - split; destruct (Py.is_TimeoutError e); try reflexivity;
      eexists; reflexivity.
Qed.

Lemma executors_on_transport_failure_witness :
  Optimized.process_request timed_out_attempt
    = Py.Ret (Net.elapsed_ms timed_out_attempt, false) /\
  (Net.started timed_out_attempt < Net.ended timed_out_attempt ->
   0 < Net.elapsed_ms timed_out_attempt) /\
  Fixed.make_request timed_out_attempt = Py.Ret (0, false) /\
  exists error : string,
    Investigate.make_request timed_out_attempt = Py.Ret (0, false, Some error).
Proof.
  apply (executors_on_transport_failure timed_out_attempt Py.TimeoutError).
  - reflexivity.
  - reflexivity.
Defined.

(** ** Concurrency controller *)

Section ControllerFacts.

Context {R S : Type}.
Variable record : R -> S -> S.

Lemma count_tasks_cons (p : Controller.task R -> bool)
    (t : Controller.task R) (l : list (Controller.task R)) :
  count_tasks p (t :: l) = ((if p t then 1 else 0) + count_tasks p l)%Z.
Proof.
  unfold count_tasks, Py.len; simpl filter.
  destruct (p t); simpl List.length; lia.
Qed.

Lemma count_tasks_bounds (p : Controller.task R -> bool)
    (l : list (Controller.task R)) :
  (0 <= count_tasks p l <= Py.len l)%Z.
Proof.
  unfold count_tasks, Py.len. pose proof (filter_length_le p l). lia.
Qed.

Lemma set_nth_length (i : nat) (x : Controller.task R)
    (l : list (Controller.task R)) :
  List.length (Controller.set_nth i x l) = List.length l.
Proof.
  revert i; induction l as [| y l IH]; intros [| i]; simpl; auto.
Qed.

Lemma count_tasks_set_nth (p : Controller.task R -> bool)
    (l : list (Controller.task R)) (i : nat) (old new : Controller.task R) :
  nth_error l i = Some old ->
  count_tasks p (Controller.set_nth i new l)
  = (count_tasks p l - (if p old then 1 else 0) + (if p new then 1 else 0))%Z.
Proof.
  revert i; induction l as [| y l IH]; intros [| i] H; simpl in H;
    try discriminate.
  - injection H as ->. simpl. rewrite !count_tasks_cons. lia.
  - simpl. rewrite !count_tasks_cons, (IH i H). lia.
Qed.


(** Slots in use and free slots add up to the bound, and no slot count is
    negative. *)
Lemma semaphore_invariant (C : Z) (n : nat) (s0 : S)
    (st : Controller.state R S) :
  (0 <= C)%Z ->
  Controller.reachable record (Controller.init C n s0) st ->
  (0 <= Controller.sem_value st)%Z /\
  (Controller.sem_value st + Controller.in_flight st = C)%Z /\
  List.length (Controller.tasks st) = n.
Proof.
  intros HC Hreach.
  induction Hreach as [| st st' _ (Hsem & Hsum & Hlen) Hstep].
  - unfold Controller.in_flight, Controller.init; simpl.
    split; [exact HC |]. split; [| apply repeat_length].
    replace (filter Controller.is_in_flight (repeat Controller.Pending n))
      with (@nil (Controller.task R)); [unfold Py.len; simpl; lia |].
    induction n as [| n IHn]; simpl; [reflexivity | exact IHn].
  - unfold Controller.in_flight in *.
    destruct Hstep as [st i Hi Hpos | st i r Hi]; simpl.
    + fold (count_tasks Controller.is_in_flight
                        (Controller.set_nth i Controller.InFlight
                                            (Controller.tasks st))).
      rewrite (count_tasks_set_nth _ _ _ _ _ Hi), set_nth_length.
      unfold count_tasks; simpl. lia.
    + fold (count_tasks Controller.is_in_flight
                        (Controller.set_nth i (Controller.Finished r)
                                            (Controller.tasks st))).
      rewrite (count_tasks_set_nth _ _ _ _ _ Hi), set_nth_length.
      unfold count_tasks; simpl. lia.
Qed.

(** C7: from the moment the gathered coroutines start, in every state any
    interleaving can reach, the number of requests in flight is at most
    the bound [C] the semaphore was created with. *)
Theorem in_flight_never_exceeds_bound (C : Z) (n : nat) (s0 : S)
    (st : Controller.state R S) :
  (0 <= C)%Z ->
  Controller.reachable record (Controller.init C n s0) st ->
  (Controller.in_flight st <= C)%Z.
Proof.
  intros HC Hreach.
  destruct (semaphore_invariant C n s0 st HC Hreach) as (Hsem & Hsum & _).
  lia.
Qed.

Lemma set_nth_middle (done : list (Controller.task R))
    (old new : Controller.task R) (rest : list (Controller.task R)) :
  Controller.set_nth (List.length done) new (done ++ old :: rest)
  = done ++ new :: rest.
Proof. induction done as [| t done IH]; simpl; [| rewrite IH]; reflexivity. Qed.

Lemma nth_error_middle (done : list (Controller.task R))
    (t : Controller.task R) (rest : list (Controller.task R)) :
  nth_error (done ++ t :: rest) (List.length done) = Some t.
Proof. induction done as [| t' done IH]; simpl; [reflexivity | exact IH]. Qed.

(** Serving the coroutines one after the other is one of the
    interleavings: it reaches a state in which the first requests are
    finished, the others not yet admitted, and every slot is free. *)
Lemma in_order_reachable (C : Z) (s0 : S) (served : list R) (waiting : nat) :
  (0 < C)%Z ->
  Controller.reachable record
    (Controller.init C (List.length served + waiting) s0)
    {| Controller.sem_value := C;
       Controller.tasks :=
         map Controller.Finished served ++ repeat Controller.Pending waiting;
       Controller.acc := Controller.run_in_order record served s0 |}.
Proof.
  intros HC. revert waiting.
  induction served as [| r served IH] using rev_ind; intros waiting.
  - apply Controller.reach_init.
  - rewrite length_app; simpl List.length.
    replace (List.length served + 1 + waiting)%nat
      with (List.length served + Datatypes.S waiting)%nat by lia.
    specialize (IH (Datatypes.S waiting)). simpl repeat in IH.
    set (fin := map Controller.Finished served) in *.
    assert (Hfin : List.length fin = List.length served)
      by (unfold fin; apply length_map).
    set (pending := repeat Controller.Pending waiting) in *.
    set (s1 := Controller.run_in_order record served s0) in *.
    set (st0 := {| Controller.sem_value := C;
                   Controller.tasks := fin ++ Controller.Pending :: pending;
                   Controller.acc := s1 |}) in *.
    set (st1 := {| Controller.sem_value := (C - 1)%Z;
                   Controller.tasks := fin ++ Controller.InFlight :: pending;
                   Controller.acc := s1 |}).
    set (st2 := {| Controller.sem_value := C;
                   Controller.tasks := fin ++ Controller.Finished r :: pending;
                   Controller.acc := record r s1 |}).
    assert (H1 : Controller.step record st0 st1).
    { pose proof (Controller.step_acquire record st0 (List.length fin)) as H.
      simpl in H. rewrite set_nth_middle in H.
      apply H; [apply nth_error_middle | exact HC]. }
    assert (H2 : Controller.step record st1 st2).
    { pose proof (Controller.step_release record st1 (List.length fin) r) as H.
      simpl in H. rewrite set_nth_middle in H.
      replace (C - 1 + 1)%Z with C in H by lia.
      apply H. apply nth_error_middle. }
    unfold Controller.run_in_order. rewrite fold_left_app, map_app.
    rewrite <- app_assoc.
    exact (Controller.reach_step record _ _ _
             (Controller.reach_step record _ _ _ IH H1) H2).
Qed.

End ControllerFacts.

(** ** Request accounting *)

(** A loop whose every turn returns and adds [w x] to a measure [f] of the
    loop state returns, and adds the sum of the [w x]. *)
Lemma for_measure {A S : Type} (f : S -> Z) (w : A -> Z)
    (body : S -> A -> Py.res S) (l : list A) :
  (forall s x, In x l ->
     exists s', body s x = Py.Ret s' /\ f s' = (f s + w x)%Z) ->
  forall s, exists s',
    Py.for_ l body s = Py.Ret s' /\ f s' = (f s + zsum (map w l))%Z.
Proof.
  induction l as [| x l IH]; intros Hbody s; simpl.
  - exists s. split; [reflexivity | lia].
  - destruct (Hbody s x (or_introl eq_refl)) as (s1 & E1 & H1).
    rewrite E1; cbn [Py.bind].
    destruct (IH (fun s y Hy => Hbody s y (or_intror Hy)) s1)
      as (s2 & E2 & H2).
    exists s2. split; [exact E2 | lia].
Qed.

Lemma fold_left_measure {A S : Type} (f : S -> Z) (w : A -> Z)
    (step : S -> A -> S) (l : list A) :
  (forall s x, In x l -> f (step s x) = (f s + w x)%Z) ->
  forall s, f (fold_left step l s) = (f s + zsum (map w l))%Z.
Proof.
  induction l as [| x l IH]; intros Hstep s; simpl.
  - lia.
  - rewrite IH by (intros; apply Hstep; right; assumption).
    rewrite Hstep by (left; reflexivity). lia.
Qed.

Lemma zsum_ones {A : Type} (l : list A) :
  zsum (map (fun _ => 1%Z) l) = Py.len l.
Proof.
  unfold Py.len. induction l as [| x l IH]; [reflexivity |].
  simpl List.length. rewrite Nat2Z.inj_succ, <- IH.
  change (zsum (map (fun _ => 1%Z) (x :: l)))
    with (1 + zsum (map (fun _ : A => 1%Z) l))%Z.
  lia.
Qed.

Lemma range2_length (a b : Z) :
  Py.len (Py.range2 a b) = Z.max 0 (b - a).
Proof. unfold Py.len, Py.range2. rewrite length_map, length_seq. lia. Qed.

(** The starts of the slices [range(0, n, size)] cuts, and what the slices
    [min(size, n - i)] add up to. *)
Lemma slices_cover (n size : Z) :
  (0 <= n)%Z -> (0 < size)%Z ->
  exists starts : list Z,
    Py.range3 0 n size = Py.Ret starts /\
    (forall i, In i starts -> (0 < Z.min size (n - i))%Z) /\
    zsum (map (fun i => Z.min size (n - i)) starts) = n.
Proof.
  intros Hn Hs.
  set (m := Z.to_nat (Py.range_len 0 n size)).
  exists (map (fun k => (0 + Z.of_nat k * size)%Z) (seq 0 m)).
  assert (Hm : (n <= Z.of_nat m * size < n + size)%Z).
  { unfold m, Py.range_len.
    replace (0 <? size)%Z with true by (symmetry; apply Z.ltb_lt; exact Hs).
    destruct (0 <? n)%Z eqn:E.
    - apply Z.ltb_lt in E.
      replace ((n - 0 - 1) / size + 1)%Z with ((n + size - 1) / size)%Z.
      + pose proof (ceil_bounds size n Hs) as Hc.
        rewrite Z2Nat.id by nia. exact Hc.
      + replace (n + size - 1)%Z with (n - 0 - 1 + 1 * size)%Z by lia.
        apply Z.div_add. lia.
    - apply Z.ltb_ge in E. simpl. lia. }
  split; [| split].
  - unfold Py.range3.
    replace (size =? 0)%Z with false by (symmetry; apply Z.eqb_neq; lia).
    reflexivity.
  - intros i Hi. apply in_map_iff in Hi. destruct Hi as (k & <- & Hk).
    apply in_seq in Hk. nia.
  - rewrite map_map.
    rewrite (map_ext _ (fun k => Z.min size (n - Z.of_nat k * size)))
      by (intros k; f_equal; lia).
    fold (plan_of size n m).
    rewrite plan_of_sum by (try assumption; nia). lia.
Qed.

Lemma counted_once_sum (s f s' f' : Z) :
  counted_once s f s' f' -> (s' + f' = s + f + 1)%Z.
Proof. unfold counted_once. lia. Qed.

(** *** optimized variant: any interleaving *)

Lemma process_request_ordinary (a : Net.attempt) :
  Net.ordinary a = true ->
  exists latency success,
    Optimized.process_request a = Py.Ret (latency, success).
Proof.
  unfold Net.ordinary, Optimized.process_request.
  destruct (Net.result a) as [status | e]; intros H.
  - eexists; eexists; reflexivity.
  - rewrite H. destruct (Py.is_TimeoutError e); eexists; eexists; reflexivity.
Qed.


Lemma process_with_stats_counts (a : Net.attempt) (st : Optimized.stats) :
  Net.ordinary a = true ->
  counted_once (Optimized.successes st) (Optimized.failures st)
    (Optimized.successes (Optimized.process_with_stats a st))
    (Optimized.failures (Optimized.process_with_stats a st)).
Proof.
  intros H. unfold Optimized.process_with_stats.
  destruct (process_request_ordinary a H) as (latency & success & E).
  rewrite E. destruct success; simpl; [left | right]; split; reflexivity.
Qed.



(** *** enhanced variant *)

Lemma enhanced_count_result (t : Enhanced.tally) (r : Py.res (Q * bool)) :
  match r with Py.Raise e => Py.is_Exception e = true | Py.Ret _ => True end ->
  exists t',
    Enhanced.count_result t r = Py.Ret t' /\
    counted_once (Enhanced.successes t) (Enhanced.failures t)
                 (Enhanced.successes t') (Enhanced.failures t').
Proof.
  destruct r as [[latency success] | e]; simpl; intros H.
  - eexists; split; [reflexivity |].
    destruct success; simpl; [left | right]; split; reflexivity.
  - rewrite H. eexists; split; [reflexivity |]. right; split; reflexivity.
Qed.

Lemma enhanced_make_request_ordinary (a : Net.attempt) :
  Net.ordinary a = true ->
  exists p, Enhanced.make_request a = Py.Ret p.
Proof.
  unfold Net.ordinary, Enhanced.make_request.
  destruct (Net.result a) as [status | e]; intros H.
  - eexists; reflexivity.
  - rewrite H. eexists; reflexivity.
Qed.

Lemma enhanced_run_slice (net : Z -> Net.attempt) (batch_timeout : Z -> bool)
    (n c : Z) (t : Enhanced.tally) (i : Z) :
  (forall j, Net.ordinary (net j) = true) ->
  (0 < Z.min c (n - i))%Z ->
  exists t',
    Enhanced.run_slice net batch_timeout n c t i = Py.Ret t' /\
    enhanced_counted t' = (enhanced_counted t + Z.min c (n - i))%Z.
Proof.
  intros Hord Hpos. unfold Enhanced.run_slice.
  set (size := Z.min c (n - i)) in *.
  set (results := if batch_timeout i then _ else _).
  assert (Hres : forall r, In r results -> exists p, r = Py.Ret p).
  { intros r Hr. unfold results in Hr. destruct (batch_timeout i).
    - unfold Py.replicate in Hr. apply repeat_spec in Hr.
      eexists; exact Hr.
    - apply in_map_iff in Hr. destruct Hr as (j & <- & _).
      apply enhanced_make_request_ordinary, Hord. }
  assert (Hlen : Py.len results = size).
  { unfold results. destruct (batch_timeout i).
    - unfold Py.len, Py.replicate. rewrite repeat_length. lia.
    - unfold Py.len at 1. rewrite length_map. fold (Py.len (Py.range2 0 size)).
      rewrite range2_length. lia. }
  destruct (for_measure enhanced_counted (fun _ => 1%Z)
              Enhanced.count_result results) with (s := t)
    as (t' & E & Ht').
  - intros s r Hr. destruct (Hres r Hr) as (p & ->).
    destruct (enhanced_count_result s (Py.Ret p) I) as (s' & Es & Hs).
    exists s'. split; [exact Es |].
    unfold enhanced_counted. apply counted_once_sum in Hs. lia.
  - exists t'. split; [exact E |]. rewrite Ht', zsum_ones, Hlen. reflexivity.
Qed.

Lemma enhanced_accounting (net : Z -> Net.attempt) (batch_timeout : Z -> bool)
    (n c : Z) :
  (0 <= n)%Z -> (0 < c)%Z ->
  (forall j, Net.ordinary (net j) = true) ->
  exists t,
    Enhanced.run_requests net batch_timeout n c = Py.Ret t /\
    (Enhanced.successes t + Enhanced.failures t = n)%Z.
Proof.
  intros Hn Hc Hord. unfold Enhanced.run_requests.
  destruct (slices_cover n c Hn Hc) as (starts & E & Hpos & Hsum).
  rewrite E; cbn [Py.bind].
  destruct (for_measure enhanced_counted (fun i => Z.min c (n - i))
              (Enhanced.run_slice net batch_timeout n c) starts)
    with (s := Enhanced.tally0) as (t & Et & Ht).
  - intros s i Hi. apply enhanced_run_slice; [exact Hord | apply Hpos, Hi].
  - exists t. split; [exact Et |].
    unfold enhanced_counted in Ht. rewrite Hsum in Ht. simpl in Ht. lia.
Qed.

(** *** fixed variant *)

Lemma fixed_count_result (t : Fixed.tally) (r : Py.res (Q * bool)) :
  counted_once (Fixed.successes t) (Fixed.failures t)
    (Fixed.successes (Fixed.count_result t r))
    (Fixed.failures (Fixed.count_result t r)).
Proof.
  destruct r as [[latency success] | e]; simpl.
  - destruct success; simpl; [left | right]; split; reflexivity.
  - right; split; reflexivity.
Qed.

Lemma gather_returns {R : Type} (c : Z) (rs : list R) :
  (0 < c)%Z -> Controller.gather c rs = Py.Ret rs.
Proof.
  intros Hc. unfold Controller.gather. destruct rs; [reflexivity |].
  replace (c =? 0)%Z with false by (symmetry; apply Z.eqb_neq; lia).
  reflexivity.
Qed.

Lemma fixed_run_chunk (net : Z -> Net.attempt) (n c size : Z)
    (t : Fixed.tally) (i : Z) :
  (0 < c)%Z -> (0 < Z.min size (n - i))%Z ->
  exists t',
    Fixed.run_chunk net n c size t i = Py.Ret t' /\
    fixed_counted t' = (fixed_counted t + Z.min size (n - i))%Z.
Proof.
  intros Hc Hpos. unfold Fixed.run_chunk.
  rewrite gather_returns by exact Hc. cbn [Py.bind].
  eexists; split; [reflexivity |].
  rewrite (fold_left_measure fixed_counted (fun _ => 1%Z)).
  - rewrite zsum_ones. unfold Py.len at 1. rewrite length_map.
    fold (Py.len (Py.range2 0 (Z.min size (n - i)))).
    rewrite range2_length. lia.
  - intros s r _. unfold fixed_counted.
    pose proof (counted_once_sum _ _ _ _ (fixed_count_result s r)). lia.
Qed.

Lemma fixed_accounting (net : Z -> Net.attempt) (n c : Z) :
  (0 < n)%Z -> (0 < c)%Z ->
  exists t,
    Fixed.run_requests net n c = Py.Ret t /\
    (Fixed.successes t + Fixed.failures t = n)%Z.
Proof.
  intros Hn Hc. unfold Fixed.run_requests, Py.Semaphore.
  replace (c <? 0)%Z with false by (symmetry; apply Z.ltb_ge; lia).
  cbn [Py.bind].
  destruct (slices_cover n (Z.min 500 n) ltac:(lia) ltac:(lia))
    as (starts & E & Hpos & Hsum).
  rewrite E; cbn [Py.bind].
  destruct (for_measure fixed_counted (fun i => Z.min (Z.min 500 n) (n - i))
              (Fixed.run_chunk net n c (Z.min 500 n)) starts)
    with (s := Fixed.tally0) as (t & Et & Ht).
  - intros s i Hi. apply fixed_run_chunk; [exact Hc | apply Hpos, Hi].
  - exists t. split; [exact Et |].
    unfold fixed_counted in Ht. rewrite Hsum in Ht. simpl in Ht. lia.
Qed.




Lemma in_flight_never_exceeds_bound_witness :
  (Controller.in_flight one_admitted <= 2)%Z.
Proof.
  apply (in_flight_never_exceeds_bound Optimized.process_with_stats
           2 3 Optimized.stats0 one_admitted).
  - discriminate.
  - apply Controller.reach_step with (Controller.init 2 3 Optimized.stats0).
    + apply Controller.reach_init.
    + exact (Controller.step_acquire Optimized.process_with_stats
               (Controller.init 2 3 Optimized.stats0) 0 eq_refl eq_refl).
Defined.

(** ** Rates *)

Lemma truediv_pos (a b : Q) : 0 < b -> Py.truediv a b = Py.Ret (a / b).
Proof.
  intros Hb. unfold Py.truediv.
  destruct (Qeq_bool b 0) eqn:E; [| reflexivity].
  apply Qeq_bool_iff in E. rewrite E in Hb. discriminate.
Qed.

Lemma truediv_inject_pos (a : Q) (n : Z) :
  (0 < n)%Z -> Py.truediv a (inject_Z n) = Py.Ret (a / inject_Z n).
Proof.
  intros Hn. apply truediv_pos. unfold Qlt; simpl. lia.
Qed.

Lemma guarded_rate_returns (num den : Q) :
  exists x,
    guarded_rate num den = Py.Ret x /\
    (0 < den -> x = num / den) /\
    (den <= 0 -> x = 0).
Proof.
  unfold guarded_rate. destruct (Qlt_le_dec 0 den) as [H | H].
  - rewrite truediv_pos by exact H. eexists; split; [reflexivity |].
    split; [reflexivity |]. intros H'. exfalso. lra.
  - eexists; split; [reflexivity |].
    split; [| reflexivity]. intros H'. exfalso. lra.
Qed.

Lemma min_nonempty (l : list Q) : l <> [] -> exists x, Py.min l = Py.Ret x.
Proof. destruct l; [congruence | intros _; eexists; reflexivity]. Qed.

Lemma get_percentile_returns (data : list Q) (p : Q) :
  0 <= p -> p <= 100 -> exists x, get_percentile data p = Py.Ret x.
Proof.
  intros Hp Hp1. destruct data as [| y data].
  - eexists; reflexivity.
  - eexists. apply get_percentile_nonempty; [discriminate | exact Hp | exact Hp1].
Qed.

Lemma round_99 :
  0 <= Double.round (99 # 100) /\ Double.round (99 # 100) <= 99 # 100.
Proof. split; vm_compute; discriminate. Qed.

Lemma of_Q_99 : Double.of_Q (99 # 100) = Double.Finite (Double.round (99 # 100)).
Proof. vm_compute. reflexivity. Qed.

(** The product of a length and 0.99 stays below the length: a float
    lies between them. *)
Lemma p99_product_below (n : Z) :
  (0 < n <= Py.maxsize)%Z ->
  exists m e : Z,
    (0 <= m < 2 ^ 53)%Z /\ (-1074 <= e <= 11)%Z /\
    Double.round (inject_Z n) * Double.round (99 # 100)
      <= inject_Z m * 2 ^ e /\
    inject_Z m * 2 ^ e < inject_Z n.
Proof.
  intros Hn. destruct round_99 as [Hc0 Hc1].
  set (c := Double.round (99 # 100)) in *.
  assert (Hn0 : 0 < inject_Z n).
  { change 0 with (inject_Z 0). rewrite <- Zlt_Qlt. lia. }
  destruct (Z_lt_le_dec n (2 ^ 46)) as [Hsmall | Hlarge].
  - exists (128 * n - 1)%Z, (-7)%Z.
    assert (E : inject_Z (128 * n - 1) * 2 ^ (-7) == inject_Z n - (1 # 128)).
    { unfold Zminus. rewrite inject_Z_plus, inject_Z_mult.
      change (2 ^ (-7)) with (1 # 128). simpl. field. }
    split; [lia |]. split; [lia |]. rewrite E. split.
    + rewrite (round_Z n) by lia.
      assert (H1 : 1 <= inject_Z n).
      { change 1 with (inject_Z 1). rewrite <- Zle_Qle. lia. }
      apply Qle_trans with (inject_Z n * (99 # 100)).
      * rewrite !(Qmult_comm (inject_Z n)).
        apply Qmult_le_compat_r; [exact Hc1 | lra].
      * lra.
    + lra.
  - set (k := (n / 2048)%Z).
    assert (Hk : (2048 * k <= n < 2048 * k + 2048)%Z).
    { pose proof (Z.div_mod n 2048 ltac:(lia)).
      pose proof (Z.mod_pos_bound n 2048 ltac:(lia)). unfold k. lia. }
    assert (Hk0 : (2 ^ 35 <= k < 2 ^ 52)%Z).
    { unfold Py.maxsize in Hn. unfold k. split.
      - apply Z.div_le_lower_bound; lia.
      - apply Z.div_lt_upper_bound; lia. }
    exists (k - 1)%Z, 11%Z.
    assert (Eup : inject_Z (k + 1) * 2 ^ 11 == 2048 * inject_Z k + 2048).
    { rewrite inject_Z_plus. change (2 ^ 11) with 2048. simpl. ring. }
    assert (Ed : inject_Z (k - 1) * 2 ^ 11 == 2048 * inject_Z k - 2048).
    { unfold Zminus. rewrite inject_Z_plus. change (2 ^ 11) with 2048.
      simpl. ring. }
    assert (Ha : Double.round (inject_Z n) <= inject_Z (k + 1) * 2 ^ 11).
    { apply round_upper; [lra | lia | lia |].
      rewrite Eup. change 2048 with (inject_Z 2048).
      rewrite <- inject_Z_mult, <- inject_Z_plus. rewrite <- Zle_Qle. lia. }
    assert (Hkq : 34359738368 <= inject_Z k).
    { change 34359738368 with (inject_Z (2 ^ 35)). rewrite <- Zle_Qle. lia. }
    assert (Hnq : 2048 * inject_Z k <= inject_Z n).
    { change 2048 with (inject_Z 2048). rewrite <- inject_Z_mult.
      rewrite <- Zle_Qle. lia. }
    split; [lia |]. split; [lia |]. rewrite Ed. split.
    + rewrite Eup in Ha.
      apply Qle_trans with ((2048 * inject_Z k + 2048) * (99 # 100)).
      * apply Qle_trans with ((2048 * inject_Z k + 2048) * c).
        -- apply Qmult_le_compat_r; [exact Ha | exact Hc0].
        -- rewrite !(Qmult_comm (2048 * inject_Z k + 2048)).
           apply Qmult_le_compat_r; [exact Hc1 | lra].
      * lra.
    + lra.
Qed.

(** [int(len(l) * 0.99)] is a valid index of a non-empty [l]. *)
Lemma p99_index_in_range (n : Z) :
  (0 < n)%Z -> exists i : Z, p99_index n = Py.Ret i /\ (0 <= i < n)%Z.
Proof.
  intros Hn. unfold p99_index.
  rewrite of_int_len by lia. cbn [Py.bind].
  rewrite of_Q_99. cbn [Double.mul].
  set (nc := Z.min n Py.maxsize).
  assert (Hnc : (0 < nc <= Py.maxsize)%Z) by (unfold nc, Py.maxsize; lia).
  destruct (p99_product_below nc Hnc) as (m & e & Hm & He & Hle & Hlt).
  destruct round_99 as [Hc0 _].
  assert (Hprod : 0 <= Double.round (inject_Z nc) * Double.round (99 # 100)).
  { apply Qmult_le_0_compat; [| exact Hc0].
    apply round_nonneg, inject_Z_nonneg. lia. }
  pose proof (round_upper _ m e Hprod Hm ltac:(lia) Hle) as Hup.
  rewrite of_Q_finite; [| exact Hprod |].
  - cbn [Double.int]. eexists. split; [reflexivity |].
    pose proof (round_nonneg _ Hprod) as Hy.
    rewrite int_is_floor by exact Hy. split.
    + rewrite <- (Qfloor_Z 0). apply Qfloor_resp_le. exact Hy.
    + assert (H : (Qfloor (Double.round
                             (Double.round (inject_Z nc)
                              * Double.round (99 # 100))) < nc)%Z).
      { rewrite Zlt_Qlt. eapply Qle_lt_trans; [apply Qfloor_le |].
        eapply Qle_lt_trans; [exact Hup | exact Hlt]. }
      unfold nc in *. lia.
  - eapply Qle_lt_trans; [exact Hup |].
    apply Qlt_trans with (inject_Z nc); [exact Hlt |].
    apply Qlt_le_trans with (2 ^ 63); [| apply pow2_le; lia].
    rewrite pow2_Z by lia. rewrite <- Zlt_Qlt. unfold Py.maxsize in Hnc. lia.
Qed.

Lemma insert_permutation (x : Q) (l : list Q) :
  Permutation (x :: l) (Py.insert x l).
Proof.
  induction l as [| y l IH]; simpl; [apply Permutation_refl |].
  destruct (Qlt_le_dec x y); [apply Permutation_refl |].
  apply perm_trans with (y :: x :: l); [apply perm_swap |].
  apply perm_skip. exact IH.
Qed.

Lemma sorted_permutation (l : list Q) : Permutation l (Py.sorted l).
Proof.
  unfold Py.sorted.
  assert (H : forall acc, Permutation (acc ++ l)
                (fold_left (fun acc x => Py.insert x acc) l acc)).
  { induction l as [| x l IH]; intros acc; simpl.
    - rewrite app_nil_r. apply Permutation_refl.
    - apply perm_trans with (Py.insert x acc ++ l); [| apply IH].
      apply perm_trans with ((x :: acc) ++ l).
      + apply Permutation_sym, Permutation_middle.
      + apply Permutation_app_tail, insert_permutation. }
  apply (H []).
Qed.

Lemma insert_sorted (x : Q) (l : list Q) :
  Sorted Qle l -> Sorted Qle (Py.insert x l).
Proof.
  induction 1 as [| y l Hs IH Hhd]; simpl.
  - repeat constructor.
  - destruct (Qlt_le_dec x y) as [Hlt | Hle].
    + constructor; [constructor; assumption |].
      constructor. apply Qlt_le_weak. exact Hlt.
    + constructor; [exact IH |].
      destruct l as [| z l]; simpl.
      * constructor. exact Hle.
      * destruct (Qlt_le_dec x z); constructor;
          [exact Hle | inversion Hhd; assumption].
Qed.

(** What the callers hand to [get_percentile] is in ascending order. *)
Lemma sorted_is_sorted (l : list Q) : Sorted Qle (Py.sorted l).
Proof.
  unfold Py.sorted.
  assert (H : forall acc, Sorted Qle acc ->
                Sorted Qle (fold_left (fun acc x => Py.insert x acc) l acc)).
  { induction l as [| x l IH]; intros acc Hacc; simpl; [exact Hacc |].
    apply IH, insert_sorted, Hacc. }
  apply H. constructor.
Qed.

Lemma sorted_length (l : list Q) : Py.len (Py.sorted l) = Py.len l.
Proof.
  unfold Py.len. f_equal. symmetry.
  apply Permutation_length, sorted_permutation.
Qed.

Lemma sorted_nonempty (l : list Q) : l <> [] -> Py.sorted l <> [].
Proof.
  intros Hl E. pose proof (sorted_length l) as H. rewrite E in H.
  destruct l; [congruence | unfold Py.len in H; simpl in H; lia].
Qed.

(** The 99th percentile of a non-empty list is its element at an index
    in range. *)
Lemma fixed_p99_of_nonempty (l : list Q) :
  l <> [] ->
  exists i : Z, (0 <= i < Py.len l)%Z /\ Fixed.p99_of l = Py.getitem l i.
Proof.
  intros Hne. unfold Fixed.p99_of. destruct l as [| y l]; [congruence |].
  destruct (p99_index_in_range (Py.len (y :: l))) as (i & Ei & Hi).
  - unfold Py.len; simpl List.length; lia.
  - exists i. split; [exact Hi |]. rewrite Ei. reflexivity.
Qed.

Lemma fixed_p99_returns (l : list Q) : exists x, Fixed.p99_of l = Py.Ret x.
Proof.
  destruct l as [| y l]; [eexists; reflexivity |].
  destruct (fixed_p99_of_nonempty (y :: l)) as (i & Hi & ->); [discriminate |].
  eexists. apply getitem_in_range with (d := 0). exact Hi.
Qed.

Lemma investigate_p99_returns (l : list Q) :
  exists x, Investigate.p99_of l = Py.Ret x.
Proof.
  unfold Investigate.p99_of. destruct l as [| y l]; [eexists; reflexivity |].
  destruct (p99_index_in_range (Py.len (y :: l))) as (i & -> & Hi).
  - unfold Py.len; simpl List.length; lia.
  - cbn [Py.bind]. eexists. apply getitem_in_range with (d := 0).
    rewrite sorted_length. exact Hi.
Qed.

Lemma average_returns (l : list Q) :
  exists x,
    match l with
    | [] => Py.Ret 0
    | _ :: _ => Py.truediv (Py.sum l) (inject_Z (Py.len l))
    end = Py.Ret x.
Proof.
  destruct l as [| y l]; [eexists; reflexivity |].
  eexists. apply truediv_len. discriminate.
Qed.

Lemma guarded_success_rate_returns (s n : Z) :
  exists x,
    guarded_success_rate s n = Py.Ret x /\
    ((0 < n)%Z -> x = inject_Z s / inject_Z n * 100) /\
    ((n <= 0)%Z -> x = 0).
Proof.
  unfold guarded_success_rate. destruct (0 <? n)%Z eqn:E.
  - apply Z.ltb_lt in E. rewrite truediv_inject_pos by exact E.
    eexists; split; [reflexivity |]. split; [reflexivity | lia].
  - apply Z.ltb_ge in E.
    eexists; split; [reflexivity |]. split; [lia | reflexivity].
Qed.

(** The summary of a run is always built, with the guarded rates of the
    request count. *)
Lemma report_build_returns (n : Z) (T : Q) (lats : list Q) (s f : Z)
    (cpu : CPUMonitor.summary) :
  exists r,
    Report.build n T lats s f cpu = Py.Ret r /\
    guarded_rate (inject_Z n) T = Py.Ret (Report.throughput (Report.perf r)) /\
    guarded_success_rate s n = Py.Ret (Report.success_rate (Report.perf r)) /\
    Report.total_time (Report.perf r) = T /\
    Report.total_requests (Report.perf r) = n /\
    Report.successful (Report.perf r) = s /\
    Report.failed (Report.perf r) = f.
Proof.
  unfold Report.build.
  fold (guarded_rate (inject_Z n) T). fold (guarded_success_rate s n).
  destruct (guarded_rate_returns (inject_Z n) T) as (th & -> & _).
  destruct (guarded_success_rate_returns s n) as (sr & -> & _).
  cbn [Py.bind].
  assert (Hmin : exists x,
             match lats with [] => Py.Ret 0 | _ :: _ => Py.min lats end
             = Py.Ret x).
  { destruct lats; [eexists; reflexivity | apply min_nonempty; discriminate]. }
  assert (Hmax : exists x,
             match lats with [] => Py.Ret 0 | _ :: _ => Py.max lats end
             = Py.Ret x).
  { destruct lats; [eexists; reflexivity |].
    destruct (max_nonempty (q :: lats)) as (x & E & _); [discriminate |].
    exists x; exact E. }
  destruct Hmin as (mn & ->). destruct (average_returns lats) as (av & ->).
  destruct (get_percentile_returns lats 50) as (x50 & ->); [discriminate | discriminate |].
  destruct (get_percentile_returns lats 95) as (x95 & ->); [discriminate | discriminate |].
  destruct (get_percentile_returns lats 99) as (x99 & ->); [discriminate | discriminate |].
  destruct Hmax as (mx & ->). cbn [Py.bind].
  eexists; split; [reflexivity |]. simpl. repeat split; reflexivity.
Qed.

Lemma monitor_run_returns (v : CPUMonitor.variant)
    (rs : list CPUMonitor.reading) :
  exists s, CPUMonitor.run v rs = Py.Ret s.
Proof.
  destruct (stop_summarises
              (CPUMonitor.monitor_loop v (CPUMonitor.start CPUMonitor.init) rs))
    as (s & E & _).
  - apply monitor_loop_lengths. reflexivity.
  - exists s. exact E.
Qed.

(** The task-creation loop of the optimized variant hands every request to
    one of the workers. *)
Lemma optimized_tasks_are_requests (net : Z -> Net.attempt) (C : Z)
    (l : list Z) (acc : list Net.attempt) :
  (0 < C)%Z ->
  Py.for_ l
    (fun tasks i =>
       k <- Py.mod_ i (Z.min C 100) ;;
       _ <- Py.getitem (Py.range2 0 (Z.min C 100)) k ;;
       Py.Ret (tasks ++ [net i]))
    acc = Py.Ret (acc ++ map net l).
Proof.
  intros HC. revert acc. induction l as [| i l IH]; intros acc; simpl.
  - rewrite app_nil_r. reflexivity.
  - unfold Py.mod_ at 1.
    replace (Z.min C 100 =? 0)%Z with false
      by (symmetry; apply Z.eqb_neq; lia).
    cbn [Py.bind].
    rewrite (getitem_in_range _ _ 0%Z).
    + cbn [Py.bind]. rewrite IH, <- app_assoc. reflexivity.
    + rewrite range2_length.
      pose proof (Z.mod_pos_bound i (Z.min C 100) ltac:(lia)). lia.
Qed.

Lemma optimized_run_returns (net : Z -> Net.attempt)
    (readings : list CPUMonitor.reading) (T : Q) (N C : Z) :
  (0 < C)%Z ->
  exists r,
    Optimized.run_benchmark_test net readings T N C = Py.Ret r /\
    guarded_rate (inject_Z N) T = Py.Ret (Report.throughput (Report.perf r)) /\
    guarded_success_rate (Report.successful (Report.perf r)) N
      = Py.Ret (Report.success_rate (Report.perf r)) /\
    Report.total_time (Report.perf r) = T /\
    Report.total_requests (Report.perf r) = N.
Proof.
  intros HC. unfold Optimized.run_benchmark_test, Py.Semaphore.
  replace (C <? 0)%Z with false by (symmetry; apply Z.ltb_ge; lia).
  cbn [Py.bind].
  rewrite optimized_tasks_are_requests by exact HC.
  cbn [Py.bind]. rewrite gather_returns by exact HC. cbn [Py.bind].
  destruct (monitor_run_returns CPUMonitor.Optimized readings) as (cpu & ->).
  cbn [Py.bind].
  match goal with
  | |- exists r, Report.build ?n ?t ?l ?s ?f ?c = _ /\ _ =>
      destruct (report_build_returns n t l s f c)
        as (r & E & Hth & Hsr & HT & Hn & Hs & _)
  end.
  exists r. rewrite Hs. repeat split; assumption.
Qed.

Lemma fixed_run_batch_returns (net : Z -> Net.attempt) (T : Q) (b N C : Z) :
  (0 < N)%Z -> (0 < C)%Z ->
  exists r,
    Fixed.run_batch net T b N C = Py.Ret r /\
    guarded_rate (inject_Z (Fixed.successful r)) T
      = Py.Ret (Fixed.throughput r) /\
    guarded_success_rate (Fixed.successful r) N
      = Py.Ret (Fixed.success_rate r) /\
    Fixed.duration r = T /\
    Fixed.total_requests r = N /\
    (Fixed.successful r + Fixed.failed r = N)%Z.
Proof.
  intros HN HC. unfold Fixed.run_batch.
  destruct (fixed_accounting net N C HN HC) as (t & -> & Hsum).
  cbn [Py.bind].
  fold (guarded_rate (inject_Z (Fixed.successes t)) T).
  fold (guarded_success_rate (Fixed.successes t) N).
  destruct (guarded_rate_returns (inject_Z (Fixed.successes t)) T)
    as (th & Eth & _).
  rewrite Eth. cbn [Py.bind].
  destruct (average_returns (Py.sorted (Fixed.latencies t))) as (av & ->).
  cbn [Py.bind].
  destruct (fixed_p99_returns (Py.sorted (Fixed.latencies t))) as (p & ->).
  cbn [Py.bind].
  destruct (guarded_success_rate_returns (Fixed.successes t) N)
    as (sr & Esr & _).
  rewrite Esr. cbn [Py.bind].
  eexists; split; [reflexivity |]. simpl.
  repeat split; assumption.
Qed.

Lemma investigate_make_request_ordinary (a : Net.attempt) :
  Net.ordinary a = true ->
  exists p, Investigate.make_request a = Py.Ret p.
Proof.
  unfold Net.ordinary, Investigate.make_request.
  destruct (Net.result a) as [status | e]; intros H.
  - eexists; reflexivity.
  - rewrite H. destruct (Py.is_TimeoutError e); eexists; reflexivity.
Qed.

Lemma all_results_returns {A : Type} (l : list (Py.res A)) :
  (forall r, In r l -> exists a, r = Py.Ret a) ->
  exists rs, Investigate.all_results l = Py.Ret rs.
Proof.
  induction l as [| r l IH]; intros H; simpl.
  - eexists; reflexivity.
  - destruct (H r (or_introl eq_refl)) as (a & ->).
    destruct IH as (rs & ->); [intros; apply H; right; assumption |].
    eexists; reflexivity.
Qed.

Lemma investigate_run_wave_returns (env : Investigate.wave_env) (w N C : Z) :
  (0 < N)%Z -> (0 < C)%Z ->
  (forall j, Net.ordinary (Investigate.env_net env j) = true) ->
  exists r,
    Investigate.run_wave env w N C = Py.Ret r /\
    guarded_rate (inject_Z (Investigate.successful r))
                 (Investigate.env_duration env)
      = Py.Ret (Investigate.throughput r).
Proof.
  intros HN HC Hord. unfold Investigate.run_wave, Py.Semaphore.
  replace (C <? 0)%Z with false by (symmetry; apply Z.ltb_ge; lia).
  cbn [Py.bind]. rewrite gather_returns by exact HC. cbn [Py.bind].
  destruct (all_results_returns
              (map (fun j => Investigate.make_request
                               (Investigate.env_net env j))
                   (Py.range2 0 N))) as (rs & ->).
  { intros r Hr. apply in_map_iff in Hr. destruct Hr as (j & <- & _).
    apply investigate_make_request_ordinary, Hord. }
  cbn [Py.bind].
  set (t := fold_left Investigate.count_result rs _).
  fold (guarded_rate (inject_Z (Investigate.successful_ t))
                     (Investigate.env_duration env)).
  destruct (guarded_rate_returns (inject_Z (Investigate.successful_ t))
              (Investigate.env_duration env)) as (th & Eth & _).
  rewrite Eth. cbn [Py.bind].
  destruct (average_returns (Investigate.latencies t)) as (av & ->).
  cbn [Py.bind].
  destruct (investigate_p99_returns (Investigate.latencies t)) as (p & ->).
  cbn [Py.bind].
  rewrite truediv_inject_pos by exact HN. cbn [Py.bind].
  eexists; split; [reflexivity |]. simpl. exact Eth.
Qed.

Lemma guarded_rate_spec (count : Z) (duration rate : Q) :
  guarded_rate (inject_Z count) duration = Py.Ret rate ->
  rate_per_second rate count duration.
Proof.
  intros E.
  destruct (guarded_rate_returns (inject_Z count) duration)
    as (x & Ex & Hpos & Hzero).
  rewrite Ex in E. injection E as <-.
  split; intros H; [rewrite (Hpos H) | rewrite (Hzero H)]; reflexivity.
Qed.

(** C3, as stated, fails on the optimized variant: with one success out of
    two requests in one second, the reported throughput is 2, not 1. *)
Lemma optimized_throughput_counts_every_request :
  exists r : Report.t,
    Optimized.run_benchmark_test second_fails [] 1 2 1 = Py.Ret r /\
    Report.successful (Report.perf r) = 1%Z /\
    Report.failed (Report.perf r) = 1%Z /\
    Report.throughput (Report.perf r) == 2 /\
    ~ rate_per_second (Report.throughput (Report.perf r))
                      (Report.successful (Report.perf r))
                      (Report.total_time (Report.perf r)).
Proof.
  eexists. split; [vm_compute; reflexivity |]. simpl.
  split; [reflexivity |]. split; [reflexivity |]. split; [reflexivity |].
  intros [H _]. specialize (H eq_refl). discriminate H.
Qed.

(** C3, amended: a completed batch of [run_batch] and a completed wave of
    [run_wave] report the number of successful requests divided by the
    duration, and [run_benchmark_test] (optimized variant) reports the
    number of requests of the run divided by the duration; each reports 0
    when the duration is not positive. *)
Theorem throughput_numerators (env : Investigate.wave_env)
    (readings : list CPUMonitor.reading) (batch_num wave_num N C : Z) :
  (0 < N)%Z -> (0 < C)%Z ->
  (forall j, Net.ordinary (Investigate.env_net env j) = true) ->
  (exists r : Fixed.batch_result,
     Fixed.run_batch (Investigate.env_net env) (Investigate.env_duration env)
                     batch_num N C = Py.Ret r /\
     rate_per_second (Fixed.throughput r) (Fixed.successful r)
                     (Fixed.duration r)) /\
  (exists r : Investigate.wave_metrics,
     Investigate.run_wave env wave_num N C = Py.Ret r /\
     rate_per_second (Investigate.throughput r) (Investigate.successful r)
                     (Investigate.env_duration env)) /\
  (exists r : Report.t,
     Optimized.run_benchmark_test (Investigate.env_net env) readings
       (Investigate.env_duration env) N C = Py.Ret r /\
     rate_per_second (Report.throughput (Report.perf r))
                     (Report.total_requests (Report.perf r))
                     (Report.total_time (Report.perf r)) /\
     Report.total_requests (Report.perf r) = N).
Proof.
  intros HN HC Hord. split; [| split].
  - destruct (fixed_run_batch_returns (Investigate.env_net env)
                (Investigate.env_duration env) batch_num N C HN HC)
      as (r & E & Hth & _ & Hd & _).
    exists r. split; [exact E |]. rewrite Hd.
    apply guarded_rate_spec. exact Hth.
  - destruct (investigate_run_wave_returns env wave_num N C HN HC Hord)
      as (r & E & Hth).
    exists r. split; [exact E |]. apply guarded_rate_spec. exact Hth.
  - destruct (optimized_run_returns (Investigate.env_net env) readings
                (Investigate.env_duration env) N C HC)
      as (r & E & Hth & _ & HT & Hn).
    exists r. split; [exact E |]. split; [| exact Hn].
    rewrite HT, Hn. apply guarded_rate_spec. exact Hth.
Qed.

Lemma throughput_numerators_witness :
  (exists r : Fixed.batch_result,
     Fixed.run_batch (Investigate.env_net quiet_wave)
                     (Investigate.env_duration quiet_wave) 1 3 2 = Py.Ret r /\
     rate_per_second (Fixed.throughput r) (Fixed.successful r)
                     (Fixed.duration r)) /\
  (exists r : Investigate.wave_metrics,
     Investigate.run_wave quiet_wave 1 3 2 = Py.Ret r /\
     rate_per_second (Investigate.throughput r) (Investigate.successful r)
                     (Investigate.env_duration quiet_wave)) /\
  (exists r : Report.t,
     Optimized.run_benchmark_test (Investigate.env_net quiet_wave) []
       (Investigate.env_duration quiet_wave) 3 2 = Py.Ret r /\
     rate_per_second (Report.throughput (Report.perf r))
                     (Report.total_requests (Report.perf r))
                     (Report.total_time (Report.perf r)) /\
     Report.total_requests (Report.perf r) = 3%Z).
Proof.
  apply (throughput_numerators quiet_wave [] 1 1 3 2).
  - reflexivity.
  - reflexivity.
  - intros j. reflexivity.
Defined.

(** The guarded rates are in range: a success rate between 0 and 100 when
    the successes are among the requests, a throughput that is not
    negative. *)
Lemma guarded_success_rate_in_range (s n : Z) (x : Q) :
  (0 <= s <= n)%Z ->
  guarded_success_rate s n = Py.Ret x -> 0 <= x <= 100.
Proof.
  intros Hs E.
  destruct (guarded_success_rate_returns s n) as (y & Ey & Hpos & Hzero).
  rewrite Ey in E. injection E as <-.
  destruct (Z_lt_le_dec 0 n) as [Hn | Hn].
  - rewrite (Hpos Hn).
    assert (Hn' : 0 < inject_Z n) by (unfold Qlt; simpl; lia).
    assert (H0 : 0 <= inject_Z s / inject_Z n).
    { apply Qle_shift_div_l; [exact Hn' |].
      rewrite Qmult_0_l. apply inject_Z_nonneg. lia. }
    assert (H1 : inject_Z s / inject_Z n <= 1).
    { apply Qle_shift_div_r; [exact Hn' |].
      rewrite Qmult_1_l. rewrite <- Zle_Qle. lia. }
    split; lra.
  - rewrite (Hzero Hn). split; discriminate.
Qed.

Lemma guarded_rate_nonneg (count : Z) (duration x : Q) :
  (0 <= count)%Z ->
  guarded_rate (inject_Z count) duration = Py.Ret x -> 0 <= x.
Proof.
  intros Hc E.
  destruct (guarded_rate_returns (inject_Z count) duration)
    as (y & Ey & Hpos & Hzero).
  rewrite Ey in E. injection E as <-.
  destruct (Qlt_le_dec 0 duration) as [Hd | Hd].
  - rewrite (Hpos Hd). apply Qle_shift_div_l; [exact Hd |].
    rewrite Qmult_0_l. apply inject_Z_nonneg. exact Hc.
  - rewrite (Hzero Hd). apply Qle_refl.
Qed.

(** C6, at the input on which the code departs from it: a run of
    [FixedBenchmark.run_benchmark] with no request makes no batch and then
    divides the successes by a request count of 0. *)
Theorem run_benchmark_without_requests (net : Z -> Z -> Net.attempt)
    (durations : Z -> Q) (concurrent : Z) :
  Fixed.run_benchmark net durations 0 concurrent
  = Py.Raise Py.ZeroDivisionError.
Proof. reflexivity. Qed.

(** ** The batches of a run *)

Lemma fixed_run_batch_number (net : Z -> Net.attempt) (T : Q) (b N C : Z)
    (r : Fixed.batch_result) :
  Fixed.run_batch net T b N C = Py.Ret r -> Fixed.batch r = b.
Proof.
  unfold Fixed.run_batch. intros E.
  repeat match type of E with
  | Py.bind ?m _ = _ => destruct m; [cbn [Py.bind] in E | discriminate]
  end.
  injection E as <-. reflexivity.
Qed.

Lemma requests_in_batch_in_range (B V b : Z) :
  (0 <= V)%Z -> (0 < B)%Z ->
  In b (Py.range2 1 ((V + B - 1) / B + 1)) ->
  (0 < Fixed.requests_in_batch B V b)%Z.
Proof.
  intros HV HB Hb. rewrite range2_from_1 in Hb. apply in_map_iff in Hb.
  destruct Hb as (k & <- & Hk). apply in_seq in Hk.
  pose proof (ceil_bounds B V HB) as Hc.
  unfold Fixed.requests_in_batch. nia.
Qed.

(** The batch loop runs the batches of [l] in order, each with the count
    [requests_in_batch] gives for its number, and adds the counts up. *)
Lemma batch_loop_plan (B : Z) (net : Z -> Z -> Net.attempt)
    (durations : Z -> Q) (V C : Z) (l : list Z) :
  (0 < C)%Z ->
  (forall b, In b l -> (0 < Fixed.requests_in_batch B V b)%Z) ->
  forall acc : Fixed.accum,
  exists acc' : Fixed.accum,
    batch_loop B net durations V C l acc = Py.Ret acc' /\
    map Fixed.total_requests (Fixed.all_results acc')
      = map Fixed.total_requests (Fixed.all_results acc)
        ++ map (Fixed.requests_in_batch B V) l /\
    map Fixed.batch (Fixed.all_results acc')
      = map Fixed.batch (Fixed.all_results acc) ++ l /\
    Fixed.cumulative_requests acc'
      = (Fixed.cumulative_requests acc
         + zsum (map (Fixed.requests_in_batch B V) l))%Z.
Proof.
  intros HC. induction l as [| b l IH]; intros Hpos acc.
  - exists acc. simpl. rewrite !app_nil_r. repeat split; lia.
  - destruct (fixed_run_batch_returns (net b) (durations b) b
                (Fixed.requests_in_batch B V b) C
                (Hpos b (or_introl eq_refl)) HC)
      as (r & Er & _ & _ & _ & Hn & _).
    pose proof (fixed_run_batch_number _ _ _ _ _ _ Er) as Hb.
    destruct (IH (fun b' Hb' => Hpos b' (or_intror Hb')) (accumulate acc r))
      as (acc' & E & Hreq & Hnum & Hsum).
    exists acc'. unfold batch_loop in *. cbn [Py.for_].
    rewrite Er. cbn [Py.bind].
    split; [exact E |].
    unfold accumulate in Hreq, Hnum, Hsum.
    cbn [Fixed.all_results Fixed.cumulative_requests] in Hreq, Hnum, Hsum.
    rewrite map_app in Hreq, Hnum. cbn [map] in Hreq, Hnum.
    rewrite Hn in Hreq, Hsum. rewrite Hb in Hnum.
    rewrite <- app_assoc in Hreq, Hnum.
    split; [exact Hreq |]. split; [exact Hnum |].
    cbn [map]. change (zsum (?x :: ?xs)) with (x + zsum xs)%Z. lia.
Qed.

(** C9: for a volume [V >= 0], a batch size [B > 0] and requests none of
    which hangs, the batch loop of [run_benchmark] runs the batches
    numbered from 1 to [ceil(V / B)]; the request count it hands to each
    batch, which the batch's result records, is [min(B, remaining)],
    positive and at most [B]; the counts sum to [V], which is also the
    loop's total of requests.  With the batch size 5000 of the source
    these are the batches of the summary [run_benchmark] returns. *)
Theorem batch_driver_partitions (net : Z -> Z -> Net.attempt)
    (durations : Z -> Q) (V B C : Z) :
  (0 <= V)%Z -> (0 < B)%Z -> (0 < C)%Z ->
  (forall b j, hangs (net b j) = false) ->
  exists acc : Fixed.accum,
    Fixed.run_batches B net durations V C = Py.Ret acc /\
    let plan := map Fixed.total_requests (Fixed.all_results acc) in
    map Fixed.batch (Fixed.all_results acc) = Py.range2 1 (Py.len plan + 1) /\
    Py.len plan = Qceiling (inject_Z V / inject_Z B) /\
    (forall k : nat, (k < List.length plan)%nat ->
       nth k plan 0%Z = Z.min B (V - zsum (firstn k plan)) /\
       (0 < nth k plan 0 <= B)%Z) /\
    zsum plan = V /\
    Fixed.cumulative_requests acc = V /\
    (B = Fixed.batch_size ->
     forall r : Fixed.run_result,
       Fixed.run_benchmark net durations V C = Py.Ret r ->
       Fixed.batches r = Fixed.all_results acc).
Proof.
  intros HV HB HC _.
  set (n := ((V + B - 1) / B)%Z).
  pose proof (ceil_bounds B V HB) as Hn. fold n in Hn.
  assert (Hn0 : (0 <= n)%Z) by nia.
  destruct (batch_loop_plan B net durations V C (Py.range2 1 (n + 1)) HC
              (fun b => requests_in_batch_in_range B V b HV HB) Fixed.accum0)
    as (acc & E & Hreq & Hnum & Hsum).
  cbn [Fixed.accum0 Fixed.all_results Fixed.cumulative_requests map app]
    in Hreq, Hnum, Hsum.
  rewrite requests_plan in Hreq, Hsum.
  destruct (plan_partitions V B HV HB) as (Hlen & Hk & Hz).
  fold n in Hlen, Hk, Hz.
  assert (Erun : Fixed.run_batches B net durations V C = Py.Ret acc).
  { unfold Fixed.run_batches, Fixed.num_batches, Py.floordiv.
    replace (B =? 0)%Z with false by (symmetry; apply Z.eqb_neq; lia).
    cbn [Py.bind]. exact E. }
  exists acc. split; [exact Erun |]. cbv zeta. rewrite Hreq.
  split.
  { rewrite Hnum. f_equal. unfold Py.len. rewrite plan_of_length. lia. }
  split; [exact Hlen |]. split; [exact Hk |]. split; [exact Hz |].
  split; [lia |].
  intros -> r Er. unfold Fixed.run_benchmark in Er. rewrite Erun in Er.
  cbn [Py.bind] in Er.
  repeat match type of Er with
  | Py.bind ?m _ = _ => destruct m; [cbn [Py.bind] in Er | discriminate]
  end.
  injection Er as <-. reflexivity.
Qed.

Lemma batch_driver_partitions_witness :
  exists acc : Fixed.accum,
    Fixed.run_batches 2 (fun _ => always_answered) (fun _ => 1) 5 8
      = Py.Ret acc /\
    let plan := map Fixed.total_requests (Fixed.all_results acc) in
    map Fixed.batch (Fixed.all_results acc) = Py.range2 1 (Py.len plan + 1) /\
    Py.len plan = Qceiling (inject_Z 5 / inject_Z 2) /\
    (forall k : nat, (k < List.length plan)%nat ->
       nth k plan 0%Z = Z.min 2 (5 - zsum (firstn k plan)) /\
       (0 < nth k plan 0 <= 2)%Z) /\
    zsum plan = 5%Z /\
    Fixed.cumulative_requests acc = 5%Z /\
    (2%Z = Fixed.batch_size ->
     forall r : Fixed.run_result,
       Fixed.run_benchmark (fun _ => always_answered) (fun _ => 1) 5 8
         = Py.Ret r ->
       Fixed.batches r = Fixed.all_results acc).
Proof.
  apply (batch_driver_partitions (fun _ => always_answered) (fun _ => 1) 5 2 8).
  - discriminate.
  - reflexivity.
  - reflexivity.
  - intros b j. reflexivity.
Defined.

(** ** Degradation analyzer *)

Lemma getitem_first {A : Type} (x : A) (l : list A) :
  Py.getitem (x :: l) 0 = Py.Ret x.
Proof.
  rewrite (getitem_in_range (x :: l) 0 x); [reflexivity |].
  unfold Py.len; simpl List.length; lia.
Qed.

Lemma getitem_last {A : Type} (l : list A) (d : A) :
  l <> [] -> Py.getitem l (-1) = Py.Ret (last l d).
Proof.
  intros Hl. unfold Py.getitem.
  assert (Hlen : (0 < Py.len l)%Z).
  { unfold Py.len. destruct l; [congruence | simpl List.length; lia]. }
  replace (-1 <? 0)%Z with true by reflexivity.
  replace (0 <=? -1 + Py.len l)%Z with true by (symmetry; apply Z.leb_le; lia).
  replace (-1 + Py.len l <? Py.len l)%Z with true
    by (symmetry; apply Z.ltb_lt; lia).
  simpl andb. cbv iota.
  rewrite (app_removelast_last d Hl) at 1.
  replace (Z.to_nat (-1 + Py.len l)) with (List.length (removelast l)).
  - rewrite nth_error_app2 by lia. rewrite Nat.sub_diag. reflexivity.
  - pose proof (f_equal (@List.length A) (app_removelast_last d Hl)) as E.
    rewrite length_app in E. simpl in E. unfold Py.len. lia.
Qed.

(** A first throughput that is positive as a float is a divisor the
    division accepts. *)
Lemma div_defined (a : Double.t) (f : Q) :
  0 < Double.round f ->
  Double.div a (Double.of_Q f) = Py.Ret (quotient a (Double.of_Q f)).
Proof.
  intros Hf. unfold quotient, Double.of_Q.
  destruct (Qle_bool (2 ^ 1024) (Qabs (Double.round f))).
  - destruct a; reflexivity.
  - unfold Double.div.
    replace (Qeq_bool (Double.round f) 0) with false.
    + destruct a; reflexivity.
    + symmetry. destruct (Qeq_bool (Double.round f) 0) eqn:E; [| reflexivity].
      apply Qeq_bool_iff in E. lra.
Qed.

Section Findings.

Variables first_ last_ : Investigate.wave_metrics.
Variable middle : list Investigate.wave_metrics.

Let metrics := first_ :: middle ++ [last_].
Let pct :=
  degradation_between (Investigate.throughput first_)
                      (Investigate.throughput last_).
Let drop :=
  relative_drop (Investigate.throughput first_)
                (Investigate.throughput (midpoint_wave metrics first_)).
Let memory_delta :=
  memory_growth (Investigate.memory_mb first_) (Investigate.memory_mb last_).

Lemma metrics_length : (2 <= Py.len metrics)%Z.
Proof.
  unfold metrics, Py.len. simpl List.length. rewrite length_app. simpl. lia.
Qed.

Lemma analyze_degradation_computes :
  0 < Double.round (Investigate.throughput first_) ->
  Investigate.analyze_degradation metrics
  = Py.Ret (Some {| Investigate.degradation_pct := pct;
                    Investigate.first_throughput :=
                      Investigate.throughput first_;
                    Investigate.last_throughput :=
                      Investigate.throughput last_;
                    Investigate.issues :=
                      expected_issues first_ last_ middle |}).
Proof.
  intros Hpos. unfold Investigate.analyze_degradation.
  pose proof metrics_length as Hlen.
  replace (Py.len metrics <? 2)%Z with false
    by (symmetry; apply Z.ltb_ge; exact Hlen).
  assert (Hne : forall B (g : Investigate.wave_metrics -> B),
             map g metrics <> []) by (intros; discriminate).
  assert (Hfirst : forall B (g : Investigate.wave_metrics -> B),
             Py.getitem (map g metrics) 0 = Py.Ret (g first_))
    by (intros; apply getitem_first).
  assert (Hlast : forall B (g : Investigate.wave_metrics -> B),
             Py.getitem (map g metrics) (-1) = Py.Ret (g last_)).
  { intros B g. rewrite (getitem_last _ (g first_) (Hne B g)). f_equal.
    unfold metrics. rewrite map_cons, map_app. simpl map.
    rewrite app_comm_cons. apply last_last. }
  rewrite !Hfirst, !Hlast. cbn [Py.bind].
  rewrite div_defined by exact Hpos. cbn [Py.bind].
  fold (degradation_between (Investigate.throughput first_)
                            (Investigate.throughput last_)).
  fold pct. unfold expected_issues. fold metrics pct.
  fold (memory_growth (Investigate.memory_mb first_)
                      (Investigate.memory_mb last_)).
  fold memory_delta.
  destruct (Double.lt (Double.of_Q 20) pct) eqn:Hsig; [| reflexivity].
  (* the connection totals *)
  unfold connection_delta, last_time_wait.
  set (series := Investigate.connection_series metrics).
  assert (Hconn :
    match map fst series with
    | [] => Py.Ret
              (if Double.lt (Double.of_Q 100) memory_delta
               then [Investigate.SignificantDegradation]
                    ++ [Investigate.MemoryLeak]
               else [Investigate.SignificantDegradation])
    | _ :: _ =>
        c_last <- Py.getitem (map fst series) (-1) ;;
        c_first <- Py.getitem (map fst series) 0 ;;
        Py.Ret (if (100 <? c_last - c_first)%Z
                then (if Double.lt (Double.of_Q 100) memory_delta
                      then [Investigate.SignificantDegradation]
                           ++ [Investigate.MemoryLeak]
                      else [Investigate.SignificantDegradation])
                     ++ [Investigate.ConnectionLeak]
                else (if Double.lt (Double.of_Q 100) memory_delta
                      then [Investigate.SignificantDegradation]
                           ++ [Investigate.MemoryLeak]
                      else [Investigate.SignificantDegradation]))
    end
    = Py.Ret ([Investigate.SignificantDegradation]
              ++ (if Double.lt (Double.of_Q 100) memory_delta
                  then [Investigate.MemoryLeak] else [])
              ++ match map fst series with
                 | [] => []
                 | c :: cs =>
                     if (100 <? last (c :: cs) c - c)%Z
                     then [Investigate.ConnectionLeak] else []
                 end)).
  { destruct (map fst series) as [| c cs] eqn:Ec.
    - destruct (Double.lt (Double.of_Q 100) memory_delta); reflexivity.
    - rewrite (getitem_last (c :: cs) c) by discriminate.
      rewrite getitem_first. cbn [Py.bind].
      destruct (100 <? last (c :: cs) c - c)%Z;
        destruct (Double.lt (Double.of_Q 100) memory_delta); reflexivity. }
  rewrite Hconn. cbn [Py.bind]. clear Hconn.
  set (issues3 := [Investigate.SignificantDegradation] ++ _ ++ _).
  assert (Hwait :
    match map snd series with
    | [] => Py.Ret issues3
    | _ :: _ =>
        w_last <- Py.getitem (map snd series) (-1) ;;
        Py.Ret (if (1000 <? w_last)%Z
                then issues3 ++ [Investigate.TimeWaitAccumulation]
                else issues3)
    end
    = Py.Ret (issues3
              ++ match map snd series with
                 | [] => []
                 | w :: ws =>
                     if (1000 <? last (w :: ws) w)%Z
                     then [Investigate.TimeWaitAccumulation] else []
                 end)).
  { destruct (map snd series) as [| w ws] eqn:Ew.
    - rewrite app_nil_r. reflexivity.
    - rewrite (getitem_last (w :: ws) w) by discriminate. cbn [Py.bind].
      destruct (1000 <? last (w :: ws) w)%Z;
        [reflexivity | rewrite app_nil_r; reflexivity]. }
  rewrite Hwait. cbn [Py.bind]. clear Hwait.
  (* the midpoint *)
  unfold Py.floordiv. simpl (2 =? 0)%Z. cbv iota. cbn [Py.bind].
  assert (Hmid : (0 <= Py.len (map Investigate.throughput metrics) / 2
                  < Py.len (map Investigate.throughput metrics))%Z).
  { unfold Py.len in *. rewrite length_map.
    split; [apply Z.div_pos; lia | apply Z.div_lt_upper_bound; lia]. }
  rewrite (getitem_in_range _ _ (Investigate.throughput first_) Hmid).
  cbn [Py.bind]. rewrite div_defined by exact Hpos. cbn [Py.bind].
  rewrite (map_nth Investigate.throughput).
  replace (Py.len (map Investigate.throughput metrics)) with (Py.len metrics)
    by (unfold Py.len; rewrite length_map; reflexivity).
  fold (midpoint_wave metrics first_).
  fold (relative_drop (Investigate.throughput first_)
          (Investigate.throughput (midpoint_wave metrics first_))).
  fold drop. unfold issues3. clearbody series.
  destruct (Double.lt (Double.of_Q (1 # 10)) drop);
    rewrite <- !app_assoc;
    destruct (map fst series); destruct (map snd series); reflexivity.
Qed.

End Findings.

Lemma in_singleton {A : Type} (x y : A) : In x [y] <-> x = y.
Proof. simpl. split; [intros [E | []]; auto | intros ->; left; reflexivity]. Qed.

Lemma in_if_exceeds {A : Type} (x y : A) (a : Double.t) (bound : Q) :
  In x (if Double.lt (Double.of_Q bound) a then [y] else [])
  <-> x = y /\ exceeds a bound.
Proof.
  unfold exceeds. destruct (Double.lt (Double.of_Q bound) a).
  - rewrite in_singleton. tauto.
  - simpl. split; [intros [] | intros [_ H']; discriminate H'].
Qed.

Lemma in_if_else_exceeds {A : Type} (x y z : A) (a : Double.t) (bound : Q) :
  In x (if Double.lt (Double.of_Q bound) a then [y] else [z])
  <-> (x = y /\ exceeds a bound) \/ (x = z /\ ~ exceeds a bound).
Proof.
  unfold exceeds. destruct (Double.lt (Double.of_Q bound) a);
    rewrite in_singleton.
  - tauto.
  - split; [intros ->; right; split; [reflexivity | discriminate] |].
    intros [[_ H] | [H _]]; [discriminate H | exact H].
Qed.

Lemma in_if_threshold {A : Type} (x y : A) (v : option Z) (bound : Z) :
  In x (match v with
        | Some d => if (bound <? d)%Z then [y] else []
        | None => []
        end)
  <-> x = y /\ exists d, v = Some d /\ (bound < d)%Z.
Proof.
  destruct v as [d |].
  - destruct (bound <? d)%Z eqn:E.
    + apply Z.ltb_lt in E. rewrite in_singleton. split.
      * intros ->. split; [reflexivity | exists d; auto].
      * tauto.
    + apply Z.ltb_ge in E. simpl. split; [intros [] |].
      intros [_ (d' & Ed & Hd)]. injection Ed as <-. lia.
  - simpl. split; [intros [] | intros [_ (d & Ed & _)]; discriminate].
Qed.

(** Membership in the list of findings, finding by finding. *)
Lemma in_expected_issues (first_ last_ : Investigate.wave_metrics)
    (middle : list Investigate.wave_metrics) (i : Investigate.issue) :
  let metrics := first_ :: middle ++ [last_] in
  In i (expected_issues first_ last_ middle) <->
  exceeds (degradation_between (Investigate.throughput first_)
                               (Investigate.throughput last_)) 20 /\
  (i = Investigate.SignificantDegradation \/
   (i = Investigate.MemoryLeak /\
    exceeds (memory_growth (Investigate.memory_mb first_)
                           (Investigate.memory_mb last_)) 100) \/
   (i = Investigate.ConnectionLeak /\
    exists d, connection_delta metrics = Some d /\ (100 < d)%Z) \/
   (i = Investigate.TimeWaitAccumulation /\
    exists w, last_time_wait metrics = Some w /\ (1000 < w)%Z) \/
   (i = Investigate.GradualDegradation /\
    exceeds (relative_drop
               (Investigate.throughput first_)
               (Investigate.throughput (midpoint_wave metrics first_)))
            (1 # 10)) \/
   (i = Investigate.SuddenDegradation /\
    ~ exceeds (relative_drop
                 (Investigate.throughput first_)
                 (Investigate.throughput (midpoint_wave metrics first_)))
              (1 # 10))).
Proof.
  intros metrics. unfold expected_issues.
  destruct (Double.lt (Double.of_Q 20) _) eqn:Hs.
  - rewrite !in_app_iff, in_singleton, in_if_exceeds, !in_if_threshold,
      in_if_else_exceeds.
    fold metrics. unfold exceeds at 1. tauto.
  - simpl. unfold exceeds at 1.
    split; [intros [] | intros [H _]; congruence].
Qed.

Lemma connection_series_app (l1 l2 : list Investigate.wave_metrics) :
  Investigate.connection_series (l1 ++ l2)
  = Investigate.connection_series l1 ++ Investigate.connection_series l2.
Proof.
  induction l1 as [| m l1 IH]; simpl; [reflexivity |].
  destruct (Investigate.connections_after m); rewrite IH; reflexivity.
Qed.

(** When the first and the last wave carry a snapshot, the delta and the
    TIME_WAIT count are those of these two waves. *)
Lemma connection_delta_first_last (first_ last_ : Investigate.wave_metrics)
    (middle : list Investigate.wave_metrics)
    (s0 sn : Investigate.snapshot) :
  Investigate.connections_after first_ = Investigate.Snapshot s0 ->
  Investigate.connections_after last_ = Investigate.Snapshot sn ->
  connection_delta (first_ :: middle ++ [last_])
    = Some (Investigate.total sn - Investigate.total s0)%Z /\
  last_time_wait (first_ :: middle ++ [last_])
    = Some (Investigate.time_wait sn).
Proof.
  intros H0 Hn. unfold connection_delta, last_time_wait.
  simpl Investigate.connection_series. rewrite H0, connection_series_app.
  simpl Investigate.connection_series. rewrite Hn.
  rewrite !map_cons, !map_app. simpl map. simpl fst. simpl snd.
  rewrite !app_comm_cons, !last_last. split; reflexivity.
Qed.

(** C5: for at least two waves whose first throughput is positive,
    [analyze_degradation] returns the degradation
    [(first - last) / first * 100], in float arithmetic, and lists:
    significant degradation exactly when it exceeds 20, and then a memory
    leak exactly when the memory grew by more than 100, a connection leak
    exactly when the connection total grew by more than 100, TIME_WAIT
    accumulation exactly when the last TIME_WAIT count exceeds 1000, and
    gradual rather than sudden degradation exactly when the throughput at
    the midpoint dropped by more than a tenth of the first.  With
    throughputs 1000 and 700, a memory growth of 150 and a connection
    growth of 50, it lists significant degradation and a memory leak, and
    no connection leak. *)
Theorem degradation_findings (first_ last_ : Investigate.wave_metrics)
    (middle : list Investigate.wave_metrics) :
  let metrics := first_ :: middle ++ [last_] in
  let pct := degradation_between (Investigate.throughput first_)
                                 (Investigate.throughput last_) in
  let memory_delta :=
    memory_growth (Investigate.memory_mb first_)
                  (Investigate.memory_mb last_) in
  let drop :=
    relative_drop (Investigate.throughput first_)
                  (Investigate.throughput (midpoint_wave metrics first_)) in
  0 < Double.round (Investigate.throughput first_) ->
  exists s : Investigate.summary,
    Investigate.analyze_degradation metrics = Py.Ret (Some s) /\
    Investigate.degradation_pct s = pct /\
    (In Investigate.SignificantDegradation (Investigate.issues s)
     <-> exceeds pct 20) /\
    (In Investigate.MemoryLeak (Investigate.issues s)
     <-> exceeds pct 20 /\ exceeds memory_delta 100) /\
    (In Investigate.ConnectionLeak (Investigate.issues s)
     <-> exceeds pct 20 /\
         exists d, connection_delta metrics = Some d /\ (100 < d)%Z) /\
    (In Investigate.TimeWaitAccumulation (Investigate.issues s)
     <-> exceeds pct 20 /\
         exists w, last_time_wait metrics = Some w /\ (1000 < w)%Z) /\
    (In Investigate.GradualDegradation (Investigate.issues s)
     <-> exceeds pct 20 /\ exceeds drop (1 # 10)) /\
    (In Investigate.SuddenDegradation (Investigate.issues s)
     <-> exceeds pct 20 /\ ~ exceeds drop (1 # 10)) /\
    (forall s0 sn : Investigate.snapshot,
       Investigate.connections_after first_ = Investigate.Snapshot s0 ->
       Investigate.connections_after last_ = Investigate.Snapshot sn ->
       connection_delta metrics
         = Some (Investigate.total sn - Investigate.total s0)%Z /\
       last_time_wait metrics = Some (Investigate.time_wait sn)) /\
    (Investigate.throughput first_ == 1000 ->
     Investigate.throughput last_ == 700 ->
     memory_delta = Double.of_Q 150 ->
     connection_delta metrics = Some 50%Z ->
     In Investigate.SignificantDegradation (Investigate.issues s) /\
     In Investigate.MemoryLeak (Investigate.issues s) /\
     ~ In Investigate.ConnectionLeak (Investigate.issues s)).
Proof.
  intros metrics pct memory_delta drop Hpos.
  eexists. split; [apply analyze_degradation_computes; exact Hpos |].
  cbn [Investigate.degradation_pct Investigate.issues].
  split; [reflexivity |].
  pose proof (in_expected_issues first_ last_ middle) as Hin.
  cbv zeta in Hin. fold metrics pct memory_delta drop in Hin.
  assert (Hex : Investigate.throughput first_ == 1000 ->
                Investigate.throughput last_ == 700 -> exceeds pct 20).
  { intros H H0. unfold pct, degradation_between.
    rewrite (of_Q_ext _ _ H), (of_Q_ext _ _ H0).
    vm_compute. reflexivity. }
  repeat split.
  - intros H. apply Hin in H. tauto.
  - intros H. apply Hin. tauto.
  - apply Hin in H. tauto.
  - apply Hin in H.
    destruct H as [_ [E | [E | [E | [E | [E | E]]]]]];
      try discriminate E; try (destruct E as [E _]; discriminate E).
    tauto.
  - intros [H1 H2]. apply Hin. tauto.
  - apply Hin in H. tauto.
  - apply Hin in H.
    destruct H as [_ [E | [E | [E | [E | [E | E]]]]]];
      try discriminate E; try (destruct E as [E _]; discriminate E).
    tauto.
  - intros [H1 H2]. apply Hin. tauto.
  - apply Hin in H. tauto.
  - apply Hin in H.
    destruct H as [_ [E | [E | [E | [E | [E | E]]]]]];
      try discriminate E; try (destruct E as [E _]; discriminate E).
    tauto.
  - intros [H1 H2]. apply Hin. tauto.
  - apply Hin in H. tauto.
  - apply Hin in H.
    destruct H as [_ [E | [E | [E | [E | [E | E]]]]]];
      try discriminate E; try (destruct E as [E _]; discriminate E).
    tauto.
  - intros [H1 H2]. apply Hin. tauto.
  - apply Hin in H. tauto.
  - apply Hin in H.
    destruct H as [_ [E | [E | [E | [E | [E | E]]]]]];
      try discriminate E; try (destruct E as [E _]; discriminate E).
    tauto.
  - intros [H1 H2]. apply Hin. tauto.
  - apply (connection_delta_first_last first_ last_ middle s0 sn);
      assumption.
  - apply (connection_delta_first_last first_ last_ middle s0 sn);
      assumption.
  - apply Hin. split; [| left; reflexivity]. apply Hex; assumption.
  - apply Hin. split; [apply Hex; assumption |].
    right; left. split; [reflexivity |]. rewrite H1. vm_compute. reflexivity.
  - intros Hc. apply Hin in Hc.
    destruct Hc as [_ [E | [E | [E | [E | [E | E]]]]]];
      try discriminate E; try (destruct E as [E _]; discriminate E).
    destruct E as [_ (d & Ed & Hd)]. rewrite H2 in Ed.
    injection Ed as <-. lia.
Qed.

Lemma degradation_findings_witness :
  0 < Double.round (Investigate.throughput wave_1) /\
  exists s : Investigate.summary,
    Investigate.analyze_degradation [wave_1; wave_2; wave_3]
      = Py.Ret (Some s) /\
    In Investigate.SignificantDegradation (Investigate.issues s) /\
    In Investigate.MemoryLeak (Investigate.issues s) /\
    ~ In Investigate.ConnectionLeak (Investigate.issues s).
Proof.
  split; [reflexivity |].
  destruct (degradation_findings wave_1 wave_3 [wave_2] eq_refl)
    as (s & E & _ & _ & _ & _ & _ & _ & _ & _ & Hexample).
  exists s. split; [exact E |].
  apply Hexample; reflexivity.
Defined.

(** At the threshold the float decides: for the throughputs
    65.85228075508428 and 52.68182460406742, whose difference is more
    than a fifth of the first, the quotient is rounded to the float
    nearest to 0.2 and the degradation to 20, and nothing is listed. *)
Lemma degradation_at_the_threshold :
  let first_ := 6585228075508428 # 100000000000000 in
  let last_ := 5268182460406742 # 100000000000000 in
  20 < (Double.round first_ - Double.round last_) / Double.round first_ * 100 /\
  degradation_between first_ last_ = Double.of_Q 20 /\
  exists s : Investigate.summary,
    Investigate.analyze_degradation
      [wave_of 1 first_ 200 100 10; wave_of 2 last_ 200 100 10]
    = Py.Ret (Some s) /\
    Investigate.issues s = [].
Proof.
  split; [vm_compute; reflexivity |].
  split; [vm_compute; reflexivity |].
  eexists. split; [vm_compute; reflexivity | reflexivity].
Qed.

(** ** The optimized run, end to end *)

(** Served in task order (one of the interleavings, by
    [in_order_reachable]), the run reports as many successes and failures
    together as requests, and neither count is negative. *)
Lemma optimized_report_accounts (net : Z -> Net.attempt)
    (readings : list CPUMonitor.reading) (T : Q) (N C : Z) :
  (0 <= N)%Z -> (0 < C)%Z ->
  (forall i, Net.ordinary (net i) = true) ->
  exists r,
    Optimized.run_benchmark_test net readings T N C = Py.Ret r /\
    (Report.successful (Report.perf r) + Report.failed (Report.perf r) = N)%Z /\
    (0 <= Report.successful (Report.perf r))%Z /\
    (0 <= Report.failed (Report.perf r))%Z.
Proof.
  intros HN HC Hord. unfold Optimized.run_benchmark_test, Py.Semaphore.
  replace (C <? 0)%Z with false by (symmetry; apply Z.ltb_ge; lia).
  cbn [Py.bind].
  rewrite optimized_tasks_are_requests by exact HC. simpl app.
  cbn [Py.bind]. rewrite gather_returns by exact HC. cbn [Py.bind].
  destruct (monitor_run_returns CPUMonitor.Optimized readings) as (cpu & ->).
  cbn [Py.bind].
  set (served := map net (Py.range2 0 N)).
  set (st := Controller.run_in_order Optimized.process_with_stats served
               Optimized.stats0).
  destruct (report_build_returns N T (Py.sorted (Optimized.latencies st))
              (Optimized.successes st) (Optimized.failures st) cpu)
    as (r & E & _ & _ & _ & _ & Hs & Hf).
  exists r. split; [exact E |]. rewrite Hs, Hf.
  assert (Hstep : forall l s,
             (Optimized.successes s + Optimized.failures s
              + Py.len l)%Z
             = (Optimized.successes
                  (Controller.run_in_order Optimized.process_with_stats
                     (map net l) s)
                + Optimized.failures
                    (Controller.run_in_order Optimized.process_with_stats
                       (map net l) s))%Z /\
             ((0 <= Optimized.successes s)%Z ->
              (0 <= Optimized.failures s)%Z ->
              (0 <= Optimized.successes
                      (Controller.run_in_order Optimized.process_with_stats
                         (map net l) s))%Z /\
              (0 <= Optimized.failures
                      (Controller.run_in_order Optimized.process_with_stats
                         (map net l) s))%Z)).
  { induction l as [| i l IH]; intros s.
    - unfold Py.len; simpl. split; [lia | tauto].
    - unfold Controller.run_in_order in *. simpl map. simpl fold_left.
      pose proof (process_with_stats_counts (net i) s (Hord i)) as Hc.
      destruct (IH (Optimized.process_with_stats (net i) s)) as [IH1 IH2].
      unfold counted_once in Hc. unfold Py.len in *. simpl List.length.
      split; [lia | intros; apply IH2; lia]. }
  destruct (Hstep (Py.range2 0 N) Optimized.stats0) as [Hsum Hpos].
  fold served in Hsum, Hpos. fold st in Hsum, Hpos.
  rewrite range2_length in Hsum. simpl in Hsum.
  destruct Hpos as [Hp1 Hp2]; simpl; try lia.
Qed.

(** * Further properties *)

(** ** Percentiles, beyond the range of the callers *)




(** ** The latency summary of a run *)

Lemma min_of_sorted (x : Q) (l : list Q) :
  Sorted Qle (x :: l) -> Py.min (x :: l) = Py.Ret x.
Proof.
  intros Hs. apply sorted_strongly_sorted in Hs.
  inversion Hs as [| ? ? _ Hall]; subst. simpl. f_equal.
  clear Hs. induction l as [| y l IH]; [reflexivity |].
  inversion Hall as [| ? ? Hxy Hall']; subst. simpl.
  destruct (Qlt_le_dec y x) as [Hlt | _]; [| apply IH; exact Hall'].
  exfalso. apply (Qle_not_lt _ _ Hxy Hlt).
Qed.

(** What [Report.build] makes of sorted latencies. *)
Lemma report_build_latency (n : Z) (T : Q) (lats : list Q) (s f : Z)
    (cpu : CPUMonitor.summary) :
  Sorted Qle lats ->
  exists r,
    Report.build n T lats s f cpu = Py.Ret r /\
    Report.min (Report.lat r) <= Report.p50 (Report.lat r) /\
    Report.p50 (Report.lat r) <= Report.p95 (Report.lat r) /\
    Report.p95 (Report.lat r) <= Report.p99 (Report.lat r) /\
    Report.p99 (Report.lat r) <= Report.max (Report.lat r).
Proof.
  intros Hs. unfold Report.build.
  fold (guarded_rate (inject_Z n) T). fold (guarded_success_rate s n).
  destruct (guarded_rate_returns (inject_Z n) T) as (th & -> & _).
  destruct (guarded_success_rate_returns s n) as (sr & -> & _).
  cbn [Py.bind].
  destruct lats as [| x l].
  - simpl. eexists; split; [reflexivity |]. simpl.
    repeat split; apply Qle_refl.
  - set (lats := x :: l) in *.
    assert (Hne : lats <> []) by discriminate.
    assert (Hlen : (0 < Py.len lats)%Z)
      by (unfold Py.len, lats; simpl List.length; lia).
    unfold lats at 1. rewrite (min_of_sorted x l Hs). fold lats.
    rewrite truediv_len by exact Hne.
    rewrite !get_percentile_nonempty by (assumption || discriminate).
    destruct (max_nonempty lats Hne) as (mx & Emx & Hin & Hall).
    unfold lats at 4. fold lats. rewrite Emx. cbn [Py.bind].
    eexists; split; [reflexivity |].
    cbn [Report.lat Report.min Report.p50 Report.p95 Report.p99 Report.max].
    pose proof (sorted_strongly_sorted lats Hs) as Hss.
    pose proof (nearest_rank_in_range (Py.len lats) 50 Hlen
                  ltac:(discriminate)) as H50.
    pose proof (nearest_rank_in_range (Py.len lats) 95 Hlen
                  ltac:(discriminate)) as H95.
    pose proof (nearest_rank_in_range (Py.len lats) 99 Hlen
                  ltac:(discriminate)) as H99.
    pose proof (rank_mono (Py.len lats) 50 95 ltac:(lia)
                  ltac:(discriminate) ltac:(discriminate)) as M1.
    pose proof (rank_mono (Py.len lats) 95 99 ltac:(lia)
                  ltac:(discriminate) ltac:(discriminate)) as M2.
    unfold Py.len in *.
    repeat split.
    + change x with (nth 0 lats 0). apply strongly_sorted_nth; [exact Hss |].
      lia.
    + apply strongly_sorted_nth; [exact Hss |]. unfold nearest_rank in *. lia.
    + apply strongly_sorted_nth; [exact Hss |]. unfold nearest_rank in *. lia.
    + rewrite Forall_forall in Hall. apply Hall. apply nth_In. lia.
Qed.

(** X2: a run of [run_benchmark_test], optimized or enhanced variant,
    with a positive concurrency and requests that are answered or fail
    with an [Exception], returns a report whose latency figures are
    ordered: min <= p50 <= p95 <= p99 <= max. *)
Theorem run_latency_figures_ordered (net : Z -> Net.attempt)
    (batch_timeout : Z -> bool) (readings : list CPUMonitor.reading)
    (T : Q) (N C : Z) :
  (0 <= N)%Z -> (0 < C)%Z ->
  (forall i, Net.ordinary (net i) = true) ->
  (exists r : Report.t,
     Optimized.run_benchmark_test net readings T N C = Py.Ret r /\
     latency_ordered (Report.lat r)) /\
  (exists r : Report.t,
     Enhanced.run_benchmark_test net batch_timeout readings T N C = Py.Ret r /\
     latency_ordered (Report.lat r)).
Proof.
  intros HN HC Hord. split.
  - unfold Optimized.run_benchmark_test, Py.Semaphore.
    replace (C <? 0)%Z with false by (symmetry; apply Z.ltb_ge; lia).
    cbn [Py.bind].
    rewrite optimized_tasks_are_requests by exact HC.
    cbn [Py.bind]. rewrite gather_returns by exact HC. cbn [Py.bind].
    destruct (monitor_run_returns CPUMonitor.Optimized readings) as (cpu & ->).
    cbn [Py.bind].
    match goal with
    | |- exists r, Report.build ?n ?t (Py.sorted ?l) ?s ?f ?c = _ /\ _ =>
        destruct (report_build_latency n t (Py.sorted l) s f c
                    (sorted_is_sorted l)) as (r & E & H)
    end.
    exists r. split; assumption.
  - unfold Enhanced.run_benchmark_test.
    destruct (enhanced_accounting net batch_timeout N C HN HC Hord)
      as (t & -> & _).
    cbn [Py.bind].
    destruct (monitor_run_returns CPUMonitor.Enhanced readings) as (cpu & ->).
    cbn [Py.bind].
    destruct (report_build_latency N T (Py.sorted (Enhanced.latencies t))
                (Enhanced.successes t) (Enhanced.failures t) cpu
                (sorted_is_sorted _)) as (r & E & H).
    exists r. split; assumption.
Qed.

Lemma run_latency_figures_ordered_witness :
  (exists r : Report.t,
     Optimized.run_benchmark_test second_fails [] 1 2 1 = Py.Ret r /\
     latency_ordered (Report.lat r)) /\
  (exists r : Report.t,
     Enhanced.run_benchmark_test second_fails never_times_out [] 1 2 1
       = Py.Ret r /\
     latency_ordered (Report.lat r)).
Proof.
  apply (run_latency_figures_ordered second_fails never_times_out [] 1 2 1).
  - discriminate.
  - reflexivity.
  - intros i. unfold second_fails. destruct (i =? 0)%Z; reflexivity.
Defined.

(** ** The two sampling loops *)

Lemma optimized_loop_filters (rs : list CPUMonitor.reading) (m : CPUMonitor.t) :
  CPUMonitor.monitor_loop CPUMonitor.Optimized m rs
  = CPUMonitor.monitor_loop CPUMonitor.Enhanced m (filter acted_on rs).
Proof.
  revert m. induction rs as [| r rs IH]; intros m; [reflexivity |].
  destruct r as [c mem |]; simpl.
  - destruct (Qlt_le_dec 0 c); simpl; apply IH.
  - reflexivity.
Qed.

(** X3: the optimized monitor leaves out every sample whose CPU figure is
    not positive, its memory figure included: on any readings its summary
    is the one the enhanced monitor gives on the readings that are left. *)
Theorem optimized_monitor_skips_idle_samples (rs : list CPUMonitor.reading) :
  CPUMonitor.run CPUMonitor.Optimized rs
  = CPUMonitor.run CPUMonitor.Enhanced (filter acted_on rs).
Proof.
  unfold CPUMonitor.run. rewrite optimized_loop_filters. reflexivity.
Qed.

Lemma loop_stops_at_fault (v : CPUMonitor.variant)
    (before after : list CPUMonitor.reading) (m : CPUMonitor.t) :
  CPUMonitor.monitor_loop v m (before ++ CPUMonitor.Fault :: after)
  = CPUMonitor.monitor_loop v m before.
Proof.
  revert m. induction before as [| r before IH]; intros m; [reflexivity |].
  simpl. destruct (CPUMonitor.monitor_iter v m r) as [m' |];
    [apply IH | reflexivity].
Qed.

(** X4: a failure inside either sampling loop ends the sampling without
    an error: whatever is read after it is ignored, and [stop] returns the
    summary of the samples taken before it. *)
Theorem monitor_failure_ends_sampling (v : CPUMonitor.variant)
    (before after : list CPUMonitor.reading) :
  CPUMonitor.run v (before ++ CPUMonitor.Fault :: after)
  = CPUMonitor.run v before /\
  exists s : CPUMonitor.summary, CPUMonitor.run v before = Py.Ret s.
Proof.
  split.
  - unfold CPUMonitor.run. rewrite loop_stops_at_fault. reflexivity.
  - apply monitor_run_returns.
Qed.

(** ** Concurrency levels that are not positive *)

Lemma range2_cons (a b : Z) :
  (a < b)%Z -> Py.range2 a b = a :: Py.range2 (a + 1) b.
Proof.
  intros H. unfold Py.range2.
  replace (Z.to_nat (b - a)) with (Datatypes.S (Z.to_nat (b - (a + 1))))
    by lia.
  simpl seq. simpl map. f_equal; [lia |].
  rewrite <- seq_shift, map_map. apply map_ext. intros k. lia.
Qed.

(** X5: with at least one request to make, the optimized
    [run_benchmark_test] makes none of them when the concurrency is not
    positive: a negative concurrency is refused by the semaphore with
    [ValueError], and a concurrency of 0, which leaves no worker, fails
    with [ZeroDivisionError] on the round-robin choice of a worker. *)
Theorem optimized_needs_positive_concurrency (net : Z -> Net.attempt)
    (readings : list CPUMonitor.reading) (T : Q) (N C : Z) :
  (0 < N)%Z -> (C <= 0)%Z ->
  Optimized.run_benchmark_test net readings T N C
  = Py.Raise (if (C <? 0)%Z then Py.ValueError else Py.ZeroDivisionError).
Proof.
  intros HN HC. unfold Optimized.run_benchmark_test, Py.Semaphore.
  destruct (C <? 0)%Z eqn:E; [reflexivity |].
  apply Z.ltb_ge in E. assert (C = 0%Z) by lia. subst C.
  cbn [Py.bind]. rewrite (range2_cons 0 N HN). reflexivity.
Qed.

Lemma optimized_needs_positive_concurrency_witness :
  Optimized.run_benchmark_test always_answered [] 1 10 0
  = Py.Raise (if (0 <? 0)%Z then Py.ValueError else Py.ZeroDivisionError).
Proof.
  apply (optimized_needs_positive_concurrency always_answered [] 1 10 0).
  - reflexivity.
  - discriminate.
Defined.

(** X6: the enhanced [run_benchmark_test] fails with [ValueError] when the
    concurrency is 0 (a slice step of 0); with a negative concurrency it
    makes none of its [N] requests and still returns a report for [N]
    requests: no success, no failure, success rate 0, and a throughput of
    [N] per second. *)
Theorem enhanced_without_positive_concurrency (net : Z -> Net.attempt)
    (batch_timeout : Z -> bool) (readings : list CPUMonitor.reading)
    (T : Q) (N C : Z) :
  (0 < N)%Z -> (C <= 0)%Z ->
  if (C =? 0)%Z
  then Enhanced.run_benchmark_test net batch_timeout readings T N C
       = Py.Raise Py.ValueError
  else exists r : Report.t,
         Enhanced.run_benchmark_test net batch_timeout readings T N C
           = Py.Ret r /\
         Report.successful (Report.perf r) = 0%Z /\
         Report.failed (Report.perf r) = 0%Z /\
         Report.success_rate (Report.perf r) == 0 /\
         Report.total_requests (Report.perf r) = N /\
         rate_per_second (Report.throughput (Report.perf r)) N T.
Proof.
  intros HN HC. destruct (C =? 0)%Z eqn:E.
  - apply Z.eqb_eq in E. subst C. reflexivity.
  - apply Z.eqb_neq in E.
    unfold Enhanced.run_benchmark_test, Enhanced.run_requests, Py.range3.
    replace (C =? 0)%Z with false by (symmetry; apply Z.eqb_neq; exact E).
    unfold Py.range_len.
    replace (0 <? C)%Z with false by (symmetry; apply Z.ltb_ge; lia).
    replace (N <? 0)%Z with false by (symmetry; apply Z.ltb_ge; lia).
    simpl Z.to_nat. simpl seq. simpl map. cbn [Py.bind Py.for_].
    destruct (monitor_run_returns CPUMonitor.Enhanced readings) as (cpu & ->).
    cbn [Py.bind]. simpl Py.sorted.
    destruct (report_build_returns N T [] 0 0 cpu)
      as (r & Er & Hth & Hsr & _ & Hn & Hs & Hf).
    change (Enhanced.latencies Enhanced.tally0) with (@nil Q).
    change (Enhanced.successes Enhanced.tally0) with 0%Z.
    change (Enhanced.failures Enhanced.tally0) with 0%Z.
    exists r. split; [exact Er |]. split; [exact Hs |]. split; [exact Hf |].
    split; [| split; [exact Hn | apply guarded_rate_spec; exact Hth]].
    destruct (guarded_success_rate_returns 0 N) as (x & Ex & Hpos & _).
    rewrite Ex in Hsr. injection Hsr as <-. rewrite (Hpos HN).
    unfold Qdiv. ring.
Qed.

Lemma enhanced_without_positive_concurrency_witness :
  exists r : Report.t,
    Enhanced.run_benchmark_test always_answered never_times_out [] 2 10 (-8)
      = Py.Ret r /\
    Report.successful (Report.perf r) = 0%Z /\
    Report.failed (Report.perf r) = 0%Z /\
    Report.success_rate (Report.perf r) == 0 /\
    Report.total_requests (Report.perf r) = 10%Z /\
    rate_per_second (Report.throughput (Report.perf r)) 10 2.
Proof.
  apply (enhanced_without_positive_concurrency always_answered
           never_times_out [] 2 10 (-8)).
  - reflexivity.
  - discriminate.
Defined.

(** ** Loops that keep an invariant *)

Lemma for_preserves {A S : Type} (P : S -> Prop)
    (body : S -> A -> Py.res S) (l : list A) :
  (forall s x s', In x l -> P s -> body s x = Py.Ret s' -> P s') ->
  forall s s', P s -> Py.for_ l body s = Py.Ret s' -> P s'.
Proof.
  induction l as [| x l IH]; intros Hbody s s' Hs E; simpl in E.
  - injection E as <-. exact Hs.
  - destruct (body s x) as [s1 | e] eqn:E1; [| discriminate].
    cbn [Py.bind] in E.
    apply (IH (fun s y s' Hy => Hbody s y s' (or_intror Hy)) s1 s');
      [| exact E].
    apply (Hbody s x s1); [left; reflexivity | exact Hs | exact E1].
Qed.

Lemma fold_left_preserves {A S : Type} (P : S -> Prop)
    (step : S -> A -> S) (l : list A) :
  (forall s x, In x l -> P s -> P (step s x)) ->
  forall s, P s -> P (fold_left step l s).
Proof.
  induction l as [| x l IH]; intros Hstep s Hs; simpl; [exact Hs |].
  apply IH; [intros; apply Hstep; [right |]; assumption |].
  apply Hstep; [left; reflexivity | exact Hs].
Qed.

(** ** A batch of the fixed variant *)

(** The counters never go down. *)
Lemma fixed_counters_nonneg (net : Z -> Net.attempt) (N C : Z)
    (t : Fixed.tally) :
  Fixed.run_requests net N C = Py.Ret t ->
  (0 <= Fixed.successes t)%Z /\ (0 <= Fixed.failures t)%Z.
Proof.
  unfold Fixed.run_requests. intros E.
  destruct (Py.Semaphore C) as [c |]; [| discriminate]. cbn [Py.bind] in E.
  destruct (Py.range3 0 N (Z.min 500 N)) as [starts |]; [| discriminate].
  cbn [Py.bind] in E.
  apply (for_preserves
           (fun t => (0 <= Fixed.successes t)%Z /\ (0 <= Fixed.failures t)%Z)
           (Fixed.run_chunk net N C (Z.min 500 N)) starts)
    with (s := Fixed.tally0) (s' := t);
    [| simpl; lia | exact E].
  intros s i s' _ Hs Ei. unfold Fixed.run_chunk in Ei.
  destruct (Controller.gather C _) as [results |]; [| discriminate].
  cbn [Py.bind] in Ei. injection Ei as <-.
  apply fold_left_preserves; [| exact Hs].
  intros s0 r _ H0.
  pose proof (fixed_count_result s0 r) as Hc. unfold counted_once in Hc. lia.
Qed.

(** X7: for a positive number of requests, a positive concurrency and
    requests none of which hangs, [run_batch] returns a result, whatever
    the requests end in: it carries
    the batch number, the request count and the duration it was given;
    successes and failures are not negative and add up to the request
    count; the success rate is between 0 and 100 and the throughput is not
    negative. *)
Theorem run_batch_result_well_formed (net : Z -> Net.attempt) (T : Q)
    (b N C : Z) :
  (0 < N)%Z -> (0 < C)%Z ->
  (forall j, hangs (net j) = false) ->
  exists r : Fixed.batch_result,
    Fixed.run_batch net T b N C = Py.Ret r /\
    Fixed.batch r = b /\
    Fixed.total_requests r = N /\
    Fixed.duration r = T /\
    (0 <= Fixed.successful r)%Z /\
    (0 <= Fixed.failed r)%Z /\
    (Fixed.successful r + Fixed.failed r = N)%Z /\
    0 <= Fixed.success_rate r <= 100 /\
    0 <= Fixed.throughput r.
Proof.
  intros HN HC _.
  destruct (fixed_run_batch_returns net T b N C HN HC)
    as (r & E & Hth & Hsr & HT & Hn & Hsum).
  assert (Hb : Fixed.batch r = b /\
               (0 <= Fixed.successful r)%Z /\ (0 <= Fixed.failed r)%Z).
  { unfold Fixed.run_batch in E.
    destruct (Fixed.run_requests net N C) as [t |] eqn:Et; [| discriminate].
    destruct (fixed_counters_nonneg net N C t Et) as [H1 H2].
    cbn [Py.bind] in E.
    repeat match type of E with
    | Py.bind ?m _ = _ => destruct m; [cbn [Py.bind] in E | discriminate]
    end.
    injection E as <-. simpl. auto. }
  destruct Hb as (Hb & Hs0 & Hf0).
  exists r. repeat split; try assumption.
  - apply (guarded_success_rate_in_range (Fixed.successful r) N);
      [lia | exact Hsr].
  - apply (guarded_success_rate_in_range (Fixed.successful r) N);
      [lia | exact Hsr].
  - apply (guarded_rate_nonneg (Fixed.successful r) T); assumption.
Qed.

Lemma run_batch_result_well_formed_witness :
  exists r : Fixed.batch_result,
    Fixed.run_batch second_fails 1 7 2 64 = Py.Ret r /\
    Fixed.batch r = 7%Z /\
    Fixed.total_requests r = 2%Z /\
    Fixed.duration r = 1 /\
    (0 <= Fixed.successful r)%Z /\
    (0 <= Fixed.failed r)%Z /\
    (Fixed.successful r + Fixed.failed r = 2)%Z /\
    0 <= Fixed.success_rate r <= 100 /\
    0 <= Fixed.throughput r.
Proof.
  apply (run_batch_result_well_formed second_fails 1 7 2 64).
  - reflexivity.
  - reflexivity.
  - intros j. unfold second_fails. destruct (j =? 0)%Z; reflexivity.
Defined.

Lemma fixed_make_request_not_ok (a : Net.attempt) :
  answered_ok a = false ->
  (exists latency, Fixed.make_request a = Py.Ret (latency, false)) \/
  (exists e, Fixed.make_request a = Py.Raise e).
Proof.
  unfold answered_ok, Fixed.make_request.
  destruct (Net.result a) as [status | e]; intros H.
  - left. rewrite H. eexists; reflexivity.
  - destruct (Py.is_TimeoutError e); [left; eexists; reflexivity |].
    destruct (Py.is_Exception e); [left | right]; eexists; reflexivity.
Qed.

Lemma fixed_tally_without_success (net : Z -> Net.attempt) (N C : Z)
    (t : Fixed.tally) :
  (forall j, answered_ok (net j) = false) ->
  Fixed.run_requests net N C = Py.Ret t ->
  Fixed.successes t = 0%Z /\ Fixed.latencies t = [].
Proof.
  intros Hfail. unfold Fixed.run_requests. intros E.
  destruct (Py.Semaphore C) as [c |]; [| discriminate]. cbn [Py.bind] in E.
  destruct (Py.range3 0 N (Z.min 500 N)) as [starts |]; [| discriminate].
  cbn [Py.bind] in E.
  apply (for_preserves
           (fun t => Fixed.successes t = 0%Z /\ Fixed.latencies t = [])
           (Fixed.run_chunk net N C (Z.min 500 N)) starts)
    with (s := Fixed.tally0) (s' := t);
    [| split; reflexivity | exact E].
  intros s i s' _ Hs Ei. unfold Fixed.run_chunk in Ei.
  destruct (Controller.gather C _) as [results |] eqn:Eg; [| discriminate].
  cbn [Py.bind] in Ei. injection Ei as <-.
  assert (Hres : forall r, In r results ->
             (exists latency, r = Py.Ret (latency, false)) \/
             (exists e, r = Py.Raise e)).
  { intros r Hr. unfold Controller.gather in Eg.
    destruct (map _ _) as [| r0 rs] eqn:Em in Eg.
    - injection Eg as <-. destruct Hr.
    - destruct (C =? 0)%Z; [discriminate |]. injection Eg as <-.
      rewrite <- Em in Hr. apply in_map_iff in Hr.
      destruct Hr as (j & <- & _). apply fixed_make_request_not_ok, Hfail. }
  apply fold_left_preserves; [| exact Hs].
  intros s0 r Hr [H1 H2].
  destruct (Hres r Hr) as [(latency & ->) | (e & ->)]; simpl; auto.
Qed.

(** X8: when no request of a batch is answered with status 200 (and none
    hangs), whatever time the failures took, [run_batch] reports no
    success and [N]
    failures, a success rate and a throughput of 0, and an average and a
    p99 latency of 0: the latencies of failed requests are not part of
    the batch's latency figures. *)
Theorem run_batch_without_success (net : Z -> Net.attempt) (T : Q)
    (b N C : Z) :
  (0 < N)%Z -> (0 < C)%Z ->
  (forall j, hangs (net j) = false) ->
  (forall j, answered_ok (net j) = false) ->
  exists r : Fixed.batch_result,
    Fixed.run_batch net T b N C = Py.Ret r /\
    Fixed.successful r = 0%Z /\
    Fixed.failed r = N /\
    Fixed.success_rate r == 0 /\
    Fixed.throughput r == 0 /\
    Fixed.avg_latency r = 0 /\
    Fixed.p99_latency r = 0.
Proof.
  intros HN HC _ Hfail. unfold Fixed.run_batch.
  destruct (fixed_accounting net N C HN HC) as (t & Et & Hsum).
  destruct (fixed_tally_without_success net N C t Hfail Et) as [Hs Hl].
  rewrite Et. cbn [Py.bind]. rewrite Hs, Hl. simpl Py.sorted.
  fold (guarded_rate (inject_Z 0) T). fold (guarded_success_rate 0 N).
  destruct (guarded_rate_returns (inject_Z 0) T) as (th & Eth & Hp & Hz).
  destruct (guarded_success_rate_returns 0 N) as (sr & Esr & Hsp & _).
  rewrite Eth. cbn [Py.bind Fixed.p99_of]. rewrite Esr. cbn [Py.bind].
  eexists; split; [reflexivity |]. simpl.
  split; [reflexivity |]. split; [lia |].
  split; [rewrite (Hsp HN); unfold Qdiv; ring |].
  split; [| split; reflexivity].
  destruct (Qlt_le_dec 0 T) as [HT | HT].
  - rewrite (Hp HT). unfold Qdiv. ring.
  - rewrite (Hz HT). reflexivity.
Qed.

Lemma run_batch_without_success_witness :
  exists r : Fixed.batch_result,
    Fixed.run_batch always_times_out 4 1 2 64 = Py.Ret r /\
    Fixed.successful r = 0%Z /\
    Fixed.failed r = 2%Z /\
    Fixed.success_rate r == 0 /\
    Fixed.throughput r == 0 /\
    Fixed.avg_latency r = 0 /\
    Fixed.p99_latency r = 0.
Proof.
  apply (run_batch_without_success always_times_out 4 1 2 64).
  - reflexivity.
  - reflexivity.
  - intros j. reflexivity.
  - intros j. reflexivity.
Defined.

(** X9: a batch of no request does not report: for any concurrency that
    is not negative, [run_batch] with a request count of 0 raises
    [ValueError], the chunk size being 0 and used as the step of the chunk
    loop. *)
Theorem run_batch_of_no_request (net : Z -> Net.attempt) (T : Q) (b C : Z) :
  (0 <= C)%Z ->
  Fixed.run_batch net T b 0 C = Py.Raise Py.ValueError.
Proof.
  intros HC. unfold Fixed.run_batch, Fixed.run_requests, Py.Semaphore.
  replace (C <? 0)%Z with false by (symmetry; apply Z.ltb_ge; exact HC).
  reflexivity.
Qed.

Lemma run_batch_of_no_request_witness :
  Fixed.run_batch always_answered 1 1 0 64 = Py.Raise Py.ValueError.
Proof.
  apply (run_batch_of_no_request always_answered 1 1 64). discriminate.
Defined.

(** ** The run of the fixed variant *)

(** What a returned batch result says of the batch's tally. *)
Lemma fixed_run_batch_tally (net : Z -> Net.attempt) (T : Q) (b N C : Z)
    (r : Fixed.batch_result) :
  Fixed.run_batch net T b N C = Py.Ret r ->
  exists t : Fixed.tally,
    Fixed.run_requests net N C = Py.Ret t /\
    Fixed.successful r = Fixed.successes t /\
    Fixed.failed r = Fixed.failures t /\
    Fixed.total_requests r = N /\
    Fixed.duration r = T /\
    guarded_rate (inject_Z (Fixed.successes t)) T
      = Py.Ret (Fixed.throughput r).
Proof.
  unfold Fixed.run_batch. intros E.
  destruct (Fixed.run_requests net N C) as [t |]; [| discriminate].
  cbn [Py.bind] in E. exists t. split; [reflexivity |].
  fold (guarded_rate (inject_Z (Fixed.successes t)) T) in E.
  destruct (guarded_rate (inject_Z (Fixed.successes t)) T) as [th |];
    [| discriminate].
  cbn [Py.bind] in E.
  repeat match type of E with
  | Py.bind ?m _ = _ => destruct m; [cbn [Py.bind] in E | discriminate]
  end.
  injection E as <-. simpl. repeat split; reflexivity.
Qed.

Lemma requests_in_batch_positive (V b : Z) :
  (0 < V)%Z ->
  In b (Py.range2 1 ((V + Fixed.batch_size - 1) / Fixed.batch_size + 1)) ->
  (0 < Fixed.requests_in_batch Fixed.batch_size V b)%Z.
Proof.
  intros HV Hb. rewrite range2_from_1 in Hb. apply in_map_iff in Hb.
  destruct Hb as (k & <- & Hk). apply in_seq in Hk.
  pose proof (ceil_bounds Fixed.batch_size V ltac:(reflexivity)) as Hc.
  unfold Fixed.requests_in_batch, Fixed.batch_size in *. nia.
Qed.

Lemma requests_in_batch_sum (V : Z) :
  (0 < V)%Z ->
  zsum (map (Fixed.requests_in_batch Fixed.batch_size V)
            (Py.range2 1 ((V + Fixed.batch_size - 1) / Fixed.batch_size + 1)))
  = V.
Proof.
  intros HV.
  rewrite requests_plan.
  pose proof (ceil_bounds Fixed.batch_size V ltac:(reflexivity)) as Hc.
  rewrite plan_of_sum; unfold Fixed.batch_size in *; nia.
Qed.

(** The batch loop returns; its totals grow by the batches it runs, and
    it appends their results in order. *)
Lemma batch_loop_returns (net : Z -> Z -> Net.attempt) (durations : Z -> Q)
    (V C : Z) (l : list Z) :
  (0 < C)%Z ->
  (forall b, In b l ->
     (0 < Fixed.requests_in_batch Fixed.batch_size V b)%Z) ->
  forall acc : Fixed.accum,
  exists (acc' : Fixed.accum) (new : list Fixed.batch_result),
    batch_loop Fixed.batch_size net durations V C l acc = Py.Ret acc' /\
    Fixed.all_results acc' = Fixed.all_results acc ++ new /\
    Forall2 (fun b r =>
               Fixed.run_batch (net b) (durations b) b
                 (Fixed.requests_in_batch Fixed.batch_size V b) C
               = Py.Ret r) l new /\
    Fixed.cumulative_requests acc'
      = (Fixed.cumulative_requests acc
         + zsum (map (Fixed.requests_in_batch Fixed.batch_size V) l))%Z /\
    ((0 <= Fixed.cumulative_successes acc <= Fixed.cumulative_requests acc)%Z ->
     (0 <= Fixed.cumulative_successes acc'
        <= Fixed.cumulative_requests acc')%Z).
Proof.
  intros HC. induction l as [| b l IH]; intros Hpos acc.
  - exists acc, []. simpl. rewrite app_nil_r.
    repeat split; try constructor; try lia; tauto.
  - destruct (fixed_run_batch_returns (net b) (durations b) b
                (Fixed.requests_in_batch Fixed.batch_size V b) C
                (Hpos b (or_introl eq_refl)) HC)
      as (r & Er & _ & _ & _ & Hn & Hsum).
    destruct (fixed_run_batch_tally _ _ _ _ _ _ Er)
      as (t & Et & Hs & Hf & _).
    destruct (fixed_counters_nonneg _ _ _ _ Et) as [Hs0 Hf0].
    destruct (IH (fun b' Hb' => Hpos b' (or_intror Hb')) (accumulate acc r))
      as (acc' & new & E & Hall & Hres & Hreq & Hsucc).
    exists acc', (r :: new).
    unfold batch_loop in *. simpl Py.for_. rewrite Er. cbn [Py.bind].
    split; [exact E |].
    split; [rewrite Hall; simpl; rewrite <- app_assoc; reflexivity |].
    split; [constructor; assumption |].
    simpl in Hreq, Hsucc. simpl map.
    change (zsum (?x :: ?xs)) with (x + zsum xs)%Z.
    split; [lia |]. intros H. apply Hsucc. lia.
Qed.

Lemma guarded_rate_of_zero (T x : Q) :
  guarded_rate (inject_Z 0) T = Py.Ret x -> x == 0.
Proof.
  intros E.
  destruct (guarded_rate_returns (inject_Z 0) T) as (y & Ey & Hp & Hz).
  rewrite Ey in E. injection E as <-.
  destruct (Qlt_le_dec 0 T) as [HT | HT].
  - rewrite (Hp HT). unfold Qdiv. ring.
  - rewrite (Hz HT). reflexivity.
Qed.

Lemma num_batches_bounds (V : Z) :
  (0 < V)%Z ->
  (1 <= (V + Fixed.batch_size - 1) / Fixed.batch_size)%Z /\
  ((V <= Fixed.batch_size)%Z ->
   ((V + Fixed.batch_size - 1) / Fixed.batch_size = 1)%Z) /\
  ((Fixed.batch_size < V)%Z ->
   (2 <= (V + Fixed.batch_size - 1) / Fixed.batch_size)%Z).
Proof.
  intros HV.
  pose proof (ceil_bounds Fixed.batch_size V ltac:(reflexivity)) as Hc.
  unfold Fixed.batch_size in *. repeat split; intros; nia.
Qed.

(** The run up to the end of its batch loop. *)
Lemma fixed_run_batches (net : Z -> Z -> Net.attempt) (durations : Z -> Q)
    (V C : Z) :
  (0 < V)%Z -> (0 < C)%Z ->
  exists (acc : Fixed.accum) (r1 : Fixed.batch_result)
         (rest : list Fixed.batch_result),
    batch_loop Fixed.batch_size net durations V C
      (Py.range2 1%Z ((V + Fixed.batch_size - 1) / Fixed.batch_size + 1)%Z)
      Fixed.accum0 = Py.Ret acc /\
    Fixed.all_results acc = r1 :: rest /\
    Fixed.run_batch (net 1%Z) (durations 1%Z) 1%Z
      (Fixed.requests_in_batch Fixed.batch_size V 1%Z) C = Py.Ret r1 /\
    Py.len (Fixed.all_results acc)
      = ((V + Fixed.batch_size - 1) / Fixed.batch_size)%Z /\
    Fixed.cumulative_requests acc = V /\
    (0 <= Fixed.cumulative_successes acc <= V)%Z /\
    Forall (fun b => (0 <= Fixed.successful b)%Z) (Fixed.all_results acc).
Proof.
  intros HV HC.
  set (n := ((V + Fixed.batch_size - 1) / Fixed.batch_size)%Z).
  destruct (num_batches_bounds V HV) as (Hn1 & _). fold n in Hn1.
  destruct (batch_loop_returns net durations V C (Py.range2 1%Z (n + 1)%Z) HC
              (fun b => requests_in_batch_positive V b HV) Fixed.accum0)
    as (acc & new & E & Hall & Hres & Hreq & Hsucc).
  unfold Fixed.accum0 in Hall, Hreq, Hsucc.
  cbn [Fixed.all_results Fixed.cumulative_requests Fixed.cumulative_successes
       app] in Hall, Hreq, Hsucc.
  pose proof (requests_in_batch_sum V HV) as Hsum. fold n in Hsum.
  rewrite Hsum in Hreq.
  assert (Hlen : Py.len new = n).
  { unfold Py.len. rewrite <- (Forall2_length Hres).
    fold (Py.len (Py.range2 1%Z (n + 1)%Z)). rewrite range2_length. lia. }
  assert (Hnn : Forall (fun b => (0 <= Fixed.successful b)%Z) new).
  { clear - Hres. induction Hres as [| b r l new Hr _ IH]; constructor;
      [| exact IH].
    destruct (fixed_run_batch_tally _ _ _ _ _ _ Hr) as (t & Et & Hs & _).
    destruct (fixed_counters_nonneg _ _ _ _ Et) as [Hs0 _]. lia. }
  rewrite (range2_cons 1%Z (n + 1)%Z) in Hres by lia.
  destruct new as [| r1 rest]; [inversion Hres |].
  apply Forall2_cons_iff in Hres. destruct Hres as [Hr1 _].
  exists acc, r1, rest. rewrite Hall.
  split; [exact E |]. split; [reflexivity |]. split; [exact Hr1 |].
  split; [exact Hlen |]. split; [exact Hreq |]. split; [lia | exact Hnn].
Qed.

(** What [run_benchmark] returns, read off its text. *)
Lemma fixed_run_benchmark_shape (net : Z -> Z -> Net.attempt)
    (durations : Z -> Q) (V C : Z) :
  (0 < V)%Z -> (0 < C)%Z ->
  ((V <= Fixed.batch_size)%Z \/
   forall r1 : Fixed.batch_result,
     Fixed.run_batch (net 1%Z) (durations 1%Z) 1%Z
       (Fixed.requests_in_batch Fixed.batch_size V 1%Z) C = Py.Ret r1 ->
     ~ Fixed.throughput r1 == 0) ->
  exists r : Fixed.run_result,
    Fixed.run_benchmark net durations V C = Py.Ret r /\
    Report.total_requests (Fixed.perf r) = V /\
    (0 <= Report.successful (Fixed.perf r))%Z /\
    (0 <= Report.failed (Fixed.perf r))%Z /\
    (Report.successful (Fixed.perf r) + Report.failed (Fixed.perf r) = V)%Z /\
    0 <= Report.success_rate (Fixed.perf r) <= 100 /\
    0 <= Report.throughput (Fixed.perf r) /\
    Py.len (Fixed.batches r)
      = ((V + Fixed.batch_size - 1) / Fixed.batch_size)%Z /\
    Fixed.p99_of
      (Py.sorted
         (flat_map (fun b => Py.replicate (Fixed.avg_latency b)
                                          (Fixed.successful b))
                   (Fixed.batches r)))
      = Py.Ret (Fixed.p99 r) /\
    Forall (fun b => (0 <= Fixed.successful b)%Z) (Fixed.batches r).
Proof.
  intros HV HC Hfirst.
  destruct (fixed_run_batches net durations V C HV HC)
    as (acc & r1 & rest & E & Hall & Er1 & Hlen & Hreq & Hsucc & Hnn).
  unfold Fixed.run_benchmark, Fixed.run_batches, Fixed.num_batches,
    Py.floordiv.
  simpl (Fixed.batch_size =? 0)%Z. cbn [Py.bind].
  match goal with
  | |- context [Py.for_ ?l ?body ?a] =>
      change (Py.for_ l body a)
        with (batch_loop Fixed.batch_size net durations V C l a)
  end.
  rewrite E. cbn [Py.bind].
  fold (guarded_rate (inject_Z (Fixed.cumulative_successes acc))
                     (Fixed.cumulative_time acc)).
  destruct (guarded_rate_returns (inject_Z (Fixed.cumulative_successes acc))
              (Fixed.cumulative_time acc)) as (th & Eth & _).
  rewrite Eth. cbn [Py.bind].
  match goal with
  | |- context [Fixed.p99_of ?l] =>
      destruct (fixed_p99_returns l) as (p & Ep); rewrite Ep
  end.
  cbn [Py.bind].
  assert (Hdeg : exists d,
            (if (1 <? Py.len (Fixed.all_results acc))%Z
             then first_ <- Py.getitem (Fixed.all_results acc) 0%Z ;;
                  last_ <- Py.getitem (Fixed.all_results acc) (-1)%Z ;;
                  d <- Py.truediv (Fixed.throughput first_
                                   - Fixed.throughput last_)
                                  (Fixed.throughput first_) ;;
                  Py.Ret (d * 100)
             else Py.Ret 0) = Py.Ret d).
  { destruct (1 <? Py.len (Fixed.all_results acc))%Z eqn:E1;
      [| eexists; reflexivity].
    apply Z.ltb_lt in E1.
    destruct Hfirst as [Hone | Hth].
    - destruct (num_batches_bounds V HV) as (_ & H1 & _). lia.
    - rewrite Hall, getitem_first. cbn [Py.bind].
      rewrite (getitem_last (r1 :: rest) r1) by discriminate.
      cbn [Py.bind]. unfold Py.truediv.
      destruct (Qeq_bool (Fixed.throughput r1) 0) eqn:Eq.
      + exfalso. apply (Hth r1 Er1). apply Qeq_bool_iff. exact Eq.
      + cbn [Py.bind]. eexists; reflexivity. }
  destruct Hdeg as (d & ->). cbn [Py.bind].
  rewrite Hreq. rewrite truediv_inject_pos by exact HV. cbn [Py.bind].
  eexists; split; [reflexivity |].
  cbn [Fixed.perf Fixed.batches Fixed.p99 Report.total_requests
       Report.successful Report.failed Report.success_rate
       Report.throughput].
  assert (Hsr : 0 <= inject_Z (Fixed.cumulative_successes acc) / inject_Z V
                     * 100 <= 100).
  { apply (guarded_success_rate_in_range (Fixed.cumulative_successes acc) V);
      [exact Hsucc |].
    destruct (guarded_success_rate_returns (Fixed.cumulative_successes acc) V)
      as (x & Ex & Hx & _).
    rewrite Ex, (Hx HV). reflexivity. }
  repeat split; try lia; try apply Hsr; try exact Hlen; try exact Ep;
    try exact Hnn.
  apply (guarded_rate_nonneg (Fixed.cumulative_successes acc)
           (Fixed.cumulative_time acc)); [lia | exact Eth].
Qed.

(** X10: for a positive volume, a positive concurrency and requests none
    of which hangs, [run_benchmark] returns a summary whenever it makes
    one batch only
    (a volume of at most 5000) or its first batch reports a throughput
    other than 0.  The summary accounts for every request: its request
    count is the volume, successes and failures add up to it, the success
    rate is between 0 and 100, the throughput is not negative, and there
    is one batch result for each of the [ceil(V / 5000)] batches. *)
Theorem run_benchmark_accounts_for_volume (net : Z -> Z -> Net.attempt)
    (durations : Z -> Q) (V C : Z) :
  (0 < V)%Z -> (0 < C)%Z ->
  (forall b j, hangs (net b j) = false) ->
  ((V <= Fixed.batch_size)%Z \/
   forall r1 : Fixed.batch_result,
     Fixed.run_batch (net 1%Z) (durations 1%Z) 1%Z
       (Fixed.requests_in_batch Fixed.batch_size V 1%Z) C = Py.Ret r1 ->
     ~ Fixed.throughput r1 == 0) ->
  exists r : Fixed.run_result,
    Fixed.run_benchmark net durations V C = Py.Ret r /\
    Report.total_requests (Fixed.perf r) = V /\
    (0 <= Report.successful (Fixed.perf r))%Z /\
    (0 <= Report.failed (Fixed.perf r))%Z /\
    (Report.successful (Fixed.perf r) + Report.failed (Fixed.perf r) = V)%Z /\
    0 <= Report.success_rate (Fixed.perf r) <= 100 /\
    0 <= Report.throughput (Fixed.perf r) /\
    Py.len (Fixed.batches r)
      = ((V + Fixed.batch_size - 1) / Fixed.batch_size)%Z.
Proof.
  intros HV HC _ Hfirst.
  destruct (fixed_run_benchmark_shape net durations V C HV HC Hfirst)
    as (r & E & H1 & H2 & H3 & H4 & H5 & H6 & H7 & _).
  exists r. split; [exact E |]. split; [exact H1 |]. split; [exact H2 |].
  split; [exact H3 |]. split; [exact H4 |]. split; [exact H5 |].
  split; [exact H6 | exact H7].
Qed.

Lemma run_benchmark_accounts_for_volume_witness :
  exists r : Fixed.run_result,
    Fixed.run_benchmark (fun _ => second_fails) (fun _ => 1) 2%Z 64%Z
      = Py.Ret r /\
    Report.total_requests (Fixed.perf r) = 2%Z /\
    (0 <= Report.successful (Fixed.perf r))%Z /\
    (0 <= Report.failed (Fixed.perf r))%Z /\
    (Report.successful (Fixed.perf r) + Report.failed (Fixed.perf r) = 2)%Z /\
    0 <= Report.success_rate (Fixed.perf r) <= 100 /\
    0 <= Report.throughput (Fixed.perf r) /\
    Py.len (Fixed.batches r)
      = ((2 + Fixed.batch_size - 1) / Fixed.batch_size)%Z.
Proof.
  apply (run_benchmark_accounts_for_volume
           (fun _ => second_fails) (fun _ => 1) 2%Z 64%Z).
  - reflexivity.
  - reflexivity.
  - intros b j. unfold second_fails. destruct (j =? 0)%Z; reflexivity.
  - left. discriminate.
Defined.

(** X11: a run of more than one batch (a volume above 5000) whose first
    batch has no request answered with status 200, and in which no
    request hangs, does not return a summary: every batch is run, and the degradation check then divides
    by the first batch's throughput of 0 and raises [ZeroDivisionError]. *)
Theorem run_benchmark_first_batch_without_success
    (net : Z -> Z -> Net.attempt) (durations : Z -> Q) (V C : Z) :
  (Fixed.batch_size < V)%Z -> (0 < C)%Z ->
  (forall b j, hangs (net b j) = false) ->
  (forall j, answered_ok (net 1%Z j) = false) ->
  Fixed.run_benchmark net durations V C = Py.Raise Py.ZeroDivisionError.
Proof.
  intros HV HC _ Hfail.
  assert (HV0 : (0 < V)%Z) by (unfold Fixed.batch_size in HV; lia).
  destruct (fixed_run_batches net durations V C HV0 HC)
    as (acc & r1 & rest & E & Hall & Er1 & Hlen & Hreq & Hsucc & Hnn).
  destruct (fixed_run_batch_tally _ _ _ _ _ _ Er1)
    as (t & Et & _ & _ & _ & _ & Hth).
  destruct (fixed_tally_without_success _ _ _ _ Hfail Et) as [Hs _].
  rewrite Hs in Hth. apply guarded_rate_of_zero in Hth.
  unfold Fixed.run_benchmark, Fixed.run_batches, Fixed.num_batches,
    Py.floordiv.
  simpl (Fixed.batch_size =? 0)%Z. cbn [Py.bind].
  match goal with
  | |- context [Py.for_ ?l ?body ?a] =>
      change (Py.for_ l body a)
        with (batch_loop Fixed.batch_size net durations V C l a)
  end.
  rewrite E. cbn [Py.bind].
  fold (guarded_rate (inject_Z (Fixed.cumulative_successes acc))
                     (Fixed.cumulative_time acc)).
  destruct (guarded_rate_returns (inject_Z (Fixed.cumulative_successes acc))
              (Fixed.cumulative_time acc)) as (th & Eth & _).
  rewrite Eth. cbn [Py.bind].
  match goal with
  | |- context [Fixed.p99_of ?l] =>
      destruct (fixed_p99_returns l) as (p & ->)
  end.
  cbn [Py.bind].
  destruct (num_batches_bounds V HV0) as (_ & _ & H2).
  replace (1 <? Py.len (Fixed.all_results acc))%Z with true
    by (symmetry; apply Z.ltb_lt; specialize (H2 HV); lia).
  rewrite Hall, getitem_first. cbn [Py.bind].
  rewrite (getitem_last (r1 :: rest) r1) by discriminate.
  cbn [Py.bind]. unfold Py.truediv.
  apply Qeq_bool_iff in Hth. rewrite Hth. reflexivity.
Qed.

Lemma run_benchmark_first_batch_without_success_witness :
  Fixed.run_benchmark (fun _ => always_times_out) (fun _ => 4) 5001 64
    = Py.Raise Py.ZeroDivisionError.
Proof.
  apply (run_benchmark_first_batch_without_success
           (fun _ => always_times_out) (fun _ => 4) 5001 64).
  - reflexivity.
  - reflexivity.
  - intros b j. reflexivity.
  - intros j. reflexivity.
Defined.

(** ** Waves of [investigate_degradation.py] *)

Lemma investigate_make_request_success (a : Net.attempt) (latency : Q)
    (success : bool) (error : option string) :
  Investigate.make_request a = Py.Ret (latency, success, error) ->
  success = answered_ok a.
Proof.
  unfold Investigate.make_request, answered_ok.
  destruct (Net.result a) as [status | e].
  - intros E. injection E as _ <- _. reflexivity.
  - destruct (Py.is_TimeoutError e);
      [intros E; injection E as _ <- _; reflexivity |].
    destruct (Py.is_Exception e); [| discriminate].
    intros E. injection E as _ <- _. reflexivity.
Qed.

Lemma investigate_count_result_successful (t : Investigate.tally)
    (latency : Q) (success : bool) (error : option string) :
  Investigate.successful_
    (Investigate.count_result t (latency, success, error))
  = (Investigate.successful_ t + (if success then 1 else 0))%Z.
Proof.
  unfold Investigate.count_result. destruct success; simpl.
  - reflexivity.
  - destruct error as [[| c m] |]; simpl; lia.
Qed.

Lemma investigate_tally_successes (net : Z -> Net.attempt) (js : list Z) :
  forall (rs : list (Q * bool * option string)) (t : Investigate.tally),
    Investigate.all_results
      (map (fun j => Investigate.make_request (net j)) js) = Py.Ret rs ->
    Investigate.successful_ (fold_left Investigate.count_result rs t)
    = (Investigate.successful_ t
       + Py.len (filter (fun j => answered_ok (net j)) js))%Z.
Proof.
  induction js as [| j js IH]; intros rs t E.
  - simpl in E. injection E as <-. unfold Py.len. simpl. lia.
  - cbn [map Investigate.all_results] in E.
    destruct (Investigate.make_request (net j)) as [[[lat s] err] | e] eqn:Em;
      [| discriminate].
    destruct (Investigate.all_results
                (map (fun j => Investigate.make_request (net j)) js))
      as [rs' |] eqn:Er; [| discriminate].
    cbn [Py.bind] in E. injection E as <-.
    cbn [fold_left]. rewrite (IH rs' _ eq_refl).
    rewrite investigate_count_result_successful.
    rewrite (investigate_make_request_success _ _ _ _ Em).
    cbn [filter]. unfold Py.len.
    destruct (answered_ok (net j)); cbn [List.length]; lia.
Qed.

Lemma successes_of_bounds (net : Z -> Net.attempt) (N : Z) :
  (0 <= N)%Z -> (0 <= successes_of net N <= N)%Z.
Proof.
  intros HN. unfold successes_of.
  pose proof (filter_length_le (fun j => answered_ok (net j))
                               (Py.range2 0 N)) as Hle.
  pose proof (range2_length 0 N) as Hlen. unfold Py.len in *. lia.
Qed.

Lemma successes_of_none (net : Z -> Net.attempt) (N : Z) :
  (forall j, answered_ok (net j) = false) -> successes_of net N = 0%Z.
Proof.
  intros H. unfold successes_of.
  replace (filter (fun j => answered_ok (net j)) (Py.range2 0 N))
    with (@nil Z); [reflexivity |].
  induction (Py.range2 0 N) as [| j l IH]; [reflexivity |].
  cbn [filter]. rewrite H. exact IH.
Qed.

(** What a wave returns, read off [run_wave]. *)
Lemma investigate_run_wave_shape (env : Investigate.wave_env) (w N C : Z) :
  (0 < N)%Z -> (0 < C)%Z ->
  (forall j, Net.ordinary (Investigate.env_net env j) = true) ->
  exists r,
    Investigate.run_wave env w N C = Py.Ret r /\
    Investigate.wave r = w /\
    Investigate.successful r = successes_of (Investigate.env_net env) N /\
    Investigate.failed r = (N - Investigate.successful r)%Z /\
    guarded_rate (inject_Z (Investigate.successful r))
                 (Investigate.env_duration env)
      = Py.Ret (Investigate.throughput r) /\
    (List.length (Investigate.errors r) <= 10)%nat.
Proof.
  intros HN HC Hord. unfold Investigate.run_wave, Py.Semaphore.
  replace (C <? 0)%Z with false by (symmetry; apply Z.ltb_ge; lia).
  cbn [Py.bind]. rewrite gather_returns by exact HC. cbn [Py.bind].
  destruct (all_results_returns
              (map (fun j => Investigate.make_request
                               (Investigate.env_net env j))
                   (Py.range2 0 N))) as (rs & Ers).
  { intros r Hr. apply in_map_iff in Hr. destruct Hr as (j & <- & _).
    apply investigate_make_request_ordinary, Hord. }
  rewrite Ers. cbn [Py.bind].
  pose proof (investigate_tally_successes (Investigate.env_net env)
                (Py.range2 0 N) rs
                {| Investigate.latencies := [];
                   Investigate.successful_ := 0;
                   Investigate.errors_ := [] |} Ers) as Hcount.
  change (Investigate.successful_
            {| Investigate.latencies := [];
               Investigate.successful_ := 0;
               Investigate.errors_ := [] |}) with 0%Z in Hcount.
  set (t := fold_left Investigate.count_result rs _) in *.
  fold (guarded_rate (inject_Z (Investigate.successful_ t))
                     (Investigate.env_duration env)).
  destruct (guarded_rate_returns (inject_Z (Investigate.successful_ t))
              (Investigate.env_duration env)) as (th & Eth & _).
  rewrite Eth. cbn [Py.bind].
  destruct (average_returns (Investigate.latencies t)) as (av & ->).
  cbn [Py.bind].
  destruct (investigate_p99_returns (Investigate.latencies t)) as (p & ->).
  cbn [Py.bind].
  rewrite truediv_inject_pos by exact HN. cbn [Py.bind].
  eexists; split; [reflexivity |].
  cbn [Investigate.wave Investigate.successful Investigate.failed
       Investigate.throughput Investigate.errors].
  repeat split.
  - rewrite Hcount. unfold successes_of. lia.
  - exact Eth.
  - apply firstn_le_length.
Qed.

(** X12: for a positive number of requests and a positive concurrency,
    with every request answered or failing with an exception, [run_wave]
    returns a result for the wave it was asked for.  Its success count is
    the number of requests answered with status 200, between 0 and [N];
    every other request is counted as failed, the throughput is not
    negative, and at most ten error texts are kept. *)
Theorem run_wave_result_well_formed (env : Investigate.wave_env)
    (w N C : Z) :
  (0 < N)%Z -> (0 < C)%Z ->
  (forall j, Net.ordinary (Investigate.env_net env j) = true) ->
  exists r : Investigate.wave_metrics,
    Investigate.run_wave env w N C = Py.Ret r /\
    Investigate.wave r = w /\
    Investigate.successful r = successes_of (Investigate.env_net env) N /\
    (0 <= Investigate.successful r <= N)%Z /\
    (Investigate.successful r + Investigate.failed r = N)%Z /\
    0 <= Investigate.throughput r /\
    (List.length (Investigate.errors r) <= 10)%nat.
Proof.
  intros HN HC Hord.
  destruct (investigate_run_wave_shape env w N C HN HC Hord)
    as (r & E & Hw & Hs & Hf & Hth & He).
  pose proof (successes_of_bounds (Investigate.env_net env) N ltac:(lia))
    as Hb.
  exists r. repeat split; try assumption; try lia.
  apply (guarded_rate_nonneg (Investigate.successful r)
           (Investigate.env_duration env)); [lia | exact Hth].
Qed.

Lemma run_wave_result_well_formed_witness :
  exists r : Investigate.wave_metrics,
    Investigate.run_wave quiet_wave 3 2 64 = Py.Ret r /\
    Investigate.wave r = 3%Z /\
    Investigate.successful r
      = successes_of (Investigate.env_net quiet_wave) 2 /\
    (0 <= Investigate.successful r <= 2)%Z /\
    (Investigate.successful r + Investigate.failed r = 2)%Z /\
    0 <= Investigate.throughput r /\
    (List.length (Investigate.errors r) <= 10)%nat.
Proof.
  apply (run_wave_result_well_formed quiet_wave 3 2 64).
  - reflexivity.
  - reflexivity.
  - intros j. reflexivity.
Defined.

(** X13: a wave of no request does not return its result: the result is
    built, and the progress line then divides the success count by the
    request count of 0 and raises [ZeroDivisionError]. *)
Theorem run_wave_of_no_request (env : Investigate.wave_env) (w C : Z) :
  (0 <= C)%Z ->
  Investigate.run_wave env w 0 C = Py.Raise Py.ZeroDivisionError.
Proof.
  intros HC. unfold Investigate.run_wave, Py.Semaphore.
  replace (C <? 0)%Z with false by (symmetry; apply Z.ltb_ge; lia).
  cbn [Py.bind]. change (Py.range2 0 0) with (@nil Z).
  cbn [map Controller.gather Py.bind Investigate.all_results fold_left
       Investigate.successful_ Investigate.latencies].
  fold (guarded_rate (inject_Z 0) (Investigate.env_duration env)).
  destruct (guarded_rate_returns (inject_Z 0) (Investigate.env_duration env))
    as (th & -> & _).
  reflexivity.
Qed.

Lemma run_wave_of_no_request_witness :
  Investigate.run_wave quiet_wave 1 0 64 = Py.Raise Py.ZeroDivisionError.
Proof.
  apply (run_wave_of_no_request quiet_wave 1 64). discriminate.
Defined.

(** ** The investigation as a whole *)

Lemma wave_loop_returns (envs : Z -> Investigate.wave_env) (l : list Z) :
  (forall i j, Net.ordinary (Investigate.env_net (envs i) j) = true) ->
  forall metrics : list Investigate.wave_metrics,
  exists new : list Investigate.wave_metrics,
    wave_loop envs l metrics = Py.Ret (metrics ++ new) /\
    Forall2 (wave_result envs) l new.
Proof.
  intros Hord. induction l as [| i l IH]; intros metrics.
  - exists []. simpl. rewrite app_nil_r. split; constructor.
  - destruct (investigate_run_wave_shape (envs i) i 1000 64
                ltac:(reflexivity) ltac:(reflexivity) (Hord i))
      as (r & Er & _ & Hs & _ & Hth & _).
    destruct (IH (metrics ++ [r])) as (new & E & Hnew).
    exists (r :: new). unfold wave_loop in *. cbn [Py.for_].
    rewrite Er. cbn [Py.bind]. rewrite E, <- app_assoc.
    split; [reflexivity |]. constructor; [| exact Hnew].
    repeat split; assumption.
Qed.

Lemma range2_snoc (a b : Z) :
  (a <= b)%Z -> Py.range2 a (b + 1) = Py.range2 a b ++ [b].
Proof.
  intros H. unfold Py.range2.
  replace (Z.to_nat (b + 1 - a)) with (Datatypes.S (Z.to_nat (b - a))) by lia.
  rewrite seq_S, map_app. cbn [map Nat.add]. do 2 f_equal. lia.
Qed.

(** With at least two waves the metrics are the result of wave 1, those
    of the waves between, and the result of the last wave. *)
Lemma investigate_waves (envs : Z -> Investigate.wave_env) (W : Z) :
  (2 <= W)%Z ->
  (forall i j, Net.ordinary (Investigate.env_net (envs i) j) = true) ->
  exists (first_ last_ : Investigate.wave_metrics)
         (middle : list Investigate.wave_metrics),
    wave_loop envs (Py.range2 1 (W + 1)) []
      = Py.Ret (first_ :: middle ++ [last_]) /\
    wave_result envs 1 first_ /\
    wave_result envs W last_.
Proof.
  intros HW Hord.
  destruct (wave_loop_returns envs (Py.range2 1 (W + 1)) Hord [])
    as (new & E & Hnew).
  cbn [app] in E.
  rewrite (range2_cons 1 (W + 1)) in Hnew by lia.
  change (1 + 1)%Z with 2%Z in Hnew.
  rewrite (range2_snoc 2 W) in Hnew by lia.
  destruct new as [| first_ new]; [inversion Hnew |].
  apply Forall2_cons_iff in Hnew. destruct Hnew as [H1 Hnew].
  apply Forall2_app_inv_l in Hnew.
  destruct Hnew as (middle & tl & _ & Hlast & ->).
  destruct tl as [| last_ tl]; [inversion Hlast |].
  apply Forall2_cons_iff in Hlast. destruct Hlast as [HW' Htl].
  inversion Htl; subst.
  exists first_, last_, middle.
  split; [exact E |]. split; [exact H1 | exact HW'].
Qed.

Lemma filter_nonempty {A : Type} (f : A -> bool) (l : list A) (x : A) :
  In x l -> f x = true -> (0 < Py.len (filter f l))%Z.
Proof.
  intros Hin Hf.
  assert (H : In x (filter f l)) by (apply filter_In; split; assumption).
  unfold Py.len. destruct (filter f l); [destruct H | simpl List.length; lia].
Qed.

Lemma successes_of_some (net : Z -> Net.attempt) (N j : Z) :
  (0 <= j < N)%Z -> answered_ok (net j) = true ->
  (0 < successes_of net N)%Z.
Proof.
  intros Hj Hok. unfold successes_of.
  apply (filter_nonempty (fun j => answered_ok (net j)) _ j); [| exact Hok].
  unfold Py.range2. apply in_map_iff. exists (Z.to_nat j).
  split; [lia |]. apply in_seq. lia.
Qed.

(** X14: an investigation of at least two waves whose first wave has no
    request answered with status 200 ends in [ZeroDivisionError]: all the
    waves are run, and the analysis then divides by the first wave's
    throughput of 0. *)
Theorem investigation_first_wave_without_success
    (envs : Z -> Investigate.wave_env) (W : Z) :
  (2 <= W)%Z ->
  (forall i j, Net.ordinary (Investigate.env_net (envs i) j) = true) ->
  (forall j, answered_ok (Investigate.env_net (envs 1%Z) j) = false) ->
  Investigate.investigate_degradation envs W
  = Py.Raise Py.ZeroDivisionError.
Proof.
  intros HW Hord Hfail.
  destruct (investigate_waves envs W HW Hord)
    as (first_ & last_ & middle & E & (_ & Hs & Hth) & _).
  rewrite (successes_of_none _ 1000 Hfail) in Hs. rewrite Hs in Hth.
  apply guarded_rate_of_zero in Hth.
  unfold Investigate.investigate_degradation.
  fold (wave_loop envs (Py.range2 1 (W + 1)) []). rewrite E. cbn [Py.bind].
  unfold Investigate.analyze_degradation.
  replace (Py.len (first_ :: middle ++ [last_]) <? 2)%Z with false.
  2:{ symmetry. apply Z.ltb_ge. unfold Py.len. cbn [List.length].
      rewrite length_app. cbn [List.length]. lia. }
  cbn [map]. rewrite getitem_first. cbn [Py.bind].
  rewrite (getitem_last _ (Investigate.throughput first_)) by discriminate.
  cbn [Py.bind]. rewrite (of_Q_ext _ 0 Hth), of_Q_0. reflexivity.
Qed.

Lemma investigation_first_wave_without_success_witness :
  Investigate.investigate_degradation
    (fun i => if (i =? 1)%Z then down_wave else quiet_wave) 10
  = Py.Raise Py.ZeroDivisionError.
Proof.
  apply (investigation_first_wave_without_success
           (fun i => if (i =? 1)%Z then down_wave else quiet_wave) 10).
  - discriminate.
  - intros i j. destruct (i =? 1)%Z; reflexivity.
  - intros j. reflexivity.
Defined.

(** X15: an investigation of fewer than two waves runs its waves and
    ends without an analysis. *)
Theorem investigation_of_fewer_than_two_waves
    (envs : Z -> Investigate.wave_env) (W : Z) :
  (W <= 1)%Z ->
  (forall i j, Net.ordinary (Investigate.env_net (envs i) j) = true) ->
  Investigate.investigate_degradation envs W = Py.Ret None.
Proof.
  intros HW Hord.
  destruct (wave_loop_returns envs (Py.range2 1 (W + 1)) Hord [])
    as (new & E & Hnew).
  cbn [app] in E.
  unfold Investigate.investigate_degradation.
  fold (wave_loop envs (Py.range2 1 (W + 1)) []). rewrite E. cbn [Py.bind].
  unfold Investigate.analyze_degradation.
  replace (Py.len new <? 2)%Z with true; [reflexivity |].
  symmetry. apply Z.ltb_lt.
  pose proof (range2_length 1 (W + 1)) as Hlen.
  unfold Py.len in *. rewrite <- (Forall2_length Hnew). lia.
Qed.

Lemma investigation_of_fewer_than_two_waves_witness :
  Investigate.investigate_degradation (fun _ => quiet_wave) 1 = Py.Ret None.
Proof.
  apply (investigation_of_fewer_than_two_waves (fun _ => quiet_wave) 1).
  - discriminate.
  - intros i j. reflexivity.
Defined.

(** A number of at least [2^-1074] is positive as a float. *)
Lemma round_positive (x : Q) : 2 ^ (-1074) <= x -> 0 < Double.round x.
Proof.
  intros H. apply Qlt_le_trans with (2 ^ (-1074)); [apply pow2_pos |].
  apply round_lower_pow2; [lia | exact H].
Qed.

(** X16: an investigation of at least two waves whose first wave took
    positive time and had a request answered with status 200 returns an
    analysis.  Its first throughput is the first wave's successes per
    second, its last throughput is the last wave's, the degradation is
    their difference in percent of the first, in float arithmetic, and a
    significant degradation is listed exactly when that is above 20;
    nothing is listed when it is not. *)
Theorem investigation_compares_first_and_last_wave
    (envs : Z -> Investigate.wave_env) (W j : Z) :
  (2 <= W)%Z ->
  (forall i j, Net.ordinary (Investigate.env_net (envs i) j) = true) ->
  0 < Investigate.env_duration (envs 1%Z) ->
  Investigate.env_duration (envs 1%Z) <= 2 ^ 1024 ->
  (0 <= j < 1000)%Z ->
  answered_ok (Investigate.env_net (envs 1%Z) j) = true ->
  exists s : Investigate.summary,
    Investigate.investigate_degradation envs W = Py.Ret (Some s) /\
    Investigate.first_throughput s
      = inject_Z (successes_of (Investigate.env_net (envs 1%Z)) 1000)
        / Investigate.env_duration (envs 1%Z) /\
    rate_per_second (Investigate.last_throughput s)
      (successes_of (Investigate.env_net (envs W)) 1000)
      (Investigate.env_duration (envs W)) /\
    Investigate.degradation_pct s
      = degradation_between (Investigate.first_throughput s)
                            (Investigate.last_throughput s) /\
    (In Investigate.SignificantDegradation (Investigate.issues s) <->
     exceeds (Investigate.degradation_pct s) 20) /\
    (Investigate.issues s = [] <->
     ~ exceeds (Investigate.degradation_pct s) 20).
Proof.
  intros HW Hord Hdur Hfin Hj Hok.
  destruct (investigate_waves envs W HW Hord)
    as (first_ & last_ & middle & E & (_ & Hs1 & Hth1) & (_ & HsW & HthW)).
  destruct (guarded_rate_returns
              (inject_Z (Investigate.successful first_))
              (Investigate.env_duration (envs 1%Z))) as (x & Ex & Hx & _).
  rewrite Ex in Hth1. injection Hth1 as Hth1. rewrite (Hx Hdur) in Hth1.
  rewrite Hs1 in Hth1. rewrite HsW in HthW.
  pose proof (successes_of_some _ 1000 j Hj Hok) as Hpos.
  assert (Hfirst : 0 < Double.round (Investigate.throughput first_)).
  { apply round_positive. rewrite <- Hth1.
    apply Qle_shift_div_l; [exact Hdur |].
    apply Qle_trans with (2 ^ (-1074) * 2 ^ 1024).
    - rewrite !(Qmult_comm (2 ^ (-1074))).
      apply Qmult_le_compat_r; [exact Hfin |].
      apply Qlt_le_weak, pow2_pos.
    - rewrite <- pow2_add.
      apply Qle_trans with 1; [apply (pow2_le (-1074 + 1024) 0); lia |].
      change 1 with (inject_Z 1). rewrite <- Zle_Qle. lia. }
  unfold Investigate.investigate_degradation.
  fold (wave_loop envs (Py.range2 1 (W + 1)) []). rewrite E. cbn [Py.bind].
  rewrite (analyze_degradation_computes first_ last_ middle Hfirst).
  eexists; split; [reflexivity |].
  cbn [Investigate.first_throughput Investigate.last_throughput
       Investigate.degradation_pct Investigate.issues].
  split; [symmetry; exact Hth1 |].
  split; [apply guarded_rate_spec; exact HthW |].
  split; [reflexivity |].
  split.
  - rewrite in_expected_issues. tauto.
  - unfold expected_issues, exceeds.
    destruct (Double.lt (Double.of_Q 20) _).
    + split; [discriminate |]. intros H. exfalso. apply H. reflexivity.
    + split; [intros _; discriminate | reflexivity].
Qed.

Lemma investigation_compares_first_and_last_wave_witness :
  exists s : Investigate.summary,
    Investigate.investigate_degradation (fun _ => quiet_wave) 2
      = Py.Ret (Some s) /\
    Investigate.first_throughput s
      = inject_Z (successes_of (Investigate.env_net quiet_wave) 1000)
        / Investigate.env_duration quiet_wave /\
    rate_per_second (Investigate.last_throughput s)
      (successes_of (Investigate.env_net quiet_wave) 1000)
      (Investigate.env_duration quiet_wave) /\
    Investigate.degradation_pct s
      = degradation_between (Investigate.first_throughput s)
                            (Investigate.last_throughput s) /\
    (In Investigate.SignificantDegradation (Investigate.issues s) <->
     exceeds (Investigate.degradation_pct s) 20) /\
    (Investigate.issues s = [] <->
     ~ exceeds (Investigate.degradation_pct s) 20).
Proof.
  apply (investigation_compares_first_and_last_wave
           (fun _ => quiet_wave) 2 0).
  - discriminate.
  - intros i j. reflexivity.
  - reflexivity.
  - discriminate.
  - split; [discriminate | reflexivity].
  - reflexivity.
Defined.

(** Floats decide at the threshold.  With 80 requests answered in 6
    seconds and then 308 in 28.875 seconds, the second rate is exactly
    four fifths of the first; the two rates are rounded, the degradation
    comes out above 20, and it is listed as significant. *)
Lemma investigation_at_the_threshold :
  let envs :=
    fun i : Z => if (i =? 1)%Z then wave_80_in_6 else wave_308_in_28875 in
  (80 / 6 - 308 / (28875 # 1000)) / (80 / 6) * 100 == 20 /\
  exists s : Investigate.summary,
    Investigate.investigate_degradation envs 2 = Py.Ret (Some s) /\
    Investigate.first_throughput s == 80 / 6 /\
    Investigate.last_throughput s == 308 / (28875 # 1000) /\
    Investigate.issues s
      = [Investigate.SignificantDegradation; Investigate.GradualDegradation].
Proof.
  split; [reflexivity |].
  eexists. split; [vm_compute; reflexivity |].
  split; [reflexivity |]. split; reflexivity.
Qed.

(** ** The script [scripts/run-benchmark.py] *)

Lemma for_app {A S : Type} (l1 l2 : list A) (body : S -> A -> Py.res S)
    (s : S) :
  Py.for_ (l1 ++ l2) body s = Py.bind (Py.for_ l1 body s) (Py.for_ l2 body).
Proof.
  revert s. induction l1 as [| x l1 IH]; intros s; [reflexivity |].
  cbn [app Py.for_]. destruct (body s x) as [s' |]; [apply IH | reflexivity].
Qed.

Lemma range_len_slices (N C : Z) :
  (0 <= N)%Z -> (0 < C)%Z ->
  (N <= Z.of_nat (Z.to_nat (Py.range_len 0 N C)) * C < N + C)%Z.
Proof.
  intros Hn Hs. unfold Py.range_len.
  replace (0 <? C)%Z with true by (symmetry; apply Z.ltb_lt; exact Hs).
  destruct (0 <? N)%Z eqn:E.
  - apply Z.ltb_lt in E.
    replace ((N - 0 - 1) / C + 1)%Z with ((N + C - 1) / C)%Z.
    + pose proof (ceil_bounds C N Hs) as Hc.
      rewrite Z2Nat.id by nia. exact Hc.
    + replace (N + C - 1)%Z with (N - 0 - 1 + 1 * C)%Z by lia.
      apply Z.div_add. lia.
  - apply Z.ltb_ge in E. simpl. lia.
Qed.

Lemma map_seq_from (m : nat) :
  forall (f : nat -> Z) (n : nat),
    map f (seq n m) = map (fun k => f (n + k)%nat) (seq 0 m).
Proof.
  induction m as [| m IH]; intros f n; [reflexivity |].
  cbn [seq map]. rewrite Nat.add_0_r. f_equal.
  rewrite (IH f (Datatypes.S n)), (IH (fun k => f (n + k)%nat) 1%nat).
  apply map_ext. intros k. f_equal. lia.
Qed.

Lemma range2_split (a b : Z) :
  (0 <= a)%Z -> (0 <= b)%Z ->
  Py.range2 0 (a + b)
  = Py.range2 0 a ++ map (fun j => (a + j)%Z) (Py.range2 0 b).
Proof.
  intros Ha Hb. unfold Py.range2.
  replace (Z.to_nat (a + b - 0)) with (Z.to_nat (a - 0) + Z.to_nat (b - 0))%nat
    by lia.
  rewrite seq_app, map_app. f_equal.
  rewrite map_seq_from, map_map. apply map_ext. intros k. lia.
Qed.

Lemma successes_of_split (net : Z -> Net.attempt) (a b : Z) :
  (0 <= a)%Z -> (0 <= b)%Z ->
  successes_of net (a + b)
  = (successes_of net a
     + Py.len (filter (fun j => answered_ok (net j))
                      (map (fun j => (a + j)%Z) (Py.range2 0 b))))%Z.
Proof.
  intros Ha Hb. unfold successes_of, Py.len.
  rewrite (range2_split a b Ha Hb), filter_app, length_app. lia.
Qed.











(** ** Slices that time out (enhanced variant) *)

Lemma nth_of_zeros (l : list Q) (k : nat) :
  Forall (fun x => x = 0) l -> nth k l 0 = 0.
Proof.
  intros H. revert k. induction H as [| x l Hx _ IH]; intros [| k];
    simpl; auto.
Qed.

Lemma sum_of_zeros (l : list Q) : Forall (fun x => x = 0) l -> Py.sum l == 0.
Proof.
  intros H. rewrite sum_is_total.
  induction H as [| x l Hx _ IH]; [reflexivity |].
  simpl. rewrite Hx, IH. reflexivity.
Qed.

Lemma fold_of_zeros (pick : Q -> Q -> Q) (l : list Q) :
  pick 0 0 = 0 ->
  Forall (fun x => x = 0) l -> fold_left pick l 0 = 0.
Proof.
  intros Hp H. induction H as [| x l Hx _ IH]; [reflexivity |].
  simpl. rewrite Hx, Hp. exact IH.
Qed.

Lemma min_of_zeros (l : list Q) :
  l <> [] -> Forall (fun x => x = 0) l -> Py.min l = Py.Ret 0.
Proof.
  intros Hne H. destruct H as [| x l Hx Hl]; [congruence |].
  unfold Py.min. rewrite Hx. f_equal. apply fold_of_zeros; [reflexivity |].
  exact Hl.
Qed.

Lemma max_of_zeros (l : list Q) :
  l <> [] -> Forall (fun x => x = 0) l -> Py.max l = Py.Ret 0.
Proof.
  intros Hne H. destruct H as [| x l Hx Hl]; [congruence |].
  unfold Py.max. rewrite Hx. f_equal. apply fold_of_zeros; [reflexivity |].
  exact Hl.
Qed.

(** What [Report.build] makes of latencies that are all 0. *)
Lemma report_build_zero (n : Z) (T : Q) (lats : list Q) (s f : Z)
    (cpu : CPUMonitor.summary) :
  Forall (fun x => x = 0) lats ->
  exists r,
    Report.build n T lats s f cpu = Py.Ret r /\
    guarded_success_rate s n = Py.Ret (Report.success_rate (Report.perf r)) /\
    Report.successful (Report.perf r) = s /\
    Report.failed (Report.perf r) = f /\
    Report.min (Report.lat r) = 0 /\
    Report.avg (Report.lat r) == 0 /\
    Report.p50 (Report.lat r) = 0 /\
    Report.p95 (Report.lat r) = 0 /\
    Report.p99 (Report.lat r) = 0 /\
    Report.max (Report.lat r) = 0.
Proof.
  intros Hz. unfold Report.build.
  fold (guarded_rate (inject_Z n) T). fold (guarded_success_rate s n).
  destruct (guarded_rate_returns (inject_Z n) T) as (th & -> & _).
  destruct (guarded_success_rate_returns s n) as (sr & -> & _).
  cbn [Py.bind].
  destruct lats as [| x l].
  - simpl. eexists; split; [reflexivity |]. simpl.
    repeat split; reflexivity.
  - set (lats := x :: l) in *.
    assert (Hne : lats <> []) by discriminate.
    rewrite (min_of_zeros lats Hne Hz), (max_of_zeros lats Hne Hz).
    rewrite truediv_len by exact Hne.
    rewrite !get_percentile_nonempty by (assumption || discriminate).
    cbn [Py.bind]. rewrite !nth_of_zeros by exact Hz.
    eexists; split; [reflexivity |].
    cbn [Report.perf Report.lat Report.success_rate Report.successful
         Report.failed Report.min Report.avg Report.p50 Report.p95
         Report.p99 Report.max].
    repeat split; try reflexivity.
    rewrite (sum_of_zeros lats Hz). unfold Qdiv. ring.
Qed.

Lemma enhanced_timed_out_results (k : nat) :
  forall t : Enhanced.tally,
  exists t' : Enhanced.tally,
    Py.for_ (repeat (Py.Ret (0, false)) k) Enhanced.count_result t
      = Py.Ret t' /\
    Enhanced.successes t' = Enhanced.successes t /\
    Enhanced.failures t' = (Enhanced.failures t + Z.of_nat k)%Z /\
    Enhanced.latencies t' = Enhanced.latencies t ++ repeat 0 k.
Proof.
  induction k as [| k IH]; intros t.
  - exists t. simpl. rewrite app_nil_r. repeat split; lia.
  - cbn [repeat Py.for_ Enhanced.count_result Py.bind].
    match goal with
    | |- context [Py.for_ _ _ ?t1] => destruct (IH t1) as (t' & E & Hs & Hf & Hl)
    end.
    exists t'. split; [exact E |].
    cbn [Enhanced.successes Enhanced.failures Enhanced.latencies] in Hs, Hf, Hl.
    rewrite Hs, Hf, Hl, <- app_assoc. repeat split; lia.
Qed.

Lemma enhanced_timed_out_slice (net : Z -> Net.attempt)
    (batch_timeout : Z -> bool) (n c : Z) (t : Enhanced.tally) (i : Z) :
  batch_timeout i = true ->
  exists t' : Enhanced.tally,
    Enhanced.run_slice net batch_timeout n c t i = Py.Ret t' /\
    Enhanced.successes t' = Enhanced.successes t /\
    Enhanced.failures t'
      = (Enhanced.failures t + Z.max 0 (Z.min c (n - i)))%Z /\
    (Forall (fun x => x = 0) (Enhanced.latencies t) ->
     Forall (fun x => x = 0) (Enhanced.latencies t')).
Proof.
  intros Hto. unfold Enhanced.run_slice, Py.replicate. rewrite Hto.
  destruct (enhanced_timed_out_results (Z.to_nat (Z.min c (n - i))) t)
    as (t' & E & Hs & Hf & Hl).
  exists t'. split; [exact E |]. split; [exact Hs |]. split; [lia |].
  intros Hz. rewrite Hl. apply Forall_app. split; [exact Hz |].
  apply Forall_forall. intros x Hx. apply repeat_spec in Hx. exact Hx.
Qed.

(** X19: when every slice of the enhanced [run_benchmark_test] runs into
    its batch timeout, whatever became of the requests themselves, the
    report counts no success and [N] failures, a success rate of 0, and
    every latency figure is 0: the requests of a slice that timed out are
    all recorded as failures with latency 0. *)
Theorem enhanced_every_slice_times_out (net : Z -> Net.attempt)
    (batch_timeout : Z -> bool) (readings : list CPUMonitor.reading)
    (T : Q) (N C : Z) :
  (0 < N)%Z -> (0 < C)%Z ->
  (forall i, batch_timeout i = true) ->
  exists r : Report.t,
    Enhanced.run_benchmark_test net batch_timeout readings T N C = Py.Ret r /\
    Report.successful (Report.perf r) = 0%Z /\
    Report.failed (Report.perf r) = N /\
    Report.success_rate (Report.perf r) == 0 /\
    Report.min (Report.lat r) = 0 /\
    Report.avg (Report.lat r) == 0 /\
    Report.p50 (Report.lat r) = 0 /\
    Report.p95 (Report.lat r) = 0 /\
    Report.p99 (Report.lat r) = 0 /\
    Report.max (Report.lat r) = 0.
Proof.
  intros HN HC Hto.
  unfold Enhanced.run_benchmark_test, Enhanced.run_requests.
  destruct (slices_cover N C ltac:(lia) HC) as (starts & E & Hpos & Hsum).
  rewrite E. cbn [Py.bind].
  destruct (for_measure Enhanced.failures (fun i => Z.min C (N - i))
              (Enhanced.run_slice net batch_timeout N C) starts)
    with (s := Enhanced.tally0) as (t & Et & Hf).
  { intros s i Hi.
    destruct (enhanced_timed_out_slice net batch_timeout N C s i (Hto i))
      as (s' & Es & _ & Hf & _).
    exists s'. split; [exact Es |]. specialize (Hpos i Hi). lia. }
  rewrite Hsum in Hf. change (Enhanced.failures Enhanced.tally0) with 0%Z in Hf.
  assert (Hinv : Enhanced.successes t = 0%Z /\
                 Forall (fun x => x = 0) (Enhanced.latencies t)).
  { apply (for_preserves
             (fun t => Enhanced.successes t = 0%Z /\
                       Forall (fun x => x = 0) (Enhanced.latencies t))
             (Enhanced.run_slice net batch_timeout N C) starts)
      with (s := Enhanced.tally0); [| split; [reflexivity | constructor] |
                                     exact Et].
    intros s i s' _ [Hs Hz] Es.
    destruct (enhanced_timed_out_slice net batch_timeout N C s i (Hto i))
      as (s'' & Es' & Hs' & _ & Hz').
    rewrite Es' in Es. injection Es as <-.
    split; [lia | apply Hz'; exact Hz]. }
  destruct Hinv as [Hs Hz].
  rewrite Et. cbn [Py.bind].
  destruct (monitor_run_returns CPUMonitor.Enhanced readings) as (cpu & ->).
  cbn [Py.bind].
  assert (Hsz : Forall (fun x => x = 0) (Py.sorted (Enhanced.latencies t))).
  { apply (Permutation_Forall (sorted_permutation _)). exact Hz. }
  destruct (report_build_zero N T (Py.sorted (Enhanced.latencies t))
              (Enhanced.successes t) (Enhanced.failures t) cpu Hsz)
    as (r & Er & Hsr & Hrs & Hrf & Hfig).
  exists r. split; [exact Er |]. split; [lia |]. split; [lia |].
  split; [| exact Hfig].
  rewrite Hs in Hsr.
  destruct (guarded_success_rate_returns 0 N) as (x & Ex & Hx & _).
  rewrite Ex in Hsr. injection Hsr as <-. rewrite (Hx HN).
  unfold Qdiv. ring.
Qed.

Lemma enhanced_every_slice_times_out_witness :
  exists r : Report.t,
    Enhanced.run_benchmark_test always_answered (fun _ => true) [] 60 3 2
      = Py.Ret r /\
    Report.successful (Report.perf r) = 0%Z /\
    Report.failed (Report.perf r) = 3%Z /\
    Report.success_rate (Report.perf r) == 0 /\
    Report.min (Report.lat r) = 0 /\
    Report.avg (Report.lat r) == 0 /\
    Report.p50 (Report.lat r) = 0 /\
    Report.p95 (Report.lat r) = 0 /\
    Report.p99 (Report.lat r) = 0 /\
    Report.max (Report.lat r) = 0.
Proof.
  apply (enhanced_every_slice_times_out always_answered (fun _ => true)
           [] 60 3 2).
  - reflexivity.
  - reflexivity.
  - intros i. reflexivity.
Defined.

(** ** The overall p99 of the fixed variant *)

Lemma getitem_In {A : Type} (l : list A) (i : Z) (x : A) :
  Py.getitem l i = Py.Ret x -> In x l.
Proof.
  unfold Py.getitem.
  destruct ((0 <=? (if (i <? 0)%Z then (i + Py.len l)%Z else i))%Z &&
            ((if (i <? 0)%Z then (i + Py.len l)%Z else i) <? Py.len l)%Z);
    [| discriminate].
  destruct (nth_error l _) as [y |] eqn:E; [| discriminate].
  intros H. injection H as <-. apply (nth_error_In _ _ E).
Qed.

(** X20: for a positive volume, a positive concurrency and requests none
    of which hangs, with one batch only or a first batch whose throughput
    is not 0, the overall p99 that [run_benchmark] reports is not the
    latency of a request: it is the average latency of one of the batches
    that had a success, and 0 when no batch had one. *)
Theorem run_benchmark_p99_is_a_batch_average (net : Z -> Z -> Net.attempt)
    (durations : Z -> Q) (V C : Z) :
  (0 < V)%Z -> (0 < C)%Z ->
  (forall b j, hangs (net b j) = false) ->
  ((V <= Fixed.batch_size)%Z \/
   forall r1 : Fixed.batch_result,
     Fixed.run_batch (net 1%Z) (durations 1%Z) 1%Z
       (Fixed.requests_in_batch Fixed.batch_size V 1%Z) C = Py.Ret r1 ->
     ~ Fixed.throughput r1 == 0) ->
  exists r : Fixed.run_result,
    Fixed.run_benchmark net durations V C = Py.Ret r /\
    ((exists b : Fixed.batch_result,
        In b (Fixed.batches r) /\
        (0 < Fixed.successful b)%Z /\
        Fixed.p99 r = Fixed.avg_latency b) \/
     ((forall b, In b (Fixed.batches r) -> Fixed.successful b = 0%Z) /\
      Fixed.p99 r = 0)).
Proof.
  intros HV HC _ Hfirst.
  destruct (fixed_run_benchmark_shape net durations V C HV HC Hfirst)
    as (r & E & _ & _ & _ & _ & _ & _ & _ & Hp & Hnn).
  exists r. split; [exact E |].
  set (L := flat_map (fun b => Py.replicate (Fixed.avg_latency b)
                                            (Fixed.successful b))
                     (Fixed.batches r)) in *.
  pose proof (sorted_permutation L) as Hperm.
  destruct (Py.sorted L) as [| y S] eqn:ES.
  - right. cbn [Fixed.p99_of] in Hp. injection Hp as Hp.
    split; [| symmetry; exact Hp].
    apply Permutation_sym, Permutation_nil in Hperm.
    intros b Hb. rewrite Forall_forall in Hnn. specialize (Hnn b Hb).
    destruct (Z.to_nat (Fixed.successful b)) as [| k] eqn:Ek; [lia |].
    exfalso.
    assert (Hin : In (Fixed.avg_latency b) L).
    { unfold L. apply in_flat_map. exists b. split; [exact Hb |].
      unfold Py.replicate. rewrite Ek. left. reflexivity. }
    rewrite Hperm in Hin. exact Hin.
  - left.
    destruct (fixed_p99_of_nonempty (y :: S)) as (i & _ & Ei); [discriminate |].
    rewrite Ei in Hp. apply getitem_In in Hp.
    apply (Permutation_in _ (Permutation_sym Hperm)) in Hp.
    unfold L in Hp. apply in_flat_map in Hp. destruct Hp as (b & Hb & Hin).
    unfold Py.replicate in Hin. exists b. split; [exact Hb |].
    split.
    + destruct (Z.to_nat (Fixed.successful b)) eqn:Ek; [destruct Hin | lia].
    + apply repeat_spec in Hin. exact Hin.
Qed.

Lemma run_benchmark_p99_is_a_batch_average_witness :
  exists r : Fixed.run_result,
    Fixed.run_benchmark (fun _ => second_fails) (fun _ => 1) 2 64
      = Py.Ret r /\
    ((exists b : Fixed.batch_result,
        In b (Fixed.batches r) /\
        (0 < Fixed.successful b)%Z /\
        Fixed.p99 r = Fixed.avg_latency b) \/
     ((forall b, In b (Fixed.batches r) -> Fixed.successful b = 0%Z) /\
      Fixed.p99 r = 0)).
Proof.
  apply (run_benchmark_p99_is_a_batch_average
           (fun _ => second_fails) (fun _ => 1) 2 64).
  - reflexivity.
  - reflexivity.
  - intros b j. unfold second_fails. destruct (j =? 0)%Z; reflexivity.
  - left. discriminate.
Defined.

(** ** The test loops of [main] *)

Lemma zsum_const {A : Type} (K : Z) (l : list A) :
  zsum (map (fun _ => K) l) = (Py.len l * K)%Z.
Proof.
  unfold Py.len. induction l as [| x l IH]; [reflexivity |].
  cbn [map List.length]. rewrite Nat2Z.inj_succ.
  change (zsum (K :: map (fun _ : A => K) l))
    with (K + zsum (map (fun _ : A => K) l))%Z.
  rewrite IH. lia.
Qed.

Lemma zsum_indicator {A : Type} (p : A -> bool) (l : list A) :
  zsum (map (fun x => if p x then 1%Z else 0%Z) l) = Py.len (filter p l).
Proof.
  unfold Py.len. induction l as [| x l IH]; [reflexivity |].
  cbn [map filter].
  change (zsum (?a :: ?r)) with (a + zsum r)%Z. rewrite IH.
  destruct (p x); cbn [List.length]; lia.
Qed.

Lemma test_loop_measure (f : Main.loop_state -> Z)
    (test : Main.loop_state -> Z -> Py.res Main.loop_state) (w : Z -> Z)
    (tcs mts levels : list Z) :
  (forall st c, In c levels ->
     exists st', test st c = Py.Ret st' /\ f st' = (f st + w c)%Z) ->
  forall st, exists st',
    test_loop test tcs mts levels st = Py.Ret st' /\
    f st' = (f st + Py.len tcs * (Py.len mts * zsum (map w levels)))%Z.
Proof.
  intros Htest st. unfold test_loop.
  destruct (for_measure f (fun _ => (Py.len mts * zsum (map w levels))%Z)
              (fun st (_ : Z) =>
                 Py.for_ mts (fun st (_ : Z) => Py.for_ levels test st) st)
              tcs) with (s := st) as (st' & E & Hf).
  - intros s _ _.
    destruct (for_measure f (fun _ => zsum (map w levels))
                (fun st (_ : Z) => Py.for_ levels test st) mts)
      with (s := s) as (s' & E & Hf).
    + intros s0 _ _. apply for_measure. exact Htest.
    + exists s'. split; [exact E |]. rewrite Hf, zsum_const. reflexivity.
  - exists st'. split; [exact E |]. rewrite Hf, zsum_const. reflexivity.
Qed.

Lemma fold_max_by_spec {A : Type} (key : A -> Q) (l : list A) :
  forall x : A,
    let m := fold_left
               (fun m y => if Qlt_le_dec (key m) (key y) then y else m) l x in
    In m (x :: l) /\ key x <= key m /\ Forall (fun y => key y <= key m) l.
Proof.
  induction l as [| y l IH]; intros x; simpl.
  - split; [left; reflexivity | split; [apply Qle_refl | constructor]].
  - destruct (Qlt_le_dec (key x) (key y)) as [Hlt | Hle].
    + destruct (IH y) as (Hin & Hge & Hall).
      split; [| split].
      * simpl in Hin. destruct Hin as [E | Hin]; [right; left; exact E |].
        right; right; exact Hin.
      * apply Qle_trans with (key y); [apply Qlt_le_weak; exact Hlt | exact Hge].
      * constructor; assumption.
    + destruct (IH x) as (Hin & Hge & Hall).
      split; [| split].
      * simpl in Hin. destruct Hin as [E | Hin]; [left; exact E |].
        right; right; exact Hin.
      * exact Hge.
      * constructor; [| exact Hall].
        apply Qle_trans with (key x); assumption.
Qed.

Lemma fold_min_by_spec {A : Type} (key : A -> Q) (l : list A) :
  forall x : A,
    let m := fold_left
               (fun m y => if Qlt_le_dec (key y) (key m) then y else m) l x in
    In m (x :: l) /\ key m <= key x /\ Forall (fun y => key m <= key y) l.
Proof.
  induction l as [| y l IH]; intros x; simpl.
  - split; [left; reflexivity | split; [apply Qle_refl | constructor]].
  - destruct (Qlt_le_dec (key y) (key x)) as [Hlt | Hle].
    + destruct (IH y) as (Hin & Hge & Hall).
      split; [| split].
      * simpl in Hin. destruct Hin as [E | Hin]; [right; left; exact E |].
        right; right; exact Hin.
      * apply Qle_trans with (key y); [exact Hge | apply Qlt_le_weak; exact Hlt].
      * constructor; assumption.
    + destruct (IH x) as (Hin & Hge & Hall).
      split; [| split].
      * simpl in Hin. destruct Hin as [E | Hin]; [left; exact E |].
        right; right; exact Hin.
      * exact Hge.
      * constructor; [| exact Hall].
        apply Qle_trans with (key x); assumption.
Qed.

(** The choice of the best configurations among results that exist. *)
Lemma best_of_results (x : Report.t) (l : list Report.t) :
  exists bt bl : Report.t,
    Main.max_by (fun r => Report.throughput (Report.perf r)) (x :: l)
      = Py.Ret bt /\
    Main.min_by (fun r => Report.p99 (Report.lat r)) (x :: l) = Py.Ret bl /\
    best_of (x :: l) (Some (bt, bl)).
Proof.
  destruct (fold_max_by_spec (fun r => Report.throughput (Report.perf r)) l x)
    as (Hin1 & Hx1 & Hall1).
  destruct (fold_min_by_spec (fun r => Report.p99 (Report.lat r)) l x)
    as (Hin2 & Hx2 & Hall2).
  eexists _, _. split; [reflexivity |]. split; [reflexivity |].
  unfold best_of. split; [exact Hin1 |]. split; [exact Hin2 |].
  split; constructor; assumption.
Qed.

Lemma optimized_nonpositive_raises (net : Z -> Net.attempt)
    (readings : list CPUMonitor.reading) (T : Q) (N C : Z) :
  (0 < N)%Z -> (C <= 0)%Z ->
  Optimized.run_benchmark_test net readings T N C
  = Py.Raise (if (C <? 0)%Z then Py.ValueError else Py.ZeroDivisionError).
Proof.
  intros HN HC. unfold Optimized.run_benchmark_test, Py.Semaphore.
  destruct (C <? 0)%Z eqn:E; [reflexivity |].
  apply Z.ltb_ge in E. assert (C = 0%Z) by lia. subst C.
  cbn [Py.bind]. rewrite (range2_cons 0 N HN). reflexivity.
Qed.

Lemma optimized_test_counts (envs : Z -> Main.test_env) (N : Z)
    (st : Main.loop_state) (c : Z) :
  (0 < N)%Z ->
  exists st' : Main.loop_state,
    optimized_test envs N st c = Py.Ret st' /\
    Py.len (snd st')
    = (Py.len (snd st) + (if (0 <? c)%Z then 1 else 0))%Z.
Proof.
  intros HN. unfold optimized_test. destruct (0 <? c)%Z eqn:E.
  - apply Z.ltb_lt in E.
    destruct (optimized_run_returns (Main.net (envs (fst st + 1)%Z))
                (Main.readings (envs (fst st + 1)%Z))
                (Main.total_time (envs (fst st + 1)%Z)) N c E)
      as (r & -> & _).
    eexists; split; [reflexivity |]. cbn [snd]. unfold Py.len.
    rewrite length_app. cbn [List.length]. lia.
  - apply Z.ltb_ge in E.
    rewrite optimized_nonpositive_raises by assumption.
    destruct (c <? 0)%Z; cbn [Py.is_Exception];
      (eexists; split; [reflexivity | cbn [snd]; lia]).
Qed.

(** X21: the optimized [main], for a positive number of requests per
    test and requests none of which hangs, never fails in its test loop
    on account of a test: a test with
    a positive concurrency level gives a result, a test with a level that
    is not positive fails and is skipped.  The saved results number the
    configurations with a positive level; the best configurations are
    printed only when there is a result, and are then a saved result of
    the greatest throughput and one of the least p99 latency. *)
Theorem optimized_main_keeps_the_tests_that_ran (envs : Z -> Main.test_env)
    (N : Z) (thread_counts max_concurrent_tasks_list concurrent_levels : list Z) :
  (0 < N)%Z ->
  (forall k j, hangs (Main.net (envs k) j) = false) ->
  exists o : Main.outcome,
    Main.optimized envs N thread_counts max_concurrent_tasks_list
                   concurrent_levels = Py.Ret o /\
    Py.len (Main.all_results o)
    = (Py.len thread_counts
       * (Py.len max_concurrent_tasks_list
          * Py.len (filter (fun c => (0 <? c)%Z) concurrent_levels)))%Z /\
    best_of (Main.all_results o) (Main.best o).
Proof.
  intros HN _.
  destruct (test_loop_measure (fun st => Py.len (snd st))
              (optimized_test envs N)
              (fun c => if (0 <? c)%Z then 1%Z else 0%Z)
              thread_counts max_concurrent_tasks_list concurrent_levels)
    with (st := ((0%Z, []) : Main.loop_state)) as (st & E & Hlen).
  { intros s c _. apply optimized_test_counts. exact HN. }
  rewrite zsum_indicator in Hlen. cbn [snd] in Hlen.
  change (Py.len (@nil Report.t)) with 0%Z in Hlen.
  unfold Main.optimized.
  change (Py.for_ thread_counts _ (0%Z, []))
    with (test_loop (optimized_test envs N) thread_counts
            max_concurrent_tasks_list concurrent_levels (0%Z, [])).
  rewrite E. cbn [Py.bind].
  destruct (snd st) as [| x l] eqn:Es.
  - eexists; split; [reflexivity |].
    cbn [Main.all_results Main.best best_of].
    split; [rewrite Hlen; apply Z.add_0_l | reflexivity].
  - destruct (best_of_results x l) as (bt & bl & -> & -> & Hbest).
    cbn [Py.bind]. eexists; split; [reflexivity |].
    cbn [Main.all_results Main.best].
    split; [rewrite Hlen; apply Z.add_0_l | exact Hbest].
Qed.

Lemma optimized_main_keeps_the_tests_that_ran_witness :
  exists o : Main.outcome,
    Main.optimized (fun _ => quiet_test) 2
      [2%Z; 4%Z] [8%Z] [0%Z; 64%Z; 128%Z]
      = Py.Ret o /\
    Py.len (Main.all_results o)
    = (Py.len [2%Z; 4%Z]
       * (Py.len [8%Z]
          * Py.len (filter (fun c => (0 <? c)%Z) [0%Z; 64%Z; 128%Z])))%Z /\
    best_of (Main.all_results o) (Main.best o).
Proof.
  apply (optimized_main_keeps_the_tests_that_ran
           (fun _ => quiet_test) 2
      [2%Z; 4%Z] [8%Z] [0%Z; 64%Z; 128%Z]).
  - reflexivity.
  - intros k j. reflexivity.
Defined.

Lemma enhanced_run_returns (net : Z -> Net.attempt)
    (batch_timeout : Z -> bool) (readings : list CPUMonitor.reading)
    (T : Q) (N C : Z) :
  (0 < N)%Z -> C <> 0%Z ->
  (forall j, Net.ordinary (net j) = true) ->
  exists r : Report.t,
    Enhanced.run_benchmark_test net batch_timeout readings T N C = Py.Ret r.
Proof.
  intros HN HC Hord. unfold Enhanced.run_benchmark_test.
  assert (Ht : exists t, Enhanced.run_requests net batch_timeout N C
                         = Py.Ret t).
  { destruct (Z_lt_le_dec 0 C) as [Hpos | Hneg].
    - destruct (enhanced_accounting net batch_timeout N C ltac:(lia) Hpos Hord)
        as (t & Et & _).
      exists t. exact Et.
    - unfold Enhanced.run_requests, Py.range3.
      replace (C =? 0)%Z with false by (symmetry; apply Z.eqb_neq; exact HC).
      unfold Py.range_len.
      replace (0 <? C)%Z with false by (symmetry; apply Z.ltb_ge; lia).
      replace (N <? 0)%Z with false by (symmetry; apply Z.ltb_ge; lia).
      eexists. reflexivity. }
  destruct Ht as (t & ->). cbn [Py.bind].
  destruct (monitor_run_returns CPUMonitor.Enhanced readings) as (cpu & ->).
  cbn [Py.bind].
  destruct (report_build_returns N T (Py.sorted (Enhanced.latencies t))
              (Enhanced.successes t) (Enhanced.failures t) cpu)
    as (r & Er & _).
  exists r. exact Er.
Qed.

Lemma enhanced_test_counts (envs : Z -> Main.test_env) (N : Z)
    (st : Main.loop_state) (c : Z) :
  (0 < N)%Z -> c <> 0%Z ->
  (forall k j, Net.ordinary (Main.net (envs k) j) = true) ->
  exists st' : Main.loop_state,
    enhanced_test envs N st c = Py.Ret st' /\
    Py.len (snd st') = (Py.len (snd st) + 1)%Z.
Proof.
  intros HN Hc Hord. unfold enhanced_test.
  destruct (enhanced_run_returns (Main.net (envs (fst st + 1)%Z))
              (Main.batch_timeout (envs (fst st + 1)%Z))
              (Main.readings (envs (fst st + 1)%Z))
              (Main.total_time (envs (fst st + 1)%Z)) N c HN Hc
              (Hord (fst st + 1)%Z)) as (r & ->).
  cbn [Py.bind]. eexists; split; [reflexivity |].
  cbn [snd]. unfold Py.len. rewrite length_app. cbn [List.length]. lia.
Qed.

Lemma len_positive {A : Type} (l : list A) : l <> [] -> (0 < Py.len l)%Z.
Proof.
  intros H. unfold Py.len. destruct l; [congruence | simpl List.length; lia].
Qed.

(** X22: the enhanced [main], for a positive number of requests per test
    and requests that are answered or fail with an [Exception], runs every
    configuration when there is one and no concurrency level is 0: it
    saves one result for each combination of the three lists, and prints
    as best configurations a saved result of the greatest throughput and
    one of the least p99 latency. *)
Theorem enhanced_main_runs_every_test (envs : Z -> Main.test_env) (N : Z)
    (thread_counts max_concurrent_tasks_list concurrent_levels : list Z) :
  (0 < N)%Z ->
  (forall k j, Net.ordinary (Main.net (envs k) j) = true) ->
  thread_counts <> [] -> max_concurrent_tasks_list <> [] ->
  concurrent_levels <> [] ->
  (forall c, In c concurrent_levels -> c <> 0%Z) ->
  exists (o : Main.outcome) (bt bl : Report.t),
    Main.enhanced envs N thread_counts max_concurrent_tasks_list
                  concurrent_levels = Py.Ret o /\
    Py.len (Main.all_results o)
    = (Py.len thread_counts
       * (Py.len max_concurrent_tasks_list * Py.len concurrent_levels))%Z /\
    Main.best o = Some (bt, bl) /\
    best_of (Main.all_results o) (Main.best o).
Proof.
  intros HN Hord Ht Hm Hl Hnz.
  destruct (test_loop_measure (fun st => Py.len (snd st))
              (enhanced_test envs N) (fun _ => 1%Z)
              thread_counts max_concurrent_tasks_list concurrent_levels)
    with (st := ((0%Z, []) : Main.loop_state)) as (st & E & Hlen).
  { intros s c Hc. apply enhanced_test_counts; [exact HN | | exact Hord].
    apply Hnz. exact Hc. }
  rewrite zsum_ones in Hlen. cbn [snd] in Hlen.
  change (Py.len (@nil Report.t)) with 0%Z in Hlen.
  unfold Main.enhanced.
  change (Py.for_ thread_counts _ (0%Z, []))
    with (test_loop (enhanced_test envs N) thread_counts
            max_concurrent_tasks_list concurrent_levels (0%Z, [])).
  rewrite E. cbn [Py.bind].
  pose proof (len_positive _ Ht) as Ht'.
  pose proof (len_positive _ Hm) as Hm'.
  pose proof (len_positive _ Hl) as Hl'.
  destruct (snd st) as [| x l] eqn:Es.
  - exfalso. change (Py.len (@nil Report.t)) with 0%Z in Hlen. nia.
  - destruct (best_of_results x l) as (bt & bl & -> & -> & Hbest).
    cbn [Py.bind]. eexists _, bt, bl. split; [reflexivity |].
    cbn [Main.all_results Main.best].
    split; [rewrite Hlen; apply Z.add_0_l |].
    split; [reflexivity | exact Hbest].
Qed.

Lemma enhanced_main_runs_every_test_witness :
  exists (o : Main.outcome) (bt bl : Report.t),
    Main.enhanced (fun _ => quiet_test) 2 [2%Z; 4%Z] [8%Z] [64%Z; (-8)%Z]
      = Py.Ret o /\
    Py.len (Main.all_results o)
    = (Py.len [2%Z; 4%Z] * (Py.len [8%Z] * Py.len [64%Z; (-8)%Z]))%Z /\
    Main.best o = Some (bt, bl) /\
    best_of (Main.all_results o) (Main.best o).
Proof.
  apply (enhanced_main_runs_every_test (fun _ => quiet_test) 2
           [2%Z; 4%Z] [8%Z] [64%Z; (-8)%Z]).
  - reflexivity.
  - intros k j. reflexivity.
  - discriminate.
  - discriminate.
  - discriminate.
  - intros c [<- | [<- | []]]; discriminate.
Defined.

Lemma for_const {A S : Type} (body : S -> A -> Py.res S) (l : list A) :
  (forall s x, body s x = Py.Ret s) ->
  forall s, Py.for_ l body s = Py.Ret s.
Proof.
  intros H. induction l as [| x l IH]; intros s; [reflexivity |].
  cbn [Py.for_]. rewrite H. exact (IH s).
Qed.

Lemma test_loop_without_test
    (test : Main.loop_state -> Z -> Py.res Main.loop_state)
    (tcs mts levels : list Z) (st : Main.loop_state) :
  tcs = [] \/ mts = [] \/ levels = [] ->
  test_loop test tcs mts levels st = Py.Ret st.
Proof.
  unfold test_loop. intros [-> | [-> | ->]]; [reflexivity | |].
  - apply for_const. reflexivity.
  - apply for_const. intros s _. apply for_const. reflexivity.
Qed.

Lemma enhanced_levels_raise (envs : Z -> Main.test_env) (N : Z)
    (levels : list Z) :
  (0 < N)%Z ->
  (forall k j, Net.ordinary (Main.net (envs k) j) = true) ->
  In 0%Z levels ->
  forall st : Main.loop_state,
    Py.for_ levels (enhanced_test envs N) st = Py.Raise Py.ValueError.
Proof.
  intros HN Hord. induction levels as [| c levels IH]; intros Hin st.
  - destruct Hin.
  - cbn [Py.for_]. destruct (Z.eq_dec c 0) as [-> | Hc].
    + reflexivity.
    + destruct (enhanced_test_counts envs N st c HN Hc Hord)
        as (st' & -> & _).
      cbn [Py.bind]. apply IH. destruct Hin as [E | Hin]; [congruence |].
      exact Hin.
Qed.

(** X23: the enhanced [main] ends in [ValueError] when one of the three
    lists is empty (there is no result to choose the best configurations
    from) and when a concurrency level is 0 (the test with that level
    fails, and nothing is saved). *)
Theorem enhanced_main_fails (envs : Z -> Main.test_env) (N : Z)
    (thread_counts max_concurrent_tasks_list concurrent_levels : list Z) :
  (0 < N)%Z ->
  (forall k j, Net.ordinary (Main.net (envs k) j) = true) ->
  thread_counts = [] \/ max_concurrent_tasks_list = [] \/
  concurrent_levels = [] \/ In 0%Z concurrent_levels ->
  Main.enhanced envs N thread_counts max_concurrent_tasks_list
                concurrent_levels = Py.Raise Py.ValueError.
Proof.
  intros HN Hord H.
  unfold Main.enhanced.
  change (Py.for_ thread_counts _ (0%Z, []))
    with (test_loop (enhanced_test envs N) thread_counts
            max_concurrent_tasks_list concurrent_levels (0%Z, [])).
  assert (Hcases : (thread_counts = [] \/ max_concurrent_tasks_list = [] \/
                    concurrent_levels = []) \/
                   (thread_counts <> [] /\ max_concurrent_tasks_list <> [] /\
                    In 0%Z concurrent_levels)).
  { destruct thread_counts; [left; left; reflexivity |].
    destruct max_concurrent_tasks_list; [left; right; left; reflexivity |].
    destruct H as [H | [H | [H | H]]]; try discriminate.
    - left. right. right. exact H.
    - right. repeat split; (discriminate || exact H). }
  destruct Hcases as [Hempty | (Ht & Hm & H0)].
  - rewrite (test_loop_without_test _ _ _ _ _ Hempty). reflexivity.
  - destruct thread_counts as [| tc tcs]; [congruence |].
    destruct max_concurrent_tasks_list as [| mt mts]; [congruence |].
    unfold test_loop. cbn [Py.for_].
    rewrite (enhanced_levels_raise envs N concurrent_levels HN Hord H0).
    reflexivity.
Qed.

Lemma enhanced_main_fails_witness :
  Main.enhanced (fun _ => quiet_test) 2 [2%Z; 4%Z] [8%Z] [64%Z; 0%Z]
  = Py.Raise Py.ValueError.
Proof.
  apply (enhanced_main_fails (fun _ => quiet_test) 2
           [2%Z; 4%Z] [8%Z] [64%Z; 0%Z]).
  - reflexivity.
  - intros k j. reflexivity.
  - right. right. right. right. left. reflexivity.
Defined.

(** ** What a batch of the fixed variant counts *)

Lemma fixed_count_request (t : Fixed.tally) (a : Net.attempt) :
  Fixed.successes (Fixed.count_result t (Fixed.make_request a))
  = (Fixed.successes t + (if answered_ok a then 1 else 0))%Z.
Proof.
  unfold Fixed.make_request, answered_ok.
  destruct (Net.result a) as [status | e].
  - cbn [Fixed.count_result]. destruct (status =? 200)%Z;
      cbn [Fixed.successes]; lia.
  - destruct (Py.is_TimeoutError e); [cbn [Fixed.count_result Fixed.successes]; lia |].
    destruct (Py.is_Exception e); cbn [Fixed.count_result Fixed.successes]; lia.
Qed.

Lemma fixed_tally_counts (net : Z -> Net.attempt) (js : list Z) :
  forall t : Fixed.tally,
    Fixed.successes
      (fold_left Fixed.count_result
                 (map (fun j => Fixed.make_request (net j)) js) t)
    = (Fixed.successes t
       + Py.len (filter (fun j => answered_ok (net j)) js))%Z.
Proof.
  induction js as [| j js IH]; intros t.
  - unfold Py.len. simpl. lia.
  - cbn [map fold_left filter]. rewrite IH, fixed_count_request.
    unfold Py.len. destruct (answered_ok (net j)); cbn [List.length]; lia.
Qed.

Lemma fixed_run_chunk_counts (net : Z -> Net.attempt) (N C S : Z)
    (t : Fixed.tally) (i : Z) :
  (0 < C)%Z -> (0 <= i)%Z -> (0 <= Z.min S (N - i))%Z ->
  exists t' : Fixed.tally,
    Fixed.run_chunk net N C S t i = Py.Ret t' /\
    Fixed.successes t'
      = (Fixed.successes t + successes_of net (i + Z.min S (N - i))
         - successes_of net i)%Z.
Proof.
  intros HC Hi Hsize. unfold Fixed.run_chunk.
  set (size := Z.min S (N - i)) in *.
  rewrite gather_returns by exact HC. cbn [Py.bind].
  eexists; split; [reflexivity |].
  replace (map (fun j => Fixed.make_request (net (i + j)%Z))
               (Py.range2 0 size))
    with (map (fun j => Fixed.make_request (net j))
              (map (fun j => (i + j)%Z) (Py.range2 0 size)))
    by (rewrite map_map; reflexivity).
  rewrite fixed_tally_counts, (successes_of_split net i size Hi Hsize). lia.
Qed.

Lemma fixed_run_chunks (net : Z -> Net.attempt) (N C S : Z) :
  (0 <= N)%Z -> (0 < C)%Z -> (0 < S)%Z ->
  forall m : nat,
    (Z.of_nat m * S < N + S)%Z ->
    exists t : Fixed.tally,
      Py.for_ (map (fun k => (0 + Z.of_nat k * S)%Z) (seq 0 m))
              (Fixed.run_chunk net N C S) Fixed.tally0 = Py.Ret t /\
      Fixed.successes t = successes_of net (Z.min N (Z.of_nat m * S)).
Proof.
  intros HN HC HS. induction m as [| m IH]; intros Hm.
  - exists Fixed.tally0. split; [reflexivity |].
    rewrite Z.min_r by lia. reflexivity.
  - destruct IH as (t & Et & Hs); [nia |].
    rewrite seq_S, map_app, for_app, Et. cbn [Py.bind map Py.for_ Nat.add].
    set (i := (0 + Z.of_nat m * S)%Z).
    assert (Hi : (0 <= i < N)%Z) by (unfold i; nia).
    destruct (fixed_run_chunk_counts net N C S t i HC ltac:(lia) ltac:(lia))
      as (t' & -> & Hs').
    cbn [Py.bind]. exists t'. split; [reflexivity |].
    rewrite Z.min_r in Hs by (unfold i in Hi; lia).
    replace (Z.min N (Z.of_nat (Datatypes.S m) * S))
      with (i + Z.min S (N - i))%Z by (unfold i; lia).
    replace (Z.of_nat m * S)%Z with i in Hs by (unfold i; lia).
    lia.
Qed.

Lemma fixed_requests_count (net : Z -> Net.attempt) (N C : Z) :
  (0 < N)%Z -> (0 < C)%Z ->
  exists t : Fixed.tally,
    Fixed.run_requests net N C = Py.Ret t /\
    Fixed.successes t = successes_of net N.
Proof.
  intros HN HC. unfold Fixed.run_requests, Py.Semaphore.
  replace (C <? 0)%Z with false by (symmetry; apply Z.ltb_ge; lia).
  cbn [Py.bind].
  set (S := Z.min 500 N).
  assert (HS : (0 < S)%Z) by (unfold S; lia).
  pose proof (range_len_slices N S ltac:(lia) HS) as Hm.
  destruct (fixed_run_chunks net N C S ltac:(lia) HC HS
              (Z.to_nat (Py.range_len 0 N S)) ltac:(lia)) as (t & Et & Hs).
  rewrite Z.min_l in Hs by lia.
  unfold Py.range3.
  replace (S =? 0)%Z with false by (symmetry; apply Z.eqb_neq; lia).
  cbn [Py.bind]. exists t. split; assumption.
Qed.

(** X24: for a positive number of requests, a positive concurrency and
    requests none of which hangs, [run_batch] counts as successful
    exactly the requests answered with status 200 and as failed all the
    others, and its throughput is that success count per second of the
    batch's duration. *)
Theorem run_batch_counts_the_answers (net : Z -> Net.attempt) (T : Q)
    (b N C : Z) :
  (0 < N)%Z -> (0 < C)%Z ->
  (forall j, hangs (net j) = false) ->
  exists r : Fixed.batch_result,
    Fixed.run_batch net T b N C = Py.Ret r /\
    Fixed.successful r = successes_of net N /\
    Fixed.failed r = (N - successes_of net N)%Z /\
    rate_per_second (Fixed.throughput r) (successes_of net N) T.
Proof.
  intros HN HC _.
  destruct (fixed_run_batch_returns net T b N C HN HC)
    as (r & Er & Hth & _ & _ & _ & Hsum).
  destruct (fixed_run_batch_tally _ _ _ _ _ _ Er) as (t & Et & Hs & _).
  destruct (fixed_requests_count net N C HN HC) as (t' & Et' & Hs').
  rewrite Et in Et'. injection Et' as <-.
  exists r. split; [exact Er |].
  assert (Hr : Fixed.successful r = successes_of net N) by lia.
  split; [exact Hr |]. split; [lia |].
  rewrite <- Hr. apply guarded_rate_spec. exact Hth.
Qed.

Lemma run_batch_counts_the_answers_witness :
  exists r : Fixed.batch_result,
    Fixed.run_batch second_cancelled 1 7 2 64 = Py.Ret r /\
    Fixed.successful r = successes_of second_cancelled 2 /\
    Fixed.failed r = (2 - successes_of second_cancelled 2)%Z /\
    rate_per_second (Fixed.throughput r) (successes_of second_cancelled 2) 1.
Proof.
  apply (run_batch_counts_the_answers second_cancelled 1 7 2 64).
  - reflexivity.
  - reflexivity.
  - intros j. unfold second_cancelled. destruct (j =? 0)%Z; reflexivity.
Defined.

(** ** What the optimized variant counts *)

Lemma process_with_stats_tally (a : Net.attempt) (st : Optimized.stats) :
  Optimized.successes (Optimized.process_with_stats a st)
  = (Optimized.successes st + (if answered_ok a then 1 else 0))%Z /\
  (Optimized.successes (Optimized.process_with_stats a st)
   + Optimized.failures (Optimized.process_with_stats a st)
   = Optimized.successes st + Optimized.failures st
     + (if Net.ordinary a then 1 else 0))%Z.
Proof.
  unfold Optimized.process_with_stats, Optimized.process_request,
    answered_ok, Net.ordinary.
  destruct (Net.result a) as [status | e].
  - destruct (status =? 200)%Z;
      cbn [Optimized.successes Optimized.failures]; lia.
  - destruct e; cbn [Py.is_TimeoutError Py.is_Exception Optimized.successes
                       Optimized.failures]; lia.
Qed.

Lemma run_in_order_tally (net : Z -> Net.attempt) (js : list Z) :
  forall st : Optimized.stats,
    let st' := Controller.run_in_order Optimized.process_with_stats
                 (map net js) st in
    Optimized.successes st'
    = (Optimized.successes st
       + Py.len (filter (fun j => answered_ok (net j)) js))%Z /\
    (Optimized.successes st' + Optimized.failures st'
     = Optimized.successes st + Optimized.failures st
       + Py.len (filter (fun j => Net.ordinary (net j)) js))%Z.
Proof.
  unfold Controller.run_in_order.
  induction js as [| j js IH]; intros st.
  - unfold Py.len. simpl. lia.
  - cbn [map fold_left filter].
    destruct (IH (Optimized.process_with_stats (net j) st)) as [IH1 IH2].
    destruct (process_with_stats_tally (net j) st) as [H1 H2].
    cbv zeta in *. split.
    + rewrite IH1, H1. unfold Py.len.
      destruct (answered_ok (net j)); cbn [List.length]; lia.
    + rewrite IH2, H2. unfold Py.len.
      destruct (Net.ordinary (net j)); cbn [List.length]; lia.
Qed.

(** X25: for a positive concurrency and requests none of which hangs, the
    optimized [run_benchmark_test] counts as successful the requests
    answered with status 200 and as failed the other requests that were
    answered or failed with an [Exception].  A request that is cancelled
    is counted as neither, so successes and failures add up to the
    number of requests that were not cancelled, while the report still
    carries the request count [N]. *)
Theorem optimized_counts_the_answers (net : Z -> Net.attempt)
    (readings : list CPUMonitor.reading) (T : Q) (N C : Z) :
  (0 <= N)%Z -> (0 < C)%Z ->
  (forall j, hangs (net j) = false) ->
  exists r : Report.t,
    Optimized.run_benchmark_test net readings T N C = Py.Ret r /\
    Report.total_requests (Report.perf r) = N /\
    Report.successful (Report.perf r) = successes_of net N /\
    (Report.successful (Report.perf r) + Report.failed (Report.perf r)
     = Py.len (filter (fun j => Net.ordinary (net j)) (Py.range2 0 N)))%Z.
Proof.
  intros HN HC _. unfold Optimized.run_benchmark_test, Py.Semaphore.
  replace (C <? 0)%Z with false by (symmetry; apply Z.ltb_ge; lia).
  cbn [Py.bind].
  rewrite optimized_tasks_are_requests by exact HC. cbn [app].
  cbn [Py.bind]. rewrite gather_returns by exact HC. cbn [Py.bind].
  destruct (monitor_run_returns CPUMonitor.Optimized readings) as (cpu & ->).
  cbn [Py.bind].
  destruct (run_in_order_tally net (Py.range2 0 N) Optimized.stats0)
    as [Hs Hsum].
  set (st := Controller.run_in_order Optimized.process_with_stats
               (map net (Py.range2 0 N)) Optimized.stats0) in *.
  destruct (report_build_returns N T (Py.sorted (Optimized.latencies st))
              (Optimized.successes st) (Optimized.failures st) cpu)
    as (r & E & _ & _ & _ & Hn & Hrs & Hrf).
  exists r. split; [exact E |]. split; [exact Hn |].
  change (Optimized.successes Optimized.stats0) with 0%Z in Hs, Hsum.
  change (Optimized.failures Optimized.stats0) with 0%Z in Hsum.
  rewrite Hrs, Hrf. unfold successes_of. split; lia.
Qed.

Lemma optimized_counts_the_answers_witness :
  exists r : Report.t,
    Optimized.run_benchmark_test second_cancelled [] 1 2 8 = Py.Ret r /\
    Report.total_requests (Report.perf r) = 2%Z /\
    Report.successful (Report.perf r) = successes_of second_cancelled 2 /\
    (Report.successful (Report.perf r) + Report.failed (Report.perf r)
     = Py.len (filter (fun j => Net.ordinary (second_cancelled j))
                      (Py.range2 0 2)))%Z.
Proof.
  apply (optimized_counts_the_answers second_cancelled [] 1 2 8).
  - discriminate.
  - reflexivity.
  - intros j. unfold second_cancelled. destruct (j =? 0)%Z; reflexivity.
Defined.

(** ** A cancelled request in the enhanced variant *)

Lemma for_raises {A S : Type} (body : S -> A -> Py.res S) (e : Py.exn)
    (l : list A) (x : A) :
  In x l ->
  (forall s, body s x = Py.Raise e) ->
  (forall s y, In y l ->
     (exists s', body s y = Py.Ret s') \/ body s y = Py.Raise e) ->
  forall s, Py.for_ l body s = Py.Raise e.
Proof.
  intros Hin Hx Hall. induction l as [| y l IH]; intros s; [destruct Hin |].
  cbn [Py.for_].
  destruct Hin as [-> | Hin]; [rewrite Hx; reflexivity |].
  destruct (Hall s y (or_introl eq_refl)) as [(s' & ->) | ->];
    [| reflexivity].
  cbn [Py.bind]. apply IH; [exact Hin |].
  intros s0 y0 Hy0. apply Hall. right. exact Hy0.
Qed.

Lemma for_only_raises {A S : Type} (body : S -> A -> Py.res S) (e : Py.exn)
    (l : list A) :
  (forall s y, (exists s', body s y = Py.Ret s') \/ body s y = Py.Raise e) ->
  forall s, (exists s', Py.for_ l body s = Py.Ret s') \/
            Py.for_ l body s = Py.Raise e.
Proof.
  intros Hall. induction l as [| y l IH]; intros s.
  - left. eexists; reflexivity.
  - cbn [Py.for_]. destruct (Hall s y) as [(s' & ->) | ->].
    + cbn [Py.bind]. apply IH.
    + right. reflexivity.
Qed.

Lemma enhanced_count_result_raises (t : Enhanced.tally)
    (r : Py.res (Q * bool)) :
  (exists t', Enhanced.count_result t r = Py.Ret t') \/
  Enhanced.count_result t r = Py.Raise Py.TypeError.
Proof.
  destruct r as [[latency success] | e]; cbn [Enhanced.count_result].
  - left. eexists; reflexivity.
  - destruct (Py.is_Exception e); [left; eexists; reflexivity | right].
    reflexivity.
Qed.

Lemma enhanced_count_cancelled (t : Enhanced.tally) (a : Net.attempt) :
  Net.ordinary a = false ->
  Enhanced.count_result t (Enhanced.make_request a) = Py.Raise Py.TypeError.
Proof.
  unfold Net.ordinary, Enhanced.make_request.
  destruct (Net.result a) as [status | e]; [discriminate |].
  intros H. rewrite H. cbn [Enhanced.count_result]. rewrite H. reflexivity.
Qed.

Lemma enhanced_slice_raises (net : Z -> Net.attempt)
    (batch_timeout : Z -> bool) (N C : Z) (t : Enhanced.tally) (i : Z) :
  (exists t', Enhanced.run_slice net batch_timeout N C t i = Py.Ret t') \/
  Enhanced.run_slice net batch_timeout N C t i = Py.Raise Py.TypeError.
Proof.
  unfold Enhanced.run_slice. apply for_only_raises.
  apply enhanced_count_result_raises.
Qed.

Lemma enhanced_slice_with_cancelled (net : Z -> Net.attempt)
    (batch_timeout : Z -> bool) (N C : Z) (i k : Z) :
  batch_timeout i = false ->
  (0 <= k < Z.min C (N - i))%Z ->
  Net.ordinary (net (i + k)%Z) = false ->
  forall t,
    Enhanced.run_slice net batch_timeout N C t i = Py.Raise Py.TypeError.
Proof.
  intros Hto Hk Hc t. unfold Enhanced.run_slice. rewrite Hto.
  apply (for_raises Enhanced.count_result Py.TypeError _
           (Enhanced.make_request (net (i + k)%Z))).
  - apply in_map_iff. exists k. split; [reflexivity |].
    unfold Py.range2. apply in_map_iff. exists (Z.to_nat k).
    split; [lia |]. apply in_seq. lia.
  - intros s. apply enhanced_count_cancelled. exact Hc.
  - intros s y _. apply enhanced_count_result_raises.
Qed.

(** X26: in the enhanced [run_benchmark_test], a request that is
    cancelled in a slice that does not run into its batch timeout ends the
    run with [TypeError]: the cancellation comes back from the gathered
    slice as an object that is not an [Exception], and the counting loop
    then unpacks it as a pair. *)
Theorem enhanced_cancelled_request_raises (net : Z -> Net.attempt)
    (batch_timeout : Z -> bool) (readings : list CPUMonitor.reading)
    (T : Q) (N C j : Z) :
  (0 < C)%Z -> (0 <= j < N)%Z ->
  (forall i, hangs (net i) = false) ->
  (forall i, batch_timeout i = false) ->
  Net.result (net j) = Net.Fails Py.CancelledError ->
  Enhanced.run_benchmark_test net batch_timeout readings T N C
  = Py.Raise Py.TypeError.
Proof.
  intros HC Hj _ Hto Hcancel.
  assert (Hord : Net.ordinary (net j) = false)
    by (unfold Net.ordinary; rewrite Hcancel; reflexivity).
  unfold Enhanced.run_benchmark_test, Enhanced.run_requests, Py.range3.
  replace (C =? 0)%Z with false by (symmetry; apply Z.eqb_neq; lia).
  cbn [Py.bind].
  pose proof (range_len_slices N C ltac:(lia) HC) as Hm.
  set (m := Z.to_nat (Py.range_len 0 N C)) in *.
  pose proof (Z.div_mod j C ltac:(lia)) as Hdiv.
  pose proof (Z.mod_pos_bound j C HC) as Hmod.
  assert (Hq : (0 <= j / C)%Z) by (apply Z.div_pos; lia).
  rewrite (for_raises (Enhanced.run_slice net batch_timeout N C)
             Py.TypeError _ ((j / C) * C)%Z).
  - reflexivity.
  - apply in_map_iff. exists (Z.to_nat (j / C)). split; [lia |].
    apply in_seq. nia.
  - intros t.
    apply (enhanced_slice_with_cancelled net batch_timeout N C
             ((j / C) * C)%Z (j mod C)%Z (Hto _)); [nia |].
    replace (j / C * C + j mod C)%Z with j by lia. exact Hord.
  - intros s y _. apply enhanced_slice_raises.
Qed.

Lemma enhanced_cancelled_request_raises_witness :
  Enhanced.run_benchmark_test second_cancelled never_times_out [] 1 2 8
  = Py.Raise Py.TypeError.
Proof.
  apply (enhanced_cancelled_request_raises second_cancelled never_times_out
           [] 1 2 8 1).
  - reflexivity.
  - split; [discriminate | reflexivity].
  - intros i. unfold second_cancelled. destruct (i =? 0)%Z; reflexivity.
  - intros i. reflexivity.
  - reflexivity.
Defined.

(** ** The report generator on results without CPU samples *)

Lemma truediv_cases (a b : Q) :
  (exists x, Py.truediv a b = Py.Ret x) \/
  Py.truediv a b = Py.Raise Py.ZeroDivisionError.
Proof.
  unfold Py.truediv. destruct (Qeq_bool b 0); [right | left; eexists];
    reflexivity.
Qed.

Lemma truediv_by_zero (a b : Q) :
  b == 0 -> Py.truediv a b = Py.Raise Py.ZeroDivisionError.
Proof.
  intros H. unfold Py.truediv. apply Qeq_bool_iff in H. rewrite H.
  reflexivity.
Qed.

Lemma sum_of_null (l : list Q) : Forall (fun x => x == 0) l -> Py.sum l == 0.
Proof.
  intros H. rewrite sum_is_total.
  induction H as [| x l Hx _ IH]; [reflexivity |].
  simpl. rewrite Hx, IH. reflexivity.
Qed.

Lemma average_of_null (l : list Q) :
  l <> [] -> Forall (fun x => x == 0) l ->
  exists a, Py.truediv (Py.sum l) (inject_Z (Py.len l)) = Py.Ret a /\ a == 0.
Proof.
  intros Hne Hz. rewrite truediv_len by exact Hne.
  eexists; split; [reflexivity |].
  rewrite (sum_of_null l Hz). unfold Qdiv. ring.
Qed.

Ltac truediv_step :=
  match goal with
  | |- context [Py.bind (Py.truediv ?a ?b) _] =>
      destruct (truediv_cases a b) as [[? ->] | ->];
      [cbn [Py.bind] | right; reflexivity]
  end.

Lemma compare_vm_only_divides (results : list GenerateReport.result)
    (acc : list GenerateReport.vm_comparison)
    (item : string * GenerateReport.vm_config) :
  (exists acc', GenerateReport.compare_vm results acc item = Py.Ret acc') \/
  GenerateReport.compare_vm results acc item
  = Py.Raise Py.ZeroDivisionError.
Proof.
  unfold GenerateReport.compare_vm. cbv zeta.
  destruct (filter _ results) as [| r l]; [left; eexists; reflexivity |].
  do 3 truediv_step.
  match goal with
  | |- context [Qlt_le_dec 0 ?c] => destruct (Qlt_le_dec 0 c)
  end.
  - do 4 truediv_step. left. eexists; reflexivity.
  - cbn [Py.bind]. do 3 truediv_step. left. eexists; reflexivity.
Qed.

Lemma compare_vm_without_cpu_or_latency
    (results : list GenerateReport.result)
    (acc : list GenerateReport.vm_comparison) (vm : string)
    (config : GenerateReport.vm_config) (r : GenerateReport.result) :
  In r results -> GenerateReport.vm_size r = vm ->
  without_cpu_or_latency results vm ->
  GenerateReport.compare_vm results acc (vm, config)
  = Py.Raise Py.ZeroDivisionError.
Proof.
  intros Hin Hvm Hzero.
  unfold GenerateReport.compare_vm. cbv zeta. cbn [fst snd].
  set (vm_results := filter _ results).
  assert (Hmem : forall x, In x vm_results ->
                           In x results /\ GenerateReport.vm_size x = vm).
  { intros x Hx. unfold vm_results in Hx. apply filter_In in Hx.
    destruct Hx as [Hx E]. apply String.eqb_eq in E. split; assumption. }
  assert (Hne : vm_results <> []).
  { assert (H : In r vm_results).
    { unfold vm_results. apply filter_In. split; [exact Hin |].
      apply String.eqb_eq. exact Hvm. }
    intros E. rewrite E in H. destruct H. }
  destruct vm_results as [| r0 l] eqn:Ev; [congruence |].
  rewrite <- Ev in *. clear Ev.
  rewrite (truediv_len _ vm_results) by exact Hne. cbn [Py.bind].
  rewrite (truediv_len _ vm_results) by exact Hne. cbn [Py.bind].
  rewrite (truediv_len _ vm_results) by exact Hne. cbn [Py.bind].
  set (avg_throughput_ :=
         Py.sum (map (fun r => Report.throughput
                                 (Report.perf (GenerateReport.report r)))
                     vm_results)
         / inject_Z (Py.len vm_results)).
  set (avg_p99_ :=
         Py.sum (map (fun r => Report.p99
                                 (Report.lat (GenerateReport.report r)))
                     vm_results)
         / inject_Z (Py.len vm_results)).
  set (avg_cpu_ :=
         Py.sum (map (fun r => CPUMonitor.avg_cpu
                                 (Report.resources (GenerateReport.report r)))
                     vm_results)
         / inject_Z (Py.len vm_results)).
  destruct Hzero as [Hcpu | Hp99].
  - assert (Hz : avg_cpu_ == 0).
    { unfold avg_cpu_. rewrite sum_of_null; [unfold Qdiv; ring |].
      apply Forall_forall. intros x Hx. apply in_map_iff in Hx.
      destruct Hx as (y & <- & Hy). destruct (Hmem y Hy). apply Hcpu;
        assumption. }
    destruct (Qlt_le_dec 0 avg_cpu_) as [Hlt | _].
    { exfalso. rewrite Hz in Hlt. discriminate Hlt. }
    cbn [Py.bind]. rewrite (truediv_pos avg_throughput_ 1000) by reflexivity.
    cbn [Py.bind].
    destruct (truediv_cases 100 avg_p99_) as [[b ->] | ->]; [| reflexivity].
    cbn [Py.bind]. rewrite (truediv_by_zero 100 avg_cpu_ Hz). reflexivity.
  - assert (Hz : avg_p99_ == 0).
    { unfold avg_p99_. rewrite sum_of_null; [unfold Qdiv; ring |].
      apply Forall_forall. intros x Hx. apply in_map_iff in Hx.
      destruct Hx as (y & <- & Hy). destruct (Hmem y Hy). apply Hp99;
        assumption. }
    destruct (Qlt_le_dec 0 avg_cpu_) as [Hlt | _].
    + rewrite (truediv_pos avg_throughput_ avg_cpu_ Hlt). cbn [Py.bind].
      rewrite (truediv_pos avg_throughput_ 1000) by reflexivity.
      cbn [Py.bind]. rewrite (truediv_by_zero 100 avg_p99_ Hz). reflexivity.
    + cbn [Py.bind].
      rewrite (truediv_pos avg_throughput_ 1000) by reflexivity.
      cbn [Py.bind]. rewrite (truediv_by_zero 100 avg_p99_ Hz). reflexivity.
Qed.

(** X27: the report generator's [analyze_results] does not survive a VM
    size whose results all carry an average CPU of 0 (which is what a run
    reports when its monitor kept no sample) or all carry a p99 latency
    of 0: the score of that VM divides by these averages without a
    guard, and the comparison loop raises [ZeroDivisionError]. *)
Theorem vm_comparisons_need_cpu_and_latency
    (results : list GenerateReport.result)
    (vm_configs : list (string * GenerateReport.vm_config))
    (vm : string) (config : GenerateReport.vm_config)
    (r : GenerateReport.result) :
  In (vm, config) vm_configs ->
  In r results -> GenerateReport.vm_size r = vm ->
  without_cpu_or_latency results vm ->
  GenerateReport.vm_comparisons results vm_configs
  = Py.Raise Py.ZeroDivisionError.
Proof.
  intros Hvm Hin Hr Hzero. unfold GenerateReport.vm_comparisons.
  apply (for_raises (GenerateReport.compare_vm results)
           Py.ZeroDivisionError vm_configs (vm, config) Hvm).
  - intros acc.
    apply (compare_vm_without_cpu_or_latency results acc vm config r);
      assumption.
  - intros acc item _. apply compare_vm_only_divides.
Qed.

Lemma vm_comparisons_need_cpu_and_latency_witness :
  GenerateReport.vm_comparisons
    [{| GenerateReport.vm_size := "2-core";
        GenerateReport.report := unsampled_report |}]
    [("2-core"%string,
      {| GenerateReport.vcpus := 2; GenerateReport.memory_gb := 4 |})]
  = Py.Raise Py.ZeroDivisionError.
Proof.
  apply (vm_comparisons_need_cpu_and_latency
           [{| GenerateReport.vm_size := "2-core";
               GenerateReport.report := unsampled_report |}]
           [("2-core"%string,
             {| GenerateReport.vcpus := 2; GenerateReport.memory_gb := 4 |})]
           "2-core"%string
           {| GenerateReport.vcpus := 2; GenerateReport.memory_gb := 4 |}
           {| GenerateReport.vm_size := "2-core";
              GenerateReport.report := unsampled_report |}).
  - left. reflexivity.
  - left. reflexivity.
  - reflexivity.
  - left. intros r [<- | []] _. reflexivity.
Defined.
